(** * Fault injectors of mininet/fault_injectors.py

    A shallow embedding of the three injectors of
    [mininet/fault_injectors.py] ([MultiInjector], [LinkInjector],
    [NodeInjector]) together with the fragment of the Python runtime they
    rely on: strings, integers, binary64 floats, exceptions, and the
    effects of a task (shell commands, sleeps, the fault logger, the
    module logger).

    Layout: Python strings, Python numbers, values, the task monad, one
    module per injector class, then the properties. *)

From Stdlib Require Import ZArith List String Ascii Bool Lia.
From Stdlib Require Import DecimalString DecimalZ DecimalPos Sorted.
From Stdlib Require Import Floats.SpecFloat.
Import ListNotations.

Local Open Scope string_scope.
Local Open Scope Z_scope.

(** ** Python strings *)

Module PyStr.

(** The double quote character, which the synthesized [tc] filters contain. *)
Definition dquote : string := String (ascii_of_nat 34) EmptyString.

(** [needle in hay] *)
Fixpoint contains (needle hay : string) : bool :=
  String.prefix needle hay ||
  match hay with
  | EmptyString => false
  | String _ rest => contains needle rest
  end.

(** [s.replace(old, new)] for a non-empty [old]: occurrences are found from
    the left and do not overlap.  [skip] counts the characters of the
    occurrence just replaced that are still to be dropped. *)
Fixpoint replace_from (old new s : string) (skip : nat) : string :=
  match s with
  | EmptyString => EmptyString
  | String c rest =>
      match skip with
      | S k => replace_from old new rest k
      | O =>
          if String.prefix old s
          then new ++ replace_from old new rest (Nat.pred (String.length old))
          else String c (replace_from old new rest O)
      end
  end.

(** With an empty [old] Python puts [new] before every character and at the
    end. *)
Fixpoint intersperse (new s : string) : string :=
  match s with
  | EmptyString => new
  | String c rest => new ++ String c (intersperse new rest)
  end.

Definition replace (old new s : string) : string :=
  match old with
  | EmptyString => intersperse new s
  | _ => replace_from old new s O
  end.

(** [s.count(sub)] for a non-empty [sub]: non-overlapping occurrences. *)
Fixpoint count_from (sub s : string) (skip : nat) : nat :=
  match s with
  | EmptyString => O
  | String c rest =>
      match skip with
      | S k => count_from sub rest k
      | O =>
          if String.prefix sub s
          then S (count_from sub rest (Nat.pred (String.length sub)))
          else count_from sub rest O
      end
  end.

Definition count (sub s : string) : nat :=
  match sub with
  | EmptyString => S (String.length s)
  | _ => count_from sub s O
  end.

(** [str(z)] for an integer. *)
Definition of_Z (z : Z) : string := NilEmpty.string_of_int (Z.to_int z).

(** [str(pid)] where the pid may be [None]. *)
Definition of_pid (pid : option Z) : string :=
  match pid with
  | Some z => of_Z z
  | None => "None"
  end.

(** *** [int(s)] for a string, base 10

    Surrounding white space is dropped, one sign is allowed, and the digits
    may be separated by single underscores. *)

Definition is_space (c : ascii) : bool :=
  let n := nat_of_ascii c in
  ((9 <=? n)%nat && (n <=? 13)%nat) || ((28 <=? n)%nat && (n <=? 32)%nat).

Definition is_digit (c : ascii) : bool :=
  let n := nat_of_ascii c in
  ((48 <=? n)%nat && (n <=? 57)%nat).

Fixpoint lstrip (l : list ascii) : list ascii :=
  match l with
  | c :: rest => if is_space c then lstrip rest else l
  | [] => []
  end.

Definition strip (l : list ascii) : list ascii :=
  rev (lstrip (rev (lstrip l))).

(** The digits of a literal without its underscores; [None] when the
    literal is empty, holds another character, or has an underscore that is
    not between two digits.  [after_digit] says whether the previous
    character was a digit. *)
Fixpoint plain_digits (after_digit : bool) (l : list ascii)
  : option (list ascii) :=
  match l with
  | [] => if after_digit then Some [] else None
  | c :: rest =>
      if is_digit c then option_map (cons c) (plain_digits true rest)
      else if (Ascii.eqb c "_" && after_digit)%bool
           then plain_digits false rest
           else None
  end.

Definition to_Z (s : string) : option Z :=
  let l := strip (list_ascii_of_string s) in
  let '(neg, body) :=
    match l with
    | c :: rest =>
        if Ascii.eqb c "-" then (true, rest)
        else if Ascii.eqb c "+" then (false, rest)
        else (false, l)
    | [] => (false, l)
    end in
  match plain_digits false body with
  | Some ds =>
      match NilEmpty.uint_of_string (string_of_list_ascii ds) with
      | Some u => Some (if neg then - Z.of_uint u else Z.of_uint u)
      | None => None
      end
  | None => None
  end.

End PyStr.

(** ** Python floats: IEEE 754 binary64, round to nearest even *)

Module B64.

Definition prec : Z := 53.
Definition emax : Z := 1024.

Definition float := spec_float.

(** The float nearest to an integer. *)
Definition of_Z (z : Z) : float := binary_normalize prec emax z 0 false.

(** The integer itself as a (not normalised) mantissa with exponent 0. *)
Definition exact (z : Z) : float :=
  match z with
  | Z0 => S754_zero false
  | Zpos m => S754_finite false m 0
  | Zneg m => S754_finite true m 0
  end.

Definition div : float -> float -> float := SFdiv prec emax.
Definition mul : float -> float -> float := SFmul prec emax.
Definition add : float -> float -> float := SFadd prec emax.
Definition sub : float -> float -> float := SFsub prec emax.

Definition is_zero (f : float) : bool :=
  match f with S754_zero _ => true | _ => false end.

Definition is_finite (f : float) : bool :=
  match f with S754_zero _ | S754_finite _ _ _ => true | _ => false end.

(** Rounding towards zero, [None] on infinities and NaN. *)
Definition trunc (f : float) : option Z :=
  match f with
  | S754_zero _ => Some 0
  | S754_finite s m e =>
      let a := if 0 <=? e then Z.shiftl (Zpos m) e
               else Z.shiftr (Zpos m) (- e) in
      Some (if s then - a else a)
  | _ => None
  end.

(** Rounding towards plus infinity, [None] on infinities and NaN. *)
Definition ceil (f : float) : option Z :=
  match f with
  | S754_zero _ => Some 0
  | S754_finite s m e =>
      if 0 <=? e then
        let a := Z.shiftl (Zpos m) e in Some (if s then - a else a)
      else
        let d := Z.shiftl 1 (- e) in
        Some (if s then - (Zpos m / d) else - ((- Zpos m) / d))
  | _ => None
  end.

(** Exact comparison [a < b] of finite dyadic numbers [m * 2^e]. *)
Definition dyadic_ltb (a b : Z * Z) : bool :=
  let e := Z.min (snd a) (snd b) in
  Z.shiftl (fst a) (snd a - e) <? Z.shiftl (fst b) (snd b - e).

Definition dyadic (f : float) : option (Z * Z) :=
  match f with
  | S754_zero _ => Some (0, 0)
  | S754_finite s m e => Some (if s then Zneg m else Zpos m, e)
  | _ => None
  end.

(** [a < b]; false as soon as one side is NaN. *)
Definition ltb (a b : float) : bool :=
  match a, b with
  | S754_nan, _ | _, S754_nan => false
  | S754_infinity sa, S754_infinity sb => sa && negb sb
  | S754_infinity sa, _ => sa
  | _, S754_infinity sb => negb sb
  | _, _ =>
      match dyadic a, dyadic b with
      | Some x, Some y => dyadic_ltb x y
      | _, _ => false
      end
  end.

End B64.

(** ** Exceptions and results *)

(** The Python exceptions the injectors can meet.  [NotModelled] is none of
    them: it marks an input on which this development does not say what
    the runtime does (see [PyFormat]). *)
Inductive exn : Type :=
| IndexError
| TypeError
| ValueError
| KeyError
| AttributeError
| ZeroDivisionError
| OverflowError
| CancelledError
| NotModelled.

Inductive result (A : Type) : Type :=
| Ok (a : A)
| Raise (e : exn).

Arguments Ok {A} a.
Arguments Raise {A} e.

Definition rbind {A B : Type} (r : result A) (k : A -> result B) : result B :=
  match r with
  | Ok a => k a
  | Raise e => Raise e
  end.

Definition of_option {A : Type} (e : exn) (o : option A) : result A :=
  match o with
  | Some a => Ok a
  | None => Raise e
  end.

(** [l[i]] on a list. *)
Definition index {A : Type} (l : list A) (i : nat) : result A :=
  of_option IndexError (nth_error l i).

(** ** [template.format(args...)] with positional arguments

    Covered: literal text, the escapes for an opening and a closing brace
    (the brace doubled), and replacement fields whose name is empty
    (numbered automatically) or a decimal index.  A field with a
    conversion, a format specification, an attribute or a keyword name is
    [NotModelled]. *)

Module PyFormat.

Inductive numbering : Type :=
| Unset
| Auto (next : nat)
| Manual.

Definition all_digits (s : string) : bool :=
  forallb PyStr.is_digit (list_ascii_of_string s).

(** The argument a field named [name] stands for, and the numbering mode
    after it. *)
Definition resolve (name : string) (mode : numbering) (args : list string)
  : result (string * numbering) :=
  match name with
  | EmptyString =>
      match mode with
      | Manual => Raise ValueError
      | Unset => rbind (of_option IndexError (nth_error args 0))
                   (fun a => Ok (a, Auto 1))
      | Auto n => rbind (of_option IndexError (nth_error args n))
                    (fun a => Ok (a, Auto (S n)))
      end
  | _ =>
      if all_digits name then
        match mode with
        | Auto _ => Raise ValueError
        | _ =>
            match NilEmpty.uint_of_string name with
            | Some u =>
                rbind (of_option IndexError (nth_error args (Nat.of_uint u)))
                  (fun a => Ok (a, Manual))
            | None => Raise ValueError
            end
        end
      else Raise NotModelled
  end.

(** [field] is [None] in literal text and holds the characters read so far,
    last first, inside a replacement field. *)
Fixpoint format_from (s : string) (field : option string) (mode : numbering)
  (args : list string) : result string :=
  match field with
  | None =>
      match s with
      | EmptyString => Ok EmptyString
      | String "{" (String "{" rest) =>
          rbind (format_from rest None mode args) (fun t => Ok (String "{" t))
      | String "{" rest => format_from rest (Some EmptyString) mode args
      | String "}" (String "}" rest) =>
          rbind (format_from rest None mode args) (fun t => Ok (String "}" t))
      | String "}" _ => Raise ValueError
      | String c rest =>
          rbind (format_from rest None mode args) (fun t => Ok (String c t))
      end
  | Some acc =>
      match s with
      | EmptyString => Raise ValueError
      | String "}" rest =>
          rbind (resolve (string_of_list_ascii (rev (list_ascii_of_string acc)))
                   mode args) (fun am =>
          rbind (format_from rest None (snd am) args) (fun t =>
          Ok (fst am ++ t)))
      | String "{" _ => Raise NotModelled
      | String c rest => format_from rest (Some (String c acc)) mode args
      end
  end.

Definition format (template : string) (args : list string) : result string :=
  format_from template None Unset args.

End PyFormat.

(** ** Python numbers: [int] and [float] *)

Module PyNum.

Inductive num : Type :=
| Int (z : Z)
| Float (f : B64.float).

(** [float(n)]; an integer too large for a float raises. *)
Definition to_float (n : num) : result B64.float :=
  match n with
  | Float f => Ok f
  | Int z =>
      let f := B64.of_Z z in
      if B64.is_finite f then Ok f else Raise OverflowError
  end.

(** [a / b].  The quotient of two integers is rounded once, from the exact
    quotient. *)
Definition truediv (a b : num) : result num :=
  match a, b with
  | Int x, Int y =>
      if y =? 0 then Raise ZeroDivisionError
      else
        let q := B64.div (B64.exact x) (B64.exact y) in
        if B64.is_finite q then Ok (Float q) else Raise OverflowError
  | _, _ =>
      rbind (to_float a) (fun fa =>
      rbind (to_float b) (fun fb =>
      if B64.is_zero fb then Raise ZeroDivisionError
      else Ok (Float (B64.div fa fb))))
  end.

Definition arith (fz : Z -> Z -> Z) (ff : B64.float -> B64.float -> B64.float)
  (a b : num) : result num :=
  match a, b with
  | Int x, Int y => Ok (Int (fz x y))
  | _, _ =>
      rbind (to_float a) (fun fa =>
      rbind (to_float b) (fun fb => Ok (Float (ff fa fb))))
  end.

Definition mul : num -> num -> result num := arith Z.mul B64.mul.
Definition add : num -> num -> result num := arith Z.add B64.add.
Definition sub : num -> num -> result num := arith Z.sub B64.sub.

(** [int(n)] *)
Definition to_int (n : num) : result Z :=
  match n with
  | Int z => Ok z
  | Float S754_nan => Raise ValueError
  | Float f => of_option OverflowError (B64.trunc f)
  end.

(** [math.ceil(n)] *)
Definition ceil (n : num) : result Z :=
  match n with
  | Int z => Ok z
  | Float S754_nan => Raise ValueError
  | Float f => of_option OverflowError (B64.ceil f)
  end.

Definition as_float (n : num) : B64.float :=
  match n with
  | Int z => B64.exact z
  | Float f => f
  end.

(** [a < b]: integers and floats compare by their exact values. *)
Definition ltb (a b : num) : bool := B64.ltb (as_float a) (as_float b).

(** [max(a, b)]: the second argument wins only when strictly greater. *)
Definition max (a b : num) : num := if ltb a b then b else a.

End PyNum.

Import PyNum.

(** ** Python values handed around untyped *)

Inductive value : Type :=
| VNone
| VInt (z : Z)
| VFloat (f : B64.float)
| VStr (s : string).

Definition VNum (n : num) : value :=
  match n with
  | Int z => VInt z
  | Float f => VFloat f
  end.

(** ** Events of a task *)

Inductive level : Type := Debug | Info | Warn | Error.

(** A value put into a log line: one value, a truth value or a list. *)
Inductive logarg : Type :=
| LVal (v : value)
| LBool (b : bool)
| LList (l : list value).

(** What a task does to the outside, in order.  A log line is kept as the
    format text of the call (without its final newline) and the values put
    into it.  Of the [log.debug] lines only the line at the entry of each
    link synthesizer is recorded; the others repeat what the events next to
    them already hold. *)
Inductive event : Type :=
| EvLog (lvl : level) (text : string) (args : list logarg)
| EvSleep (d : num)
| EvShell (cmd : string) (rc : Z)
| EvExec (argv : list string)
| EvActive (tag kind cmd : string) (rc : Z)
| EvInactive (tag : string).

Definition trace : Type := list event.

(** ** The world around a task

    Everything the source obtains from outside the file: the return code of
    a shell command, whether the task is cancelled during a sleep, whether a
    command ran for more than two seconds, what [cgget] printed, and the
    parts of the runtime that are not spelled out here (the text of a
    float, the float a text denotes, JSON reading and quoting).  The
    answers may depend on everything that happened before. *)
Record World : Type := {
  shell : trace -> string -> Z;
  cancelled : trace -> bool;
  slow : trace -> bool;
  (** [None]: [cgget] failed; otherwise what the searches for
      [cpu.cfs_period_us] and [cpu.cfs_quota_us] captured, if they matched. *)
  cgget : trace -> option (option string * option string);
  float_repr : B64.float -> string;
  float_parse : string -> option B64.float;
  (** The keys of the top-level object of a JSON text; [None] when the text
      is not JSON. *)
  json_keys : string -> option (list string);
  json_quote : string -> string
}.

(** A world where every command succeeds at once and nothing is cancelled. *)
Definition quiet : World := {|
  shell := fun _ _ => 0;
  cancelled := fun _ => false;
  slow := fun _ => false;
  cgget := fun _ => None;
  float_repr := fun _ => "";
  float_parse := fun _ => None;
  json_keys := fun _ => Some [];
  json_quote := fun s => PyStr.dquote ++ s ++ PyStr.dquote
|}.

Section Conversions.
Variable W : World.

  (** [str(v)] *)
Definition py_str (v : value) : string :=
    match v with
    | VNone => "None"
    | VInt z => PyStr.of_Z z
    | VFloat f => float_repr W f
    | VStr s => s
    end.

Definition num_str (n : num) : string :=
    match n with
    | Int z => PyStr.of_Z z
    | Float f => float_repr W f
    end.

  (** [int(v)] *)
Definition py_int (v : value) : result Z :=
    match v with
    | VInt z => Ok z
    | VFloat f => to_int (Float f)
    | VStr s => of_option ValueError (PyStr.to_Z s)
    | VNone => Raise TypeError
    end.

  (** [float(v)] *)
Definition py_float (v : value) : result B64.float :=
    match v with
    | VInt z => to_float (Int z)
    | VFloat f => Ok f
    | VStr s => of_option ValueError (float_parse W s)
    | VNone => Raise TypeError
    end.
End Conversions.

(** ** The task monad: a trace of events and a result or an exception *)

Definition M (A : Type) : Type := trace -> result A * trace.

Definition ret {A : Type} (a : A) : M A := fun tr => (Ok a, tr).

Definition throw {A : Type} (e : exn) : M A := fun tr => (Raise e, tr).

Definition bind {A B : Type} (m : M A) (k : A -> M B) : M B :=
  fun tr =>
    match m tr with
    | (Ok a, tr') => k a tr'
    | (Raise e, tr') => (Raise e, tr')
    end.

Definition lift {A : Type} (r : result A) : M A := fun tr => (r, tr).

Definition emit (e : event) : M unit :=
  fun tr => (Ok tt, (tr ++ [e])%list).

Declare Scope task_scope.
Delimit Scope task_scope with task.
Notation "x <- m ;; k" := (bind m (fun x => k))
  (at level 61, m at next level, right associativity) : task_scope.
Notation "m ;; k" := (bind m (fun _ => k))
  (at level 61, right associativity) : task_scope.
Local Open Scope task_scope.

(** [for _ in range(n): body] *)
Fixpoint repeatM (n : nat) (body : M unit) : M unit :=
  match n with
  | O => ret tt
  | S k => body ;; repeatM k body
  end.

(** [for x in l: body(x)] *)
Fixpoint forM {A : Type} (l : list A) (body : A -> M unit) : M unit :=
  match l with
  | [] => ret tt
  | x :: rest => body x ;; forM rest body
  end.

(** A loop of [n] rounds that carries one variable from round to round. *)
Fixpoint iterM {S : Type} (n : nat) (body : S -> M S) (s : S) : M unit :=
  match n with
  | O => ret tt
  | S k => s' <- body s ;; iterM k body s'
  end.

(** [range(n)] has no element when [n] is negative. *)
Definition range_len (n : Z) : nat := Z.to_nat n.

Section Primitives.
Variable W : World.

Definition log (lvl : level) (text : string) (args : list logarg)
    : M unit :=
    emit (EvLog lvl text args).

  (** [await asyncio.sleep(d)]: the one place where a task can be
      cancelled. *)
Definition sleep (d : num) : M unit :=
    fun tr =>
      (if cancelled W tr then Raise CancelledError else Ok tt,
       (tr ++ [EvSleep d])%list).

  (** [run(cmd, shell=True).returncode] and [call(cmd, shell=True)] *)
Definition sh (cmd : string) : M Z :=
    fun tr => let rc := shell W tr cmd in (Ok rc, (tr ++ [EvShell cmd rc])%list).

  (** Asking the world something, given everything that happened so far. *)
Definition observe {A : Type} (f : World -> trace -> A) : M A :=
    fun tr => (Ok (f W tr), tr).

Definition set_fault_active (tag kind cmd : string) (rc : Z) : M unit :=
    emit (EvActive tag kind cmd rc).

Definition set_fault_inactive (tag : string) : M unit :=
    emit (EvInactive tag).
End Primitives.

(** ** class LinkInjector *)

Module LinkInjector.

Record t : Type := {
  target_interface : string;
  namespace_pid : option Z;
  tag : string;
  fault_target_protocol : string;
  fault_target_dst_ports : option (list Z);
  fault_target_src_ports : option (list Z);
  fault_type : string;
  fault_pattern : string;
  fault_pattern_args : list value;
  fault_args : list string;
  pre_injection_time : num;
  injection_time : num;
  post_injection_time : num
}.

(** [self.target_protocol_table] *)
Definition target_protocol_table : list (string * string) :=
  [("ICMP", "1"); ("IGMP", "2"); ("IP", "4"); ("TCP", "6"); ("UDP", "17");
   ("IPv6", "41"); ("IPv6-ICMP", "58")].

Fixpoint lookup (k : string) (d : list (string * string)) : result string :=
  match d with
  | [] => Raise KeyError
  | (k', v) :: rest => if String.eqb k k' then Ok v else lookup k rest
  end.

(** The namespace prefix of both synthesizers. *)
Definition base_command (node_pid : option Z) : string :=
  match node_pid with
  | None => ""
  | Some pid => "nsenter --target " ++ PyStr.of_Z pid ++ " --net "
  end.

(** [fault_args[1]] when it is [mirror] or [redirect], else [redirect]. *)
Definition redirect_or_mirror (fault_args : list string) : string :=
  match nth_error fault_args 1 with
  | Some m =>
      if (String.eqb m "mirror" || String.eqb m "redirect")%bool
      then m else "redirect"
  | None => "redirect"
  end.

(** Burst and limit of a bottleneck: [fault_args[1]] and [fault_args[2]]
    when the list has more than two entries, [fault_args[1]] and 3000 when
    it has two, else 1600 and 3000. *)
Definition bottleneck_defaults (fault_args : list string) : string * string :=
  match fault_args with
  | _ :: a1 :: a2 :: _ => (a1, a2)
  | [_; a1] => (a1, "3000")
  | _ => ("1600", "3000")
  end.

(** [fault_pattern_args[0]] where the list may be [None]. *)
Definition first_pattern_arg (fault_pattern_args : option (list value))
  : result value :=
  match fault_pattern_args with
  | None => Raise TypeError
  | Some l => index l 0
  end.

Definition maximum_value : Z := 4294967295.

(** The debug line at the entry of each synthesizer. *)
Definition nics_config_text : string :=
  "[make_nics_injection_command] CONFIG: device %s, fault_type %s, fault_pattern %s, fault_pattern_args %s, fault_args %s, tc_cmd %s".

Definition filter_config_text : string :=
  "[make_filter_cmds] CONFIG: fault_pattern %s, fault_pattern_args %s, fault_type %s, fault_args %s, device %s, target_protocol %s, target_dst_ports %s, target_src_ports %s, enable %s".

(** [int(maximum_value * (percentage_to_redirect / 100))] *)
Definition boundary (percentage_to_redirect : Z) : result Z :=
  rbind (truediv (Int percentage_to_redirect) (Int 100)) (fun q =>
  rbind (mul (Int maximum_value) q) to_int).

Definition filter_string (b : Z) : string :=
  " basic match " ++ PyStr.dquote ++ "meta( random mask "
  ++ PyStr.of_Z maximum_value ++ " lt " ++ PyStr.of_Z b ++ " ) "
  ++ PyStr.dquote ++ " ".

Section WithWorld.
Variable W : World.

Definition getPreInjectionTime (inj : t) : M num :=
    f <- lift (to_float (pre_injection_time inj)) ;; ret (Float f).
Definition getInjectionTime (inj : t) : M num :=
    f <- lift (to_float (injection_time inj)) ;; ret (Float f).
Definition getPostInjectionTime (inj : t) : M num :=
    f <- lift (to_float (post_injection_time inj)) ;; ret (Float f).

Definition make_nics_injection_command (node_pid : option Z)
    (device fault_type fault_pattern : string)
    (fault_pattern_args : option (list value)) (fault_args : list string)
    (tc_cmd : string) : M (option string) :=
    log Debug nics_config_text
      [LVal (VStr device); LVal (VStr fault_type); LVal (VStr fault_pattern);
       match fault_pattern_args with
       | None => LVal VNone
       | Some l => LList l
       end;
       LList (map VStr fault_args); LVal (VStr tc_cmd)] ;;
    let base := base_command node_pid in
    let base_qdisc_netem_command :=
      base ++ "tc qdisc " ++ tc_cmd ++ " dev " ++ device ++ " root netem " in
    if PyStr.contains "random" fault_pattern then
      if PyStr.contains "delay" fault_type then
        p <- lift (rbind (first_pattern_arg fault_pattern_args) py_int) ;;
        let random_perc := 100 - p in
        a0 <- lift (index fault_args 0) ;;
        ret (Some (base_qdisc_netem_command ++ fault_type ++ " " ++ a0
                   ++ " reorder " ++ PyStr.of_Z random_perc ++ "%"))
      else if PyStr.contains "redirect" fault_type then
        percentage_to_redirect <-
          lift (rbind (first_pattern_arg fault_pattern_args) py_int) ;;
        b <- lift (boundary percentage_to_redirect) ;;
        destination_interface <- lift (index fault_args 0) ;;
        let mode := redirect_or_mirror fault_args in
        if PyStr.contains "add" tc_cmd then
          let prep_command :=
            base ++ "tc qdisc " ++ tc_cmd ++ " dev " ++ device
            ++ " handle ffff: ingress " in
          let command :=
            base ++ "tc filter " ++ tc_cmd ++ " dev " ++ device
            ++ (" parent ffff: " ++ filter_string b ++ " ")
            ++ " action mirred egress " ++ mode ++ " dev "
            ++ destination_interface in
          ret (Some (prep_command ++ " ; " ++ command))
        else if PyStr.contains "del" tc_cmd then
          ret (Some (base ++ "tc qdisc " ++ tc_cmd ++ " dev " ++ device
                     ++ " ingress "))
        else ret None
      else
        v <- lift (first_pattern_arg fault_pattern_args) ;;
        ret (Some (base_qdisc_netem_command ++ fault_type ++ " "
                   ++ py_str W v ++ "%"))
    else if PyStr.contains "persistent" fault_pattern then
      if PyStr.contains "delay" fault_type then
        a0 <- lift (index fault_args 0) ;;
        ret (Some (base_qdisc_netem_command ++ fault_type ++ " " ++ a0))
      else if PyStr.contains "bottleneck" fault_type then
        let '(default_bottleneck_burst, default_limit_burst) :=
          bottleneck_defaults fault_args in
        a0 <- lift (index fault_args 0) ;;
        ret (Some (base ++ "tc qdisc " ++ tc_cmd ++ " dev " ++ device
                   ++ " root tbf rate " ++ a0 ++ "kbit burst "
                   ++ default_bottleneck_burst ++ " limit "
                   ++ default_limit_burst))
      else if PyStr.contains "redirect" fault_type then
        destination_interface <- lift (index fault_args 0) ;;
        let mode := redirect_or_mirror fault_args in
        if PyStr.contains "add" tc_cmd then
          let prep_command :=
            base ++ "tc qdisc " ++ tc_cmd ++ " dev " ++ device
            ++ " handle ffff: ingress " in
          let command :=
            base ++ "tc filter " ++ tc_cmd ++ " dev " ++ device
            ++ " parent ffff: matchall " ++ " action mirred egress " ++ mode
            ++ " dev " ++ destination_interface in
          ret (Some (prep_command ++ " ; " ++ command))
        else if PyStr.contains "del" tc_cmd then
          ret (Some (base ++ "tc qdisc " ++ tc_cmd ++ " dev " ++ device
                     ++ " ingress "))
        else ret None
      else if PyStr.contains "down" fault_type then
        if PyStr.contains "add" tc_cmd then
          ret (Some (base ++ "ifconfig " ++ device ++ " down"))
        else if PyStr.contains "del" tc_cmd then
          ret (Some (base ++ "ifconfig " ++ device ++ " up"))
        else ret None
      else
        ret (Some (base_qdisc_netem_command ++ fault_type ++ " 100%"))
    else
      log Error "Fault pattern %s is unknown" [LVal (VStr fault_pattern)] ;;
      ret None.

  (** A port list as it appears in a log line. *)
Definition ports_arg (ports : option (list Z)) : logarg :=
    match ports with
    | None => LVal VNone
    | Some l => LList (map VInt l)
    end.

  (** One classifier per port of a port list that is neither [None] nor
      empty. *)
Definition port_filters (prefix_cmd direction : string)
    (ports : option (list Z)) : list string :=
    match ports with
    | Some ((_ :: _) as l) =>
        map (fun target_port =>
               let target_port_cmd :=
                 "match ip " ++ direction ++ " " ++ PyStr.of_Z target_port
                 ++ " 0xffff" in
               prefix_cmd ++ " " ++ target_port_cmd ++ " flowid 1:1") l
    | _ => []
    end.

Definition make_filtered_nics_injection_commands (node_pid : option Z)
    (fault_pattern : string) (fault_pattern_args : list value)
    (fault_type : string) (fault_args : list string)
    (device target_protocol : string)
    (target_dst_ports target_src_ports : option (list Z)) (enable : bool)
    : M (list string) :=
    log Debug filter_config_text
      [LVal (VStr fault_pattern); LList fault_pattern_args;
       LVal (VStr fault_type); LList (map VStr fault_args);
       LVal (VStr device); LVal (VStr target_protocol);
       ports_arg target_dst_ports; ports_arg target_src_ports;
       LBool enable] ;;
    let base := base_command node_pid in
    if enable then
      let cmd_list0 :=
        if PyStr.contains "redirect" fault_type
        then [base ++ "tc qdisc add dev " ++ device ++ " handle ffff: ingress "]
        else [base ++ "tc qdisc add dev " ++ device ++ " root handle 1: prio"]
      in
      let base_qdisc_netem_command :=
        base ++ "tc filter add dev " ++ device
        ++ " parent 1:0 protocol ip prio 1 u32 " in
      number <- lift (lookup target_protocol target_protocol_table) ;;
      let target_protocol_cmd := "match ip protocol " ++ number ++ " 0xff" in
      let classifier := base_qdisc_netem_command ++ target_protocol_cmd in
      let dst_filters := port_filters classifier "dport" target_dst_ports in
      let src_filters := port_filters classifier "sport" target_src_ports in
      let bare_filter :=
        match target_dst_ports, target_src_ports with
        | None, None => [classifier ++ " flowid 1:1"]
        | _, _ => []
        end in
      let cmd_list :=
        (cmd_list0 ++ dst_filters ++ src_filters ++ bare_filter)%list in
      let leaf :=
        base ++ "tc qdisc add dev " ++ device ++ " parent 1:1 handle 2: " in
      if PyStr.contains "random" fault_pattern then
        if PyStr.contains "delay" fault_type then
          p <- lift (rbind (index fault_pattern_args 0) py_int) ;;
          let random_perc := 100 - p in
          a0 <- lift (index fault_args 0) ;;
          let leaf_cmd :=
            leaf ++ "netem " ++ fault_type ++ " " ++ a0 ++ " reorder "
            ++ PyStr.of_Z random_perc ++ "%" in
          ret (cmd_list ++ [leaf_cmd])%list
        else
          v <- lift (index fault_pattern_args 0) ;;
          let leaf_cmd :=
            leaf ++ "netem " ++ fault_type ++ " " ++ py_str W v ++ "%" in
          ret (cmd_list ++ [leaf_cmd])%list
      else if PyStr.contains "persistent" fault_pattern then
        if PyStr.contains "bottleneck" fault_type then
          let '(default_bottleneck_burst, default_limit_burst) :=
            bottleneck_defaults fault_args in
          a0 <- lift (index fault_args 0) ;;
          let leaf_cmd :=
            leaf ++ "tbf rate " ++ a0 ++ "kbit burst "
            ++ default_bottleneck_burst ++ " limit " ++ default_limit_burst in
          ret (cmd_list ++ [leaf_cmd])%list
        else if PyStr.contains "redirect" fault_type then
          destination_interface <- lift (index fault_args 0) ;;
          let append_string :=
            " action mirred egress " ++ redirect_or_mirror fault_args
            ++ " dev " ++ destination_interface in
          ret (map (fun cmd =>
                      if PyStr.contains "match" cmd
                      then PyStr.replace "parent 1:0" "parent ffff:" cmd
                           ++ append_string
                      else cmd) cmd_list)
        else
          tc_arg <- lift (if PyStr.contains "delay" fault_type
                          then index fault_args 0 else Ok "100%") ;;
          let leaf_cmd := leaf ++ "netem " ++ fault_type ++ " " ++ tc_arg in
          ret (cmd_list ++ [leaf_cmd])%list
      else ret cmd_list
    else
      if PyStr.contains "redirect" fault_type
      then ret [base ++ "tc qdisc del dev " ++ device ++ " ingress "]
      else ret [base ++ "tc qdisc del dev " ++ device ++ " root handle 1: prio"].

  (** [call(command, shell=True)]: [None] is not a command. *)
Definition call (command : option string) : M (string * Z) :=
    match command with
    | None => throw TypeError
    | Some c => rc <- sh W c ;; ret (c, rc)
    end.

Definition inject_nics (self : t) (device : string) (node_pid : option Z)
    (fault_type' fault_pattern' : string) (fault_pattern_args' : list value)
    (fault_args' : list string) (target_protocol : string)
    (target_dst_ports target_src_ports : option (list Z)) (enable : bool)
    : M unit :=
    if PyStr.contains "any" target_protocol then
      command <-
        make_nics_injection_command node_pid device fault_type' fault_pattern'
          match fault_pattern_args' with
          | [] => None
          | _ => Some fault_pattern_args'
          end
          fault_args' (if enable then "add" else "del") ;;
      r <- call command ;;
      let '(c, retcode) := r in
      if enable then set_fault_active (tag self) (fault_type self) c retcode
      else set_fault_inactive (tag self)
    else
      cmd_list <-
        make_filtered_nics_injection_commands node_pid fault_pattern'
          fault_pattern_args' fault_type' fault_args' device target_protocol
          target_dst_ports target_src_ports enable ;;
      forM cmd_list (fun command =>
        retcode <- sh W command ;;
        if enable
        then set_fault_active (tag self) (fault_type self) command retcode
        else set_fault_inactive (tag self)).

  (** [inject_nics] on the injector's own interface and filter, as all
      three patterns call it. *)
Definition toggle (self : t) (pattern : string) (pattern_args : list value)
    (enable : bool) : M unit :=
    inject_nics self (target_interface self) (namespace_pid self)
      (fault_type self) pattern pattern_args (fault_args self)
      (fault_target_protocol self) (fault_target_dst_ports self)
      (fault_target_src_ports self) enable.

Definition _inject_burst_pattern (self : t) : M unit :=
    (if (List.length (fault_pattern_args self) <? 2)%nat
     then log Error "{self.tag} Burst doesn't have enough arguments to be defined"
            [LVal (VStr (tag self))]
     else ret tt) ;;
    let burst_config := fault_pattern_args self in
    burst_duration <-
      lift (rbind (rbind (index burst_config 0) (py_float W)) (fun f =>
            truediv (Float f) (Int 1000))) ;;
    burst_period <-
      lift (rbind (rbind (index burst_config 1) (py_float W)) (fun f =>
            truediv (Float f) (Int 1000))) ;;
    t0 <- getInjectionTime self ;;
    log Info "Fault %s starting burst injections, time: %s"
      [LVal (VStr (tag self)); LVal (VNum t0)] ;;
    t1 <- getInjectionTime self ;;
    burst_num <- lift (rbind (truediv t1 burst_period) to_int) ;;
    gap <- ret (sub burst_period burst_duration) ;;
    repeatM (range_len burst_num)
      (toggle self "persistent" [VStr ""] true ;;
       sleep W burst_duration ;;
       toggle self "persistent" [VStr ""] false ;;
       rest <- lift gap ;;
       sleep W rest).

  (** One round of the degradation loop; the carried variable is
      [degradation_value]. *)
Definition degradation_step (self : t) (degradation_step_length : num)
    (degradation_step_size : string) (end_degradation : Z)
    (degradation_value : value) : M value :=
    toggle self "random" [degradation_value] true ;;
    sleep W degradation_step_length ;;
    toggle self "random" [degradation_value] false ;;
    a <- lift (py_int degradation_value) ;;
    b <- lift (py_int (VStr degradation_step_size)) ;;
    let next := PyStr.of_Z (a + b) in
    c <- lift (py_int (VStr next)) ;;
    if c >? end_degradation
    then ret (VStr (PyStr.of_Z end_degradation))
    else ret (VStr next).

Definition _inject_degradation_pattern (self : t) : M unit :=
    let args := fault_pattern_args self in
    end_degradation <-
      (if (4 <=? List.length args)%nat
       then e <- lift (rbind (index args 3) py_int) ;; ret (Z.min e 100)
       else ret 100) ;;
    start_degradation <-
      (if (3 <=? List.length args)%nat
       then v <- lift (index args 2) ;; ret (VStr (py_str W v))
       else ret (VInt 0)) ;;
    degradation_step_length <-
      (if (2 <=? List.length args)%nat
       then z <- lift (rbind (index args 1) py_int) ;;
            lift (truediv (Int z) (Int 1000))
       else lift (truediv (Int 1000) (Int 1000))) ;;
    degradation_step_size <-
      (if (1 <=? List.length args)%nat
       then v <- lift (index args 0) ;; ret (py_str W v)
       else
         log Error
           "{self.tag} does not have enough pattern_args to define degradation step, defaulting to 5"
           [LVal (VStr (tag self))] ;;
         ret (PyStr.of_Z 5)) ;;
    t0 <- getInjectionTime self ;;
    number_of_steps <-
      lift (rbind (truediv t0 degradation_step_length) to_int) ;;
    log Info "Fault %s starting degradation with %s perc/s"
      [LVal (VStr (tag self)); LVal start_degradation] ;;
    iterM (range_len number_of_steps)
      (degradation_step self degradation_step_length degradation_step_size
         end_degradation)
      start_degradation.

Definition _inject_persistent_or_random_pattern (self : t) : M unit :=
    log Info "Fault %s starting %s injection on nic %s"
      [LVal (VStr (tag self)); LVal (VStr (fault_pattern self));
       LVal (VStr (target_interface self))] ;;
    toggle self (fault_pattern self) (fault_pattern_args self) true ;;
    t0 <- getInjectionTime self ;;
    sleep W t0 ;;
    toggle self (fault_pattern self) (fault_pattern_args self) false.

Definition do_injection (self : t) : M unit :=
    pre <- getPreInjectionTime self ;;
    log Info "Fault %s waits %s s of pre-injection time"
      [LVal (VStr (tag self)); LVal (VNum pre)] ;;
    pre' <- getPreInjectionTime self ;;
    sleep W pre' ;;
    (if PyStr.contains "burst" (fault_pattern self)
     then _inject_burst_pattern self
     else if PyStr.contains "degradation" (fault_pattern self)
          then _inject_degradation_pattern self
          else _inject_persistent_or_random_pattern self) ;;
    post <- getPostInjectionTime self ;;
    log Info "Fault %s waits %s s of post-injection time"
      [LVal (VStr (tag self)); LVal (VNum post)] ;;
    post' <- getPostInjectionTime self ;;
    sleep W post'.

Definition go (self : t) : M unit := do_injection self.
End WithWorld.

End LinkInjector.

(** ** class MultiInjector *)

Module MultiInjector.

Record t : Type := {
  target_process_pid : option Z;
  tag : string;
  fault_pattern : string;
  fault_pattern_args : list value;
  pre_injection_time : num;
  injection_time : num;
  post_injection_time : num;
  inject_command : string;
  eject_command : string
}.

(** [", ".join(l)] *)
Fixpoint join (sep : string) (l : list string) : string :=
  match l with
  | [] => ""
  | [x] => x
  | x :: rest => x ++ sep ++ join sep rest
  end.

(** The namespace prefix of [execute_command_for_node]. *)
Definition base_command (pid_of_node : option Z) : string :=
  "nsenter --target " ++ PyStr.of_pid pid_of_node ++ " --net --pid ".

(** The command line handed to the shell. *)
Definition full_command (pid_of_node : option Z) (command_to_execute : string)
  : string :=
  let full := base_command pid_of_node ++ command_to_execute in
  if PyStr.contains "|" full
  then PyStr.replace "|"
         ("nsenter --target " ++ PyStr.of_pid pid_of_node ++ " --net --pid ")
         full
  else full.

Section WithWorld.
Variable W : World.

  (** [json.dumps] of the settings that clear every interface. *)
Definition reset_config_string (target_interface_names : list string)
    : string :=
    let reset_single_interface_config :=
      "{" ++ PyStr.dquote ++ "outgoing" ++ PyStr.dquote ++ ": {}, "
      ++ PyStr.dquote ++ "incoming" ++ PyStr.dquote ++ ": {}}" in
    "{"
    ++ join ", "
         (map (fun interface_name =>
                 json_quote W interface_name ++ ": "
                 ++ reset_single_interface_config)
            target_interface_names)
    ++ "}".

Definition build_start_command (config_string : string)
    : result (string * string) :=
    let start_command :=
      "echo '" ++ config_string ++ "' | tcset /dev/stdin --import-setting" in
    rbind (of_option ValueError (json_keys W config_string))
      (fun target_interface_names =>
    let end_command :=
      "echo '" ++ reset_config_string target_interface_names
      ++ "' | tcset /dev/stdin --import-setting" in
    Ok (start_command, end_command)).

  (** [MultiInjector(...)] *)
Definition new (target_namespace_pid : option Z) (tag' fault_pattern' : string)
    (fault_pattern_args' : list value) (config_string : string)
    (pre_injection_time' injection_time' post_injection_time' : num)
    : result t :=
    rbind (build_start_command config_string) (fun cmds =>
    Ok {| target_process_pid := target_namespace_pid;
          tag := tag';
          fault_pattern := fault_pattern';
          fault_pattern_args := fault_pattern_args';
          pre_injection_time := pre_injection_time';
          injection_time := injection_time';
          post_injection_time := post_injection_time';
          inject_command := fst cmds;
          eject_command := snd cmds |}).

Definition execute_command_for_node (self : t) (pid_of_node : option Z)
    (command_to_execute : string) (enable : bool) : M unit :=
    retcode <- sh W (full_command pid_of_node command_to_execute) ;;
    if enable
    then set_fault_active (tag self) "multi-fault" command_to_execute retcode
    else set_fault_inactive (tag self).

  (** [burst_duration] and [burst_period] of a burst, in seconds. *)
Definition burst_timing (self_tag : string) (burst_config : list value)
    : M (num * num) :=
    if (List.length burst_config <? 2)%nat then
      log Error
        "{self.tag} burst is missing parameters, defaulting to 1 second per 2 seconds"
        [LVal (VStr self_tag)] ;;
      ret (Int 1, Int 2)
    else
      burst_duration <-
        lift (rbind (rbind (index burst_config 0) py_int) (fun z =>
              truediv (Int z) (Int 1000))) ;;
      burst_period <-
        lift (rbind (rbind (index burst_config 1) py_int) (fun z =>
              truediv (Int z) (Int 1000))) ;;
      ret (burst_duration, burst_period).

Definition _inject_burst (self : t) : M unit :=
    log Info "Fault %s commencing burst" [LVal (VStr (tag self))] ;;
    timing <- burst_timing (tag self) (fault_pattern_args self) ;;
    let '(burst_duration, burst_period) := timing in
    burst_num <-
      lift (rbind (truediv (injection_time self) burst_period) to_int) ;;
    repeatM (range_len burst_num)
      (execute_command_for_node self (target_process_pid self)
         (inject_command self) true ;;
       sleep W burst_duration ;;
       execute_command_for_node self (target_process_pid self)
         (eject_command self) false ;;
       rest <- lift (sub burst_period burst_duration) ;;
       sleep W rest).

Definition _inject_persistent (self : t) : M unit :=
    log Info "Fault %s commencing persistent" [LVal (VStr (tag self))] ;;
    let duration_in_seconds := injection_time self in
    execute_command_for_node self (target_process_pid self)
      (inject_command self) true ;;
    sleep W duration_in_seconds ;;
    execute_command_for_node self (target_process_pid self)
      (eject_command self) false.

Definition do_injection (self : t) : M unit :=
    log Info "Fault %s waits %s s of pre-injection time"
      [LVal (VStr (tag self)); LVal (VNum (pre_injection_time self))] ;;
    sleep W (pre_injection_time self) ;;
    (if String.eqb (fault_pattern self) "burst" then _inject_burst self
     else if String.eqb (fault_pattern self) "persistent"
          then _inject_persistent self
          else log Error "{self.tag} has unknown fault pattern: {self.fault_pattern}"
                 [LVal (VStr (tag self)); LVal (VStr (fault_pattern self))]) ;;
    log Info "Fault %s waits %s s of post-injection time"
      [LVal (VStr (tag self)); LVal (VNum (post_injection_time self))] ;;
    sleep W (post_injection_time self).

Definition go (self : t) : M unit := do_injection self.
End WithWorld.

End MultiInjector.

(** ** class NodeInjector *)

Module NodeInjector.

Record t : Type := {
  target_process_pid : option Z;
  tag : string;
  fault_type : string;
  pre_injection_time : num;
  injection_time : num;
  post_injection_time : num;
  fault_args : list string;
  fault_pattern : string;
  fault_pattern_args : list value;
  (** Set by the constructor for [stress_cpu] faults; [None] when the
      cgroup of the process could not be read. *)
  cpu_cgroup_name : option string
}.

(** The namespace prefix of [execute_command_for_node]. *)
Definition base_command (pid_of_node : option Z) : string :=
  "nsenter --target " ++ PyStr.of_pid pid_of_node ++ " --net --pid --cgroup ".

(** The command line handed to the shell. *)
Definition full_command (pid_of_node : option Z) (command_to_execute : string)
  : string :=
  let full := base_command pid_of_node ++ command_to_execute in
  if PyStr.contains "|" full
  then PyStr.replace "|"
         ("nsenter --target " ++ PyStr.of_pid pid_of_node
          ++ " --net --pid --cgroup")
         full
  else full.

(** [burst_duration] and [burst_period]: the node injector reads them with
    the same lines, and the same error text, as the multi injector. *)
Definition burst_timing : string -> list value -> M (num * num) :=
  MultiInjector.burst_timing.

(** Start and end command of a custom fault in the burst and degradation
    patterns. *)
Definition custom_commands (fault_args : list string)
  : option string * option string :=
  match fault_args with
  | a0 :: a1 :: _ => (Some a0, Some a1)
  | [a0] => (Some a0, None)
  | [] => (None, None)
  end.

Definition stress_command (stress_per_cpu duration num_cpus : string)
  : string :=
  "stress-ng -l " ++ stress_per_cpu ++ " -t " ++ duration ++ " --cpu "
  ++ num_cpus ++ " --cpu-method int64longdouble &".

(** [num_cpus] and [stress_per_cpu] for a load in percent of one CPU:
    [math.ceil(stress / 100)] and
    [int(stress / num_cpus) if num_cpus > 0 else 0]. *)
Definition split_stress (stress : num) : result (Z * Z) :=
  rbind (rbind (truediv stress (Int 100)) ceil) (fun num_cpus =>
  rbind (if num_cpus >? 0
         then rbind (truediv stress (Int num_cpus)) to_int
         else Ok 0) (fun stress_per_cpu =>
  Ok (num_cpus, stress_per_cpu))).

(** [percentage * cgroup_fraction] where the fraction may be [None]. *)
Definition scale (percentage : num) (cgroup_fraction : option num)
  : result num :=
  match cgroup_fraction with
  | None => Raise TypeError
  | Some f => mul percentage f
  end.

Section WithWorld.
Variable W : World.

Definition execute_command_for_node (self : t) (pid_of_node : option Z)
    (command_to_execute : option string) (enable : bool) : M unit :=
    match command_to_execute with
    | None =>
        if enable
        then set_fault_active (tag self) (fault_type self)
               "Dummy command, no action taken" 0
        else set_fault_inactive (tag self)
    | Some command =>
        retcode <- sh W (full_command pid_of_node command) ;;
        took_long <- observe W slow ;;
        (if took_long : bool
         then log Error
                "Node command took more than 2 seconds to execute. Blocking commands can lead to unexpected outcomes, like logs not generating!"
                []
         else ret tt) ;;
        if enable
        then set_fault_active (tag self) (fault_type self) command retcode
        else set_fault_inactive (tag self)
    end.

Definition _get_cgroup_size (self : t) : M (option num) :=
    match cpu_cgroup_name self with
    | None => throw TypeError
    | Some name =>
        emit (EvExec ["cgget"; "-g"; "cpu"; name]) ;;
        out <- observe W cgget ;;
        match out with
        | None =>
            log Error
              ("Tried to find cgroup size for " ++ name
               ++ ", but couldn't find it") [] ;;
            ret None
        | Some (period, quota) =>
            cpu_period <- lift (of_option AttributeError period) ;;
            cpu_quota <- lift (of_option AttributeError quota) ;;
            q <- lift (py_int (VStr cpu_quota)) ;;
            p <- lift (py_int (VStr cpu_period)) ;;
            cpu_ratio <- lift (truediv (Int q) (Int p)) ;;
            ret (Some cpu_ratio)
        end
    end.

Definition _inject_burst (self : t) : M unit :=
    log Info "Fault %s commencing burst" [LVal (VStr (tag self))] ;;
    timing <- burst_timing (tag self) (fault_pattern_args self) ;;
    let '(burst_duration, burst_period) := timing in
    burst_num <-
      lift (rbind (truediv (injection_time self) burst_period) to_int) ;;
    if String.eqb (fault_type self) "custom" then
      (match fault_args self with
       | [] => log Error "{self.tag} missing fault args for injection"
                 [LVal (VStr (tag self))]
       | _ => ret tt
       end) ;;
      let '(start_command, end_command) := custom_commands (fault_args self) in
      repeatM (range_len burst_num)
        (execute_command_for_node self (target_process_pid self)
           start_command true ;;
         sleep W burst_duration ;;
         execute_command_for_node self (target_process_pid self)
           end_command false ;;
         rest <- lift (sub burst_period burst_duration) ;;
         sleep W rest)
    else if String.eqb (fault_type self) "stress_cpu" then
      d <- lift (to_int (max (Int 1) burst_duration)) ;;
      let burst_duration := Int d in
      cgroup_fraction <- _get_cgroup_size self ;;
      cpu_stress_percentage <-
        (match fault_args self with
         | a0 :: _ => lift (py_int (VStr a0))
         | [] =>
             log Error "{self.tag} is missing stress intensity, defaulting to 50%"
               [LVal (VStr (tag self))] ;;
             ret 50
         end) ;;
      stress_percentage_applied_to_cgroup <-
        lift (scale (Int cpu_stress_percentage) cgroup_fraction) ;;
      cpus <- lift (split_stress stress_percentage_applied_to_cgroup) ;;
      let '(num_cpus, stress_per_cpu) := cpus in
      let command :=
        stress_command (PyStr.of_Z stress_per_cpu) (num_str W burst_duration)
          (PyStr.of_Z num_cpus) in
      repeatM (range_len burst_num)
        (execute_command_for_node self (target_process_pid self)
           (Some command) true ;;
         sleep W burst_duration ;;
         execute_command_for_node self (target_process_pid self) None false ;;
         rest <- lift (sub burst_period burst_duration) ;;
         sleep W rest)
    else
      log Error "{self.tag} has unknown fault type: {self.fault_type}"
        [LVal (VStr (tag self)); LVal (VStr (fault_type self))].

  (** [end], [start], step length and step size of a degradation, with the
      defaults 100, 0, one second and 5. *)
Definition degradation_config (self : t) : M (Z * Z * num * Z) :=
    let args := fault_pattern_args self in
    end_degradation <-
      (if (4 <=? List.length args)%nat
       then lift (rbind (index args 3) py_int) else ret 100) ;;
    start_degradation <-
      (if (3 <=? List.length args)%nat
       then lift (rbind (index args 2) py_int) else ret 0) ;;
    degradation_step_length <-
      (if (2 <=? List.length args)%nat
       then z <- lift (rbind (index args 1) py_int) ;;
            lift (truediv (Int z) (Int 1000))
       else lift (truediv (Int 1000) (Int 1000))) ;;
    degradation_step_size <-
      (if (1 <=? List.length args)%nat
       then lift (rbind (index args 0) py_int)
       else
         log Error
           "{self.tag} does not have enough pattern_args to define degradation step, defaulting to 5"
           [LVal (VStr (tag self))] ;;
         ret 5) ;;
    ret (end_degradation, start_degradation, degradation_step_length,
         degradation_step_size).

  (** [start_base_command.count(...)] and [.format(...)]: [None] has
      neither. *)
Definition count_placeholders (start_base_command : option string)
    : result nat :=
    match start_base_command with
    | None => Raise AttributeError
    | Some c => Ok (PyStr.count "{}" c)
    end.

Definition format_command (start_base_command : option string)
    (injection_intensity : Z) : result string :=
    match start_base_command with
    | None => Raise AttributeError
    | Some c => PyFormat.format c [PyStr.of_Z injection_intensity]
    end.

  (** One round of the custom degradation loop; the carried variable is
      [injection_intensity]. *)
Definition custom_degradation_step (self : t)
    (start_base_command end_base_command : option string)
    (degradation_step_length : num)
    (degradation_step_size end_degradation injection_intensity : Z) : M Z :=
    start_command <-
      lift (format_command start_base_command injection_intensity) ;;
    let end_command := end_base_command in
    execute_command_for_node self (target_process_pid self)
      (Some start_command) true ;;
    sleep W degradation_step_length ;;
    execute_command_for_node self (target_process_pid self) end_command false ;;
    let injection_intensity := injection_intensity + degradation_step_size in
    ret (Z.min injection_intensity end_degradation).

Definition stress_base_command : string :=
    "stress-ng -l {} -t {} --cpu {} --cpu-method int64longdouble &".

  (** One round of the CPU stress degradation loop. *)
Definition stress_degradation_step (self : t) (cgroup_fraction : option num)
    (degradation_step_length : num)
    (degradation_step_size end_degradation injection_intensity : Z) : M Z :=
    stress_to_inject <- lift (scale (Int injection_intensity) cgroup_fraction) ;;
    cpus <- lift (split_stress stress_to_inject) ;;
    let '(num_cpus, stress_per_cpu) := cpus in
    seconds <- lift (to_int degradation_step_length) ;;
    command <-
      lift (PyFormat.format stress_base_command
              [PyStr.of_Z stress_per_cpu; PyStr.of_Z seconds;
               PyStr.of_Z num_cpus]) ;;
    execute_command_for_node self (target_process_pid self)
      (Some command) true ;;
    seconds' <- lift (to_int degradation_step_length) ;;
    sleep W (Int seconds') ;;
    let injection_intensity := injection_intensity + degradation_step_size in
    execute_command_for_node self (target_process_pid self) None false ;;
    ret (Z.min injection_intensity end_degradation).

Definition _inject_degradation (self : t) : M unit :=
    log Info "Fault %s commencing degradation" [LVal (VStr (tag self))] ;;
    cfg <- degradation_config self ;;
    let '(end_degradation, start_degradation, degradation_step_length,
          degradation_step_size) := cfg in
    number_of_steps <-
      lift (rbind (truediv (injection_time self) degradation_step_length)
              to_int) ;;
    let injection_intensity := start_degradation in
    if String.eqb (fault_type self) "custom" then
      (match fault_args self with
       | [] => log Error "{self.tag} missing fault args for injection"
                 [LVal (VStr (tag self))]
       | _ => ret tt
       end) ;;
      let '(start_base_command, end_base_command) :=
        custom_commands (fault_args self) in
      arguments_in_start_command <-
        lift (count_placeholders start_base_command) ;;
      (if (1 <? arguments_in_start_command)%nat
       then log Error
              "{self.tag} contains more than one place to insert arguments, but currently only supports one!"
              [LVal (VStr (tag self))]
       else ret tt) ;;
      iterM (range_len number_of_steps)
        (custom_degradation_step self start_base_command end_base_command
           degradation_step_length degradation_step_size end_degradation)
        injection_intensity
    else if String.eqb (fault_type self) "stress_cpu" then
      cgroup_fraction <- _get_cgroup_size self ;;
      iterM (range_len number_of_steps)
        (stress_degradation_step self cgroup_fraction degradation_step_length
           degradation_step_size end_degradation)
        injection_intensity
    else
      log Error "{self.tag} has unknown fault type: {self.fault_type}"
        [LVal (VStr (tag self)); LVal (VStr (fault_type self))].

  (** Start and end command of a persistent custom fault, with the tests
      in the order of the source. *)
Definition persistent_commands (self : t)
    : M (option string * option string) :=
    if (List.length (fault_args self) <? 2)%nat then
      start_command <- lift (index (fault_args self) 0) ;;
      ret (Some start_command, None)
    else if (List.length (fault_args self) <? 1)%nat then
      log Error "{self.tag} doesn't have enough arguments! "
        [LVal (VStr (tag self))] ;;
      ret (None, None)
    else
      start_command <- lift (index (fault_args self) 0) ;;
      end_command <- lift (index (fault_args self) 1) ;;
      ret (Some start_command, Some end_command).

  (** [float(x)] of what [_get_cgroup_size] returned. *)
Definition float_of_size (size : option num) : result num :=
    match size with
    | None => Raise TypeError
    | Some n => rbind (to_float n) (fun f => Ok (Float f))
    end.

Definition _inject_persistent (self : t) : M unit :=
    log Info "Fault %s commencing persistent" [LVal (VStr (tag self))] ;;
    if String.eqb (fault_type self) "custom" then
      let duration_in_seconds := injection_time self in
      cmds <- persistent_commands self ;;
      let '(start_command, end_command) := cmds in
      execute_command_for_node self (target_process_pid self)
        start_command true ;;
      sleep W duration_in_seconds ;;
      execute_command_for_node self (target_process_pid self)
        end_command false
    else if String.eqb (fault_type self) "stress_cpu" then
      size <- _get_cgroup_size self ;;
      cgroup_fraction <- lift (float_of_size size) ;;
      cpu_stress_percentage <-
        (if (List.length (fault_args self) <? 1)%nat then
           log Error "{self.tag} doesn't define stress intensity! defaulting to 50%"
             [LVal (VStr (tag self))] ;;
           ret (Int 50)
         else
           a0 <- lift (index (fault_args self) 0) ;;
           f <- lift (py_float W (VStr a0)) ;;
           ret (Float f)) ;;
      stress_percentage_applied_to_cgroup <-
        lift (mul cpu_stress_percentage cgroup_fraction) ;;
      cpus <- lift (split_stress stress_percentage_applied_to_cgroup) ;;
      let '(num_cpus, stress_per_cpu) := cpus in
      let duration_in_seconds := injection_time self in
      let command :=
        stress_command (PyStr.of_Z stress_per_cpu)
          (num_str W duration_in_seconds) (PyStr.of_Z num_cpus) in
      execute_command_for_node self (target_process_pid self)
        (Some command) true ;;
      sleep W duration_in_seconds ;;
      execute_command_for_node self (target_process_pid self) None false
    else
      log Error "{self.tag} unknown fault type: {self.fault_type}"
        [LVal (VStr (tag self)); LVal (VStr (fault_type self))].

Definition do_injection (self : t) : M unit :=
    log Info "Fault %s waits %s s of pre-injection time"
      [LVal (VStr (tag self)); LVal (VNum (pre_injection_time self))] ;;
    sleep W (pre_injection_time self) ;;
    (if String.eqb (fault_pattern self) "burst" then _inject_burst self
     else if String.eqb (fault_pattern self) "degradation"
          then _inject_degradation self
          else if String.eqb (fault_pattern self) "persistent"
               then _inject_persistent self
               else log Error "{self.tag} has unknown fault pattern"
                      [LVal (VStr (tag self))]) ;;
    log Info "Fault %s waits %s s of post-injection time"
      [LVal (VStr (tag self)); LVal (VNum (post_injection_time self))] ;;
    sleep W (post_injection_time self).

Definition go (self : t) : M unit := do_injection self.
End WithWorld.

End NodeInjector.

(** * Observations

    What the properties below look at: characters of a command line and
    the calls a trace holds. *)

(** Whether the character [c] occurs in [s]. *)
Fixpoint has_char (c : ascii) (s : string) : bool :=
  match s with
  | EmptyString => false
  | String x rest => Ascii.eqb c x || has_char c rest
  end.

(** The calls to the fault logger that a trace holds, in order: [true] for
    [set_fault_active], [false] for [set_fault_inactive], with the tag. *)
Fixpoint fault_log (tr : trace) : list (bool * string) :=
  match tr with
  | [] => []
  | EvActive tag _ _ _ :: rest => (true, tag) :: fault_log rest
  | EvInactive tag :: rest => (false, tag) :: fault_log rest
  | _ :: rest => fault_log rest
  end.

(** Every [set_fault_active(tag)] is followed at once by one
    [set_fault_inactive(tag)], and there is no other call. *)
Inductive paired (tag : string) : list (bool * string) -> Prop :=
| paired_nil : paired tag []
| paired_cons (rest : list (bool * string)) :
    paired tag rest -> paired tag ((true, tag) :: (false, tag) :: rest).

(** Runs of one or more [set_fault_active(tag)], each run closed by one
    [set_fault_inactive(tag)]. *)
Inductive grouped (tag : string) : list (bool * string) -> Prop :=
| grouped_nil : grouped tag []
| grouped_cons (k : nat) (rest : list (bool * string)) :
    grouped tag rest ->
    grouped tag (repeat (true, tag) (S k) ++ (false, tag) :: rest).

(** The same as an automaton read from the left: the state says whether the
    fault is marked active; [strict] forbids marking an active fault active
    again. *)
Fixpoint logger_state (strict : bool) (tag : string) (st : bool)
  (l : list (bool * string)) : option bool :=
  match l with
  | [] => Some st
  | (b, t) :: rest =>
      if String.eqb t tag then
        if b then
          if (st && strict)%bool then None
          else logger_state strict tag true rest
        else
          if st then logger_state strict tag false rest else None
      else None
  end.

(** [LS strict tag st tr]: the logger calls of [tr] are well formed and
    leave the fault marked [st]. *)
Definition LS (strict : bool) (tag : string) (st : bool) (tr : trace) : Prop :=
  logger_state strict tag false (fault_log tr) = Some st.

Definition count_active (tr : trace) : nat :=
  List.length (filter fst (fault_log tr)).

Definition count_inactive (tr : trace) : nat :=
  List.length (filter (fun c => negb (fst c)) (fault_log tr)).

(** The sleeps of a trace, in order. *)
Fixpoint sleeps (tr : trace) : list num :=
  match tr with
  | [] => []
  | EvSleep d :: rest => d :: sleeps rest
  | _ :: rest => sleeps rest
  end.

(** The command lines handed to a shell, in order. *)
Fixpoint shell_commands (tr : trace) : list string :=
  match tr with
  | [] => []
  | EvShell cmd _ :: rest => cmd :: shell_commands rest
  | _ :: rest => shell_commands rest
  end.

(** The log lines of level [Error], in order. *)
Fixpoint errors (tr : trace) : list string :=
  match tr with
  | [] => []
  | EvLog Error text _ :: rest => text :: errors rest
  | _ :: rest => errors rest
  end.

(** Weakest precondition of a task: [Q] for a result, [E] for an
    exception. *)
Definition wp {A : Type} (m : M A) (Q : A -> trace -> Prop)
  (E : trace -> Prop) (tr : trace) : Prop :=
  match m tr with
  | (Ok a, tr') => Q a tr'
  | (Raise _, tr') => E tr'
  end.

(** *** Sample faults used to run the injectors *)

(** Persistent loss on eth0 of the namespace of process 100, no filter. *)
Definition sample_link : LinkInjector.t := {|
  LinkInjector.target_interface := "eth0";
  LinkInjector.namespace_pid := Some 100;
  LinkInjector.tag := "f1";
  LinkInjector.fault_target_protocol := "any";
  LinkInjector.fault_target_dst_ports := None;
  LinkInjector.fault_target_src_ports := None;
  LinkInjector.fault_type := "loss";
  LinkInjector.fault_pattern := "persistent";
  LinkInjector.fault_pattern_args := [];
  LinkInjector.fault_args := [];
  LinkInjector.pre_injection_time := Int 0;
  LinkInjector.injection_time := Int 2;
  LinkInjector.post_injection_time := Int 0
|}.

(** Random loss of 10% of the TCP packets to port 80. *)
Definition sample_filtered : LinkInjector.t := {|
  LinkInjector.target_interface := "eth0";
  LinkInjector.namespace_pid := Some 100;
  LinkInjector.tag := "f1";
  LinkInjector.fault_target_protocol := "TCP";
  LinkInjector.fault_target_dst_ports := Some [80];
  LinkInjector.fault_target_src_ports := None;
  LinkInjector.fault_type := "loss";
  LinkInjector.fault_pattern := "random";
  LinkInjector.fault_pattern_args := [VInt 10];
  LinkInjector.fault_args := [];
  LinkInjector.pre_injection_time := Int 0;
  LinkInjector.injection_time := Int 2;
  LinkInjector.post_injection_time := Int 0
|}.

(** A burst of a traffic-control setting for eth0, 500 ms every two
    seconds for five seconds. *)
Definition sample_multi : MultiInjector.t := {|
  MultiInjector.target_process_pid := Some 100;
  MultiInjector.tag := "m1";
  MultiInjector.fault_pattern := "burst";
  MultiInjector.fault_pattern_args := [VInt 500; VInt 2000];
  MultiInjector.pre_injection_time := Int 0;
  MultiInjector.injection_time := Int 5;
  MultiInjector.post_injection_time := Int 0;
  MultiInjector.inject_command :=
    "echo '{}' | tcset /dev/stdin --import-setting";
  MultiInjector.eject_command :=
    "echo '{}' | tcset /dev/stdin --import-setting"
|}.

(** A custom degradation from 0 to 50 in steps of 10, one step a second for
    five seconds. *)
Definition sample_node : NodeInjector.t := {|
  NodeInjector.target_process_pid := Some 100;
  NodeInjector.tag := "n1";
  NodeInjector.fault_type := "custom";
  NodeInjector.pre_injection_time := Int 0;
  NodeInjector.injection_time := Int 5;
  NodeInjector.post_injection_time := Int 0;
  NodeInjector.fault_args := ["set_rate {} &"; "clear_rate"];
  NodeInjector.fault_pattern := "degradation";
  NodeInjector.fault_pattern_args := [VInt 10; VInt 1000; VInt 0; VInt 50];
  NodeInjector.cpu_cgroup_name := None
|}.

(** A world that cancels the task during its second sleep. *)
Definition cancel_second_sleep : World := {|
  shell := fun _ _ => 0;
  cancelled := fun tr => (List.length (sleeps tr) =? 1)%nat;
  slow := fun _ => false;
  cgget := fun _ => None;
  float_repr := fun _ => "";
  float_parse := fun _ => None;
  json_keys := fun _ => Some [];
  json_quote := fun s => s
|}.

(** [sample_link] with a pattern the injectors do not know. *)
Definition sample_link_unknown : LinkInjector.t := {|
  LinkInjector.target_interface := "eth0";
  LinkInjector.namespace_pid := Some 100;
  LinkInjector.tag := "f1";
  LinkInjector.fault_target_protocol := "any";
  LinkInjector.fault_target_dst_ports := None;
  LinkInjector.fault_target_src_ports := None;
  LinkInjector.fault_type := "loss";
  LinkInjector.fault_pattern := "flapping";
  LinkInjector.fault_pattern_args := [];
  LinkInjector.fault_args := [];
  LinkInjector.pre_injection_time := Int 0;
  LinkInjector.injection_time := Int 2;
  LinkInjector.post_injection_time := Int 0
|}.

(** [sample_filtered] with a pattern the injectors do not know. *)
Definition sample_filtered_unknown : LinkInjector.t := {|
  LinkInjector.target_interface := "eth0";
  LinkInjector.namespace_pid := Some 100;
  LinkInjector.tag := "f1";
  LinkInjector.fault_target_protocol := "TCP";
  LinkInjector.fault_target_dst_ports := Some [80];
  LinkInjector.fault_target_src_ports := None;
  LinkInjector.fault_type := "loss";
  LinkInjector.fault_pattern := "flapping";
  LinkInjector.fault_pattern_args := [];
  LinkInjector.fault_args := [];
  LinkInjector.pre_injection_time := Int 0;
  LinkInjector.injection_time := Int 2;
  LinkInjector.post_injection_time := Int 0
|}.

(** A burst of delay on eth0 whose period is missing. *)
Definition sample_link_burst_short : LinkInjector.t := {|
  LinkInjector.target_interface := "eth0";
  LinkInjector.namespace_pid := Some 100;
  LinkInjector.tag := "f1";
  LinkInjector.fault_target_protocol := "any";
  LinkInjector.fault_target_dst_ports := None;
  LinkInjector.fault_target_src_ports := None;
  LinkInjector.fault_type := "delay";
  LinkInjector.fault_pattern := "burst";
  LinkInjector.fault_pattern_args := [VInt 500];
  LinkInjector.fault_args := ["100ms"];
  LinkInjector.pre_injection_time := Int 0;
  LinkInjector.injection_time := Int 5;
  LinkInjector.post_injection_time := Int 0
|}.

(** [sample_node] with two places for the intensity in its start
    command. *)
Definition sample_node_two_places : NodeInjector.t := {|
  NodeInjector.target_process_pid := Some 100;
  NodeInjector.tag := "n1";
  NodeInjector.fault_type := "custom";
  NodeInjector.pre_injection_time := Int 0;
  NodeInjector.injection_time := Int 5;
  NodeInjector.post_injection_time := Int 0;
  NodeInjector.fault_args := ["set_rate {} {} &"; "clear_rate"];
  NodeInjector.fault_pattern := "degradation";
  NodeInjector.fault_pattern_args := [VInt 10; VInt 1000; VInt 0; VInt 50];
  NodeInjector.cpu_cgroup_name := None
|}.

(** A persistent custom fault without any command. *)
Definition sample_node_no_args : NodeInjector.t := {|
  NodeInjector.target_process_pid := Some 100;
  NodeInjector.tag := "n1";
  NodeInjector.fault_type := "custom";
  NodeInjector.pre_injection_time := Int 0;
  NodeInjector.injection_time := Int 5;
  NodeInjector.post_injection_time := Int 0;
  NodeInjector.fault_args := [];
  NodeInjector.fault_pattern := "persistent";
  NodeInjector.fault_pattern_args := [];
  NodeInjector.cpu_cgroup_name := None
|}.

(** Whether a link command begins with the namespace prefix for [pid]. *)
Definition has_net_prefix (pid : Z) (cmd : string) : Prop :=
  String.prefix (LinkInjector.base_command (Some pid)) cmd = true.

(** Whether a synthesized link command is a [tc filter add] classifier. *)
Definition is_classifier (node_pid : option Z) (cmd : string) : bool :=
  String.prefix (LinkInjector.base_command node_pid ++ "tc filter add dev ")
    cmd.

(** The classifier that matches the protocol alone. *)
Definition bare_classifier (node_pid : option Z) (device number : string)
  : string :=
  ((LinkInjector.base_command node_pid ++ "tc filter add dev " ++ device
    ++ " parent 1:0 protocol ip prio 1 u32 ")
   ++ "match ip protocol " ++ number ++ " 0xff")
  ++ " flowid 1:1".

(** The [fault_pattern_args] handed to the link synthesizers, one entry
    per call, as their entry log line records them (fourth value of the
    unfiltered line, second of the filtered one). *)
Fixpoint submitted (tr : trace) : list logarg :=
  match tr with
  | [] => []
  | EvLog Debug text args :: rest =>
      if String.eqb text LinkInjector.nics_config_text
      then nth 3 args (LVal VNone) :: submitted rest
      else if String.eqb text LinkInjector.filter_config_text
           then nth 1 args (LVal VNone) :: submitted rest
           else submitted rest
  | _ :: rest => submitted rest
  end.

(** [int(fault_pattern_args[0])] of a recorded argument list. *)
Definition intensity_of (a : logarg) : result Z :=
  match a with
  | LList (v :: _) => py_int v
  | LList [] => Raise IndexError
  | _ => Raise TypeError
  end.

Definition submitted_intensities (tr : trace) : list (result Z) :=
  map intensity_of (submitted tr).

(** The commands reported to [set_fault_active], in order. *)
Fixpoint activations (tr : trace) : list string :=
  match tr with
  | [] => []
  | EvActive _ _ cmd _ :: rest => cmd :: activations rest
  | _ :: rest => activations rest
  end.

(** How a degradation reads [pattern_args = [step_size, step_length_ms,
    start, end]]: the end value (100 when absent), the start value (0 when
    absent) and the step size (5 when absent).  The link injector keeps
    start and step size as text and converts them when it adds. *)
Definition degradation_end (args : list value) : result Z :=
  if (4 <=? List.length args)%nat then rbind (index args 3) py_int
  else Ok 100.

Definition degradation_start_node (args : list value) : result Z :=
  if (3 <=? List.length args)%nat then rbind (index args 2) py_int
  else Ok 0.

Definition degradation_size_node (args : list value) : result Z :=
  if (1 <=? List.length args)%nat then rbind (index args 0) py_int
  else Ok 5.

Definition degradation_start_link (W : World) (args : list value)
  : result Z :=
  if (3 <=? List.length args)%nat
  then rbind (index args 2) (fun v => py_int (VStr (py_str W v)))
  else Ok 0.

Definition degradation_size_link (W : World) (args : list value)
  : result Z :=
  if (1 <=? List.length args)%nat
  then rbind (index args 0) (fun v => py_int (VStr (py_str W v)))
  else Ok 5.



(** [Ramp base bound tr]: after the submissions [base], the intensities
    submitted in [tr] are integers that never decrease and stay at or
    below [bound]. *)
Definition Ramp (base : list (result Z)) (bound : Z) (tr : trace) : Prop :=
  exists vs,
    submitted_intensities tr = (base ++ map Ok vs)%list /\
    Sorted Z.le vs /\
    Forall (fun x => x <= bound) vs.

(** What the link degradation loop keeps: the carried value is the text of an integer at or
    below the end, and everything submitted so far is at or below it. *)
Definition link_ramp_inv (base : list (result Z)) (bound : Z) (v : value)
  (tr : trace) : Prop :=
  exists cur, py_int v = Ok cur /\ cur <= bound /\ Ramp base cur tr.



(** *** Observations on filtered faults *)

(** Whether a protocol name is a key of the protocol table. *)
Definition known_protocol (target_protocol : string) : bool :=
  existsb (String.eqb target_protocol)
    (map fst LinkInjector.target_protocol_table).

(** The number of ports of a port list; [None] has none. *)
Definition port_count (ports : option (list Z)) : nat :=
  match ports with
  | Some l => List.length l
  | None => 0
  end.

(** [sample_filtered] for a protocol that the table does not have. *)
Definition sample_filtered_sctp : LinkInjector.t := {|
  LinkInjector.target_interface := "eth0";
  LinkInjector.namespace_pid := Some 100;
  LinkInjector.tag := "f1";
  LinkInjector.fault_target_protocol := "SCTP";
  LinkInjector.fault_target_dst_ports := Some [80];
  LinkInjector.fault_target_src_ports := None;
  LinkInjector.fault_type := "loss";
  LinkInjector.fault_pattern := "random";
  LinkInjector.fault_pattern_args := [VInt 10];
  LinkInjector.fault_args := [];
  LinkInjector.pre_injection_time := Int 0;
  LinkInjector.injection_time := Int 2;
  LinkInjector.post_injection_time := Int 0
|}.

(** The two shapes of a command of an add list: a [tc qdisc add] or a
    [tc filter add] behind the prefix; the flag says which. *)
Inductive tc_add (node_pid : option Z) : bool -> string -> Prop :=
| tc_add_qdisc rest :
    tc_add node_pid false
      (LinkInjector.base_command node_pid ++ "tc qdisc add dev " ++ rest)
| tc_add_filter rest :
    tc_add node_pid true
      (LinkInjector.base_command node_pid ++ "tc filter add dev " ++ rest).

(** *** Node faults used to run the node injector *)

(** The text reported to the fault logger when no command is run. *)
Definition dummy_command : string := "Dummy command, no action taken".

(** A custom burst without commands: one second every two seconds for five
    seconds. *)
Definition sample_node_burst_no_args : NodeInjector.t := {|
  NodeInjector.target_process_pid := Some 100;
  NodeInjector.tag := "n1";
  NodeInjector.fault_type := "custom";
  NodeInjector.pre_injection_time := Int 0;
  NodeInjector.injection_time := Int 5;
  NodeInjector.post_injection_time := Int 0;
  NodeInjector.fault_args := [];
  NodeInjector.fault_pattern := "burst";
  NodeInjector.fault_pattern_args := [];
  NodeInjector.cpu_cgroup_name := None
|}.

(** A persistent CPU stress of 50 percent in the cgroup [docker/n1]. *)
Definition sample_node_stress : NodeInjector.t := {|
  NodeInjector.target_process_pid := Some 100;
  NodeInjector.tag := "n1";
  NodeInjector.fault_type := "stress_cpu";
  NodeInjector.pre_injection_time := Int 0;
  NodeInjector.injection_time := Int 5;
  NodeInjector.post_injection_time := Int 0;
  NodeInjector.fault_args := ["50"];
  NodeInjector.fault_pattern := "persistent";
  NodeInjector.fault_pattern_args := [];
  NodeInjector.cpu_cgroup_name := Some "docker/n1"
|}.

(** *** The intensities of a node degradation *)

(** The step length of a degradation, in seconds: [pattern_args[1]]
    milliseconds, one second when absent. *)
Definition degradation_length (args : list value) : result num :=
  if (2 <=? List.length args)%nat
  then rbind (rbind (index args 1) py_int) (fun z =>
       truediv (Int z) (Int 1000))
  else truediv (Int 1000) (Int 1000).

(** The intensities of [n] rounds of the node degradation loop: each round
    uses the current intensity and then moves it on by the step size,
    cutting it at the end value. *)
Fixpoint ramp_values (n : nat) (injection_intensity degradation_step_size
  end_degradation : Z) : list Z :=
  match n with
  | O => []
  | S k =>
      injection_intensity
      :: ramp_values k
           (Z.min (injection_intensity + degradation_step_size)
              end_degradation)
           degradation_step_size end_degradation
  end.

(** A link degradation of loss from 30 in steps of 40 with the end value
    150. *)
Definition sample_link_ramp_high : LinkInjector.t := {|
  LinkInjector.target_interface := "eth0";
  LinkInjector.namespace_pid := Some 100;
  LinkInjector.tag := "f1";
  LinkInjector.fault_target_protocol := "any";
  LinkInjector.fault_target_dst_ports := None;
  LinkInjector.fault_target_src_ports := None;
  LinkInjector.fault_type := "loss";
  LinkInjector.fault_pattern := "degradation";
  LinkInjector.fault_pattern_args := [VInt 40; VInt 1000; VInt 30; VInt 150];
  LinkInjector.fault_args := [];
  LinkInjector.pre_injection_time := Int 0;
  LinkInjector.injection_time := Int 3;
  LinkInjector.post_injection_time := Int 0
|}.

(** [extends tr0 tr']: the trace [tr'] is [tr0] with more events after it. *)
Definition extends (tr0 tr' : trace) : Prop :=
  exists l, tr' = (tr0 ++ l)%list.

(** [waits_around tag pre post tr tr']: after [tr], the trace [tr'] begins
    with the announced wait of [pre] seconds and ends with the announced
    wait of [post] seconds. *)
Definition waits_around (tag : string) (pre post : num) (tr tr' : trace)
  : Prop :=
  exists mid,
    tr' = (tr
           ++ [EvLog Info "Fault %s waits %s s of pre-injection time"
                 [LVal (VStr tag); LVal (VNum pre)];
               EvSleep pre]
           ++ mid
           ++ [EvLog Info "Fault %s waits %s s of post-injection time"
                 [LVal (VStr tag); LVal (VNum post)];
               EvSleep post])%list.

(** *** What stands behind the namespace prefix of a link command *)

(** [tool_follows node_pid cmd]: the command is the namespace prefix of the
    link injector followed at once by the tool it runs, [tc] or
    [ifconfig]; no further [nsenter] flag comes between them. *)
Definition tool_follows (node_pid : option Z) (cmd : string) : Prop :=
  exists rest,
    cmd = LinkInjector.base_command node_pid ++ "tc " ++ rest \/
    cmd = LinkInjector.base_command node_pid ++ "ifconfig " ++ rest.

(** [net_prefix_only pid cmd]: the command begins with
    [nsenter --target {pid} --net ], the tool follows at once, and so the
    command does not begin with [nsenter --target {pid} --net --pid ]. *)
Definition net_prefix_only (pid : Z) (cmd : string) : Prop :=
  String.prefix ("nsenter --target " ++ PyStr.of_Z pid ++ " --net ") cmd = true
  /\ tool_follows (Some pid) cmd
  /\ String.prefix ("nsenter --target " ++ PyStr.of_Z pid ++ " --net --pid ")
       cmd = false.

(** *** The intensities of a CPU stress degradation *)

(** The [stress-ng] command that one round of the CPU stress degradation
    builds from its intensity: the intensity scaled by the size of the
    cgroup, split into a number of CPUs and a load for each, with the step
    length in whole seconds. *)
Definition stress_command_at (cgroup_fraction : option num)
  (degradation_step_length : num) (injection_intensity : Z) : result string :=
  rbind (NodeInjector.scale (Int injection_intensity) cgroup_fraction)
    (fun stress_to_inject =>
  rbind (NodeInjector.split_stress stress_to_inject) (fun cpus =>
  rbind (to_int degradation_step_length) (fun seconds =>
  PyFormat.format NodeInjector.stress_base_command
    [PyStr.of_Z (snd cpus); PyStr.of_Z seconds; PyStr.of_Z (fst cpus)]))).



(** A world like [quiet] where [cgget] reports a quota of half a CPU. *)
Definition half_cgroup : World := {|
  shell := fun _ _ => 0;
  cancelled := fun _ => false;
  slow := fun _ => false;
  cgget := fun _ => Some (Some "100000", Some "50000");
  float_repr := fun _ => "";
  float_parse := fun _ => None;
  json_keys := fun _ => Some [];
  json_quote := fun s => PyStr.dquote ++ s ++ PyStr.dquote
|}.

(** A CPU stress degradation from 20 to 50 in steps of 10, one step a
    second for three seconds. *)
Definition sample_node_stress_ramp : NodeInjector.t := {|
  NodeInjector.target_process_pid := Some 100;
  NodeInjector.tag := "n1";
  NodeInjector.fault_type := "stress_cpu";
  NodeInjector.pre_injection_time := Int 0;
  NodeInjector.injection_time := Int 3;
  NodeInjector.post_injection_time := Int 0;
  NodeInjector.fault_args := [];
  NodeInjector.fault_pattern := "degradation";
  NodeInjector.fault_pattern_args := [VInt 10; VInt 1000; VInt 20; VInt 50];
  NodeInjector.cpu_cgroup_name := Some "docker/n1"
|}.

(** *** The classifiers of a filtered fault, written out *)

(** The ports of a port list; [None] has none. *)
Definition ports_of (ports : option (list Z)) : list Z :=
  match ports with
  | Some l => l
  | None => []
  end.

(** The classifier for one port: it matches the protocol number and the
    port in the given direction ([dport] or [sport]).  [parent] is [1:0]
    as the classifiers are first written, [ffff:] after the rewriting of a
    persistent redirect. *)
Definition port_classifier (parent : string) (node_pid : option Z)
  (device number direction : string) (port : Z) : string :=
  LinkInjector.base_command node_pid ++ "tc filter add dev " ++ device
  ++ " parent " ++ parent ++ " protocol ip prio 1 u32 match ip protocol "
  ++ number ++ " 0xff match ip " ++ direction ++ " " ++ PyStr.of_Z port
  ++ " 0xffff flowid 1:1".

(** The classifier that matches the protocol number alone. *)
Definition protocol_classifier (parent : string) (node_pid : option Z)
  (device number : string) : string :=
  LinkInjector.base_command node_pid ++ "tc filter add dev " ++ device
  ++ " parent " ++ parent ++ " protocol ip prio 1 u32 match ip protocol "
  ++ number ++ " 0xff flowid 1:1".

(** The classifiers of an add list, in order: one for each destination
    port, one for each source port, and the protocol-only one when both
    port lists are absent. *)
Definition expected_classifiers (parent : string) (node_pid : option Z)
  (device number : string) (target_dst_ports target_src_ports
  : option (list Z)) : list string :=
  (map (port_classifier parent node_pid device number "dport")
     (ports_of target_dst_ports)
   ++ map (port_classifier parent node_pid device number "sport")
        (ports_of target_src_ports)
   ++ match target_dst_ports, target_src_ports with
      | None, None => [protocol_classifier parent node_pid device number]
      | _, _ => []
      end)%list.

(** Whether the filtered synthesizer takes its persistent redirect branch,
    the one that rewrites the classifiers instead of adding a leaf
    qdisc. *)
Definition redirect_rewrite (fault_pattern fault_type : string) : bool :=
  (negb (PyStr.contains "random" fault_pattern)
   && PyStr.contains "persistent" fault_pattern
   && negb (PyStr.contains "bottleneck" fault_type)
   && PyStr.contains "redirect" fault_type)%bool.

(** The action that the persistent redirect branch appends to each
    classifier. *)
Definition mirred_action (fault_args : list string)
  (destination_interface : string) : string :=
  " action mirred egress " ++ LinkInjector.redirect_or_mirror fault_args
  ++ " dev " ++ destination_interface.

(** * Properties *)

(** ** Strings *)

Section StringFacts.

Lemma append_nil_r (s : string) : s ++ "" = s.
Proof. induction s; simpl; congruence. Qed.

Lemma append_assoc (a b c : string) : (a ++ b) ++ c = a ++ b ++ c.
Proof. induction a; simpl; congruence. Qed.

Lemma prefix_nil (s : string) : String.prefix "" s = true.
Proof. destruct s; reflexivity. Qed.

Lemma prefix_app (a b : string) : String.prefix a (a ++ b) = true.
Proof.
    induction a as [|c a IH]; simpl.
    - apply prefix_nil.
    - destruct (ascii_dec c c); [exact IH | congruence].
Qed.

Lemma prefix_app_cancel (a b c : string) :
    String.prefix (a ++ b) (a ++ c) = String.prefix b c.
Proof.
    induction a as [|x a IH]; simpl; [reflexivity|].
    destruct (ascii_dec x x); [exact IH | congruence].
Qed.

Lemma prefix_trans_app (p a b : string) :
    String.prefix p a = true -> String.prefix p (a ++ b) = true.
Proof.
    revert a; induction p as [|c p IH]; intros a H.
    - apply prefix_nil.
    - destruct a as [|x a]; simpl in *; [discriminate|].
      destruct (ascii_dec c x); [auto | discriminate].
Qed.

Lemma has_char_app (c : ascii) (a b : string) :
    has_char c (a ++ b) = has_char c a || has_char c b.
Proof.
    induction a as [|x a IH]; simpl; [reflexivity|].
    rewrite IH. apply orb_assoc.
Qed.

Lemma has_char_uint (c : ascii) (d : Decimal.uint) :
    PyStr.is_digit c = false ->
    has_char c (NilEmpty.string_of_uint d) = false.
Proof.
    intros Hc.
    induction d; simpl; rewrite ?IHd; try reflexivity;
      (destruct (Ascii.eqb_spec c "0"); [subst; discriminate|]);
      (destruct (Ascii.eqb_spec c "1"); [subst; discriminate|]);
      (destruct (Ascii.eqb_spec c "2"); [subst; discriminate|]);
      (destruct (Ascii.eqb_spec c "3"); [subst; discriminate|]);
      (destruct (Ascii.eqb_spec c "4"); [subst; discriminate|]);
      (destruct (Ascii.eqb_spec c "5"); [subst; discriminate|]);
      (destruct (Ascii.eqb_spec c "6"); [subst; discriminate|]);
      (destruct (Ascii.eqb_spec c "7"); [subst; discriminate|]);
      (destruct (Ascii.eqb_spec c "8"); [subst; discriminate|]);
      (destruct (Ascii.eqb_spec c "9"); [subst; discriminate|]);
      reflexivity.
Qed.

  (** The text of an integer holds digits and at most a minus sign. *)
Lemma has_char_of_Z (c : ascii) (z : Z) :
    PyStr.is_digit c = false -> c <> "-"%char ->
    has_char c (PyStr.of_Z z) = false.
Proof.
    intros Hd Hm. unfold PyStr.of_Z.
    destruct (Z.to_int z) as [d|d]; simpl.
    - apply has_char_uint, Hd.
    - rewrite has_char_uint by exact Hd.
      destruct (Ascii.eqb_spec c "-"); [contradiction | reflexivity].
Qed.

Lemma has_char_of_pid (c : ascii) (pid : option Z) :
    PyStr.is_digit c = false -> c <> "-"%char ->
    has_char c "None" = false ->
    has_char c (PyStr.of_pid pid) = false.
Proof.
    intros Hd Hm Hn. destruct pid; simpl PyStr.of_pid;
      [apply has_char_of_Z; assumption | exact Hn].
Qed.

  (** A string that starts with a character which [s] lacks is no prefix of
      [s ++ t] at any position inside [s]: replacing it leaves [s] alone. *)
Lemma replace_from_skips (c : ascii) (old new s t : string) :
    has_char c s = false ->
    PyStr.replace_from (String c old) new (s ++ t) 0
    = s ++ PyStr.replace_from (String c old) new t 0.
Proof.
    induction s as [|x s IH]; intros H; [reflexivity|].
    simpl in H. apply orb_false_iff in H as [Hx Hs].
    change (String x s ++ t) with (String x (s ++ t)).
    cbn [PyStr.replace_from String.prefix].
    destruct (ascii_dec c x) as [->|_].
    - rewrite Ascii.eqb_refl in Hx. discriminate.
    - simpl. f_equal. apply IH, Hs.
Qed.

Lemma contains_app_l (n a b : string) :
    PyStr.contains n a = true -> PyStr.contains n (a ++ b) = true.
Proof.
    induction a as [|x a IH]; simpl; intros H.
    - rewrite orb_false_r in H.
      destruct n; [|discriminate]. destruct b; reflexivity.
    - apply orb_true_iff in H as [H|H].
      + apply (prefix_trans_app n (String x a) b) in H.
        simpl in H. rewrite H. reflexivity.
      + rewrite (IH H). apply orb_true_r.
Qed.

Lemma contains_app_r (n a b : string) :
    PyStr.contains n b = true -> PyStr.contains n (a ++ b) = true.
Proof.
    induction a as [|x a IH]; simpl; intros H; [exact H|].
    rewrite (IH H). apply orb_true_r.
Qed.

  (** A string without the character [c] has no occurrence of a text that
      holds [c]. *)
Lemma prefix_has_char (c : ascii) (n s : string) :
    String.prefix n s = true -> has_char c n = true -> has_char c s = true.
Proof.
    revert s; induction n as [|x n IH]; intros s Hp Hc; [discriminate|].
    destruct s as [|y s]; simpl in Hp; [discriminate|].
    destruct (ascii_dec x y) as [->|]; [|discriminate].
    simpl in *. destruct (Ascii.eqb c y); [reflexivity|].
    simpl in *. eauto.
Qed.

  (** After [replace] of the one-character text [c], the character is gone
      when the replacement does not bring it back. *)
Lemma replace_char_gone (c : ascii) (new s : string) :
    has_char c new = false ->
    has_char c (PyStr.replace_from (String c "") new s 0) = false.
Proof.
    intros Hn. induction s as [|x s IH]; [reflexivity|].
    cbn [PyStr.replace_from String.prefix String.length Nat.pred].
    destruct (ascii_dec c x) as [->|Hne].
    - rewrite prefix_nil, has_char_app, Hn, IH. reflexivity.
    - simpl. rewrite IH, orb_false_r. apply Ascii.eqb_neq, Hne.
Qed.

Lemma contains_char (c : ascii) (s : string) :
    PyStr.contains (String c "") s = has_char c s.
Proof.
    induction s as [|x s IH]; [reflexivity|].
    simpl. rewrite IH, prefix_nil.
    destruct (ascii_dec c x) as [->|Hne].
    - rewrite Ascii.eqb_refl. reflexivity.
    - apply Ascii.eqb_neq in Hne. rewrite Hne. reflexivity.
Qed.

(** *** [int(str(z)) = z] *)

Lemma uint_chars_digits (d : Decimal.uint) :
  Forall (fun c => PyStr.is_digit c = true)
    (list_ascii_of_string (NilEmpty.string_of_uint d)).
Proof. induction d; simpl; constructor; auto. Qed.

Lemma digit_not_space (c : ascii) :
  PyStr.is_digit c = true -> PyStr.is_space c = false.
Proof.
  unfold PyStr.is_digit, PyStr.is_space. intros H.
  apply andb_true_iff in H as [H1 H2].
  apply Nat.leb_le in H1, H2.
  apply orb_false_iff. split; apply andb_false_iff; right;
    apply Nat.leb_gt; lia.
Qed.

Lemma lstrip_no_space (l : list ascii) :
  Forall (fun c => PyStr.is_space c = false) l -> PyStr.lstrip l = l.
Proof.
  destruct l as [|c l]; [reflexivity|].
  intros H. inversion H; subst. simpl.
  match goal with Hc : PyStr.is_space c = false |- _ => rewrite Hc end.
  reflexivity.
Qed.

(** Stripping leaves a text without white space alone. *)
Lemma strip_no_space (l : list ascii) :
  Forall (fun c => PyStr.is_space c = false) l -> PyStr.strip l = l.
Proof.
  intros H. unfold PyStr.strip.
  rewrite (lstrip_no_space l H).
  rewrite (lstrip_no_space (rev l)) by (apply Forall_rev, H).
  apply rev_involutive.
Qed.

Lemma plain_digits_all (l : list ascii) (after_digit : bool) :
  Forall (fun c => PyStr.is_digit c = true) l ->
  l <> [] \/ after_digit = true ->
  PyStr.plain_digits after_digit l = Some l.
Proof.
  intros H. revert after_digit.
  induction H as [|c l Hc Hl IH]; intros after_digit Hne.
  - destruct Hne as [Hne| ->]; [contradiction | reflexivity].
  - simpl. rewrite Hc. rewrite IH by (right; reflexivity). reflexivity.
Qed.

Lemma to_Z_digits (d : Decimal.uint) :
  d <> Decimal.Nil ->
  PyStr.to_Z (NilEmpty.string_of_uint d) = Some (Z.of_uint d) /\
  PyStr.to_Z (String "-" (NilEmpty.string_of_uint d)) = Some (- Z.of_uint d).
Proof.
  intros Hd.
  pose proof (uint_chars_digits d) as Hdig.
  assert (Hsp : Forall (fun c => PyStr.is_space c = false)
                  (list_ascii_of_string (NilEmpty.string_of_uint d))).
  { eapply Forall_impl; [|exact Hdig]. apply digit_not_space. }
  assert (Hne : list_ascii_of_string (NilEmpty.string_of_uint d) <> []).
  { destruct d; simpl; try discriminate. contradiction. }
  assert (Hparse :
    match PyStr.plain_digits false
            (list_ascii_of_string (NilEmpty.string_of_uint d)) with
    | Some ds =>
        match NilEmpty.uint_of_string (string_of_list_ascii ds) with
        | Some u => Some (Z.of_uint u)
        | None => None
        end
    | None => None
    end = Some (Z.of_uint d)).
  { rewrite plain_digits_all by (auto).
    rewrite string_of_list_ascii_of_string, NilEmpty.usu. reflexivity. }
  split.
  - unfold PyStr.to_Z. rewrite strip_no_space by exact Hsp.
    destruct (list_ascii_of_string (NilEmpty.string_of_uint d))
      as [|c l] eqn:El; [contradiction|].
    inversion Hdig as [|? ? Hc Hl]; subst.
    assert (Hm : Ascii.eqb c "-" = false).
    { destruct (Ascii.eqb_spec c "-"); [subst; discriminate | reflexivity]. }
    assert (Hp : Ascii.eqb c "+" = false).
    { destruct (Ascii.eqb_spec c "+"); [subst; discriminate | reflexivity]. }
    rewrite Hm, Hp.
    destruct (PyStr.plain_digits false (c :: l)) as [ds|]; [|discriminate].
    destruct (NilEmpty.uint_of_string (string_of_list_ascii ds));
      [|discriminate].
    exact Hparse.
  - unfold PyStr.to_Z. cbn [list_ascii_of_string].
    rewrite strip_no_space by (constructor; [reflexivity | exact Hsp]).
    rewrite Ascii.eqb_refl.
    destruct (PyStr.plain_digits false
                (list_ascii_of_string (NilEmpty.string_of_uint d)))
      as [ds|]; [|discriminate].
    destruct (NilEmpty.uint_of_string (string_of_list_ascii ds));
      [|discriminate].
    inversion Hparse. reflexivity.
Qed.

Lemma to_Z_of_Z (z : Z) : PyStr.to_Z (PyStr.of_Z z) = Some z.
Proof.
  unfold PyStr.of_Z.
  pose proof (DecimalZ.of_to z) as Hz.
  destruct z as [|p|p]; [reflexivity| |].
  - change (Z.to_int (Z.pos p)) with (Decimal.Pos (Pos.to_uint p)) in *.
    cbn [NilEmpty.string_of_int].
    rewrite (proj1 (to_Z_digits (Pos.to_uint p)
                      (DecimalPos.Unsigned.to_uint_nonnil p))).
    f_equal. exact Hz.
  - change (Z.to_int (Z.neg p)) with (Decimal.Neg (Pos.to_uint p)) in *.
    cbn [NilEmpty.string_of_int].
    rewrite (proj2 (to_Z_digits (Pos.to_uint p)
                      (DecimalPos.Unsigned.to_uint_nonnil p))).
    f_equal. exact Hz.
Qed.

Lemma py_int_of_Z (z : Z) : py_int (VStr (PyStr.of_Z z)) = Ok z.
Proof. simpl. rewrite to_Z_of_Z. reflexivity. Qed.

End StringFacts.

(** ** The task monad *)

Section WpRules.
Context {A B : Type}.
Variable W : World.

Lemma wp_ret (a : A) Q E tr : Q a tr -> wp (ret a) Q E tr.
Proof. exact (fun H => H). Qed.

Lemma wp_throw (e : exn) (Q : A -> trace -> Prop) (E : trace -> Prop) tr :
  E tr -> wp (throw e) Q E tr.
Proof. exact (fun H => H). Qed.

Lemma wp_bind (m : M A) (k : A -> M B) Q E tr :
  wp m (fun a tr' => wp (k a) Q E tr') E tr -> wp (bind m k) Q E tr.
Proof.
  unfold wp, bind. destruct (m tr) as [[a|e] tr']; exact (fun H => H).
Qed.

Lemma wp_lift (r : result A) Q (E : trace -> Prop) tr :
  (forall a, r = Ok a -> Q a tr) -> (forall e, r = Raise e -> E tr) ->
  wp (lift r) Q E tr.
Proof. unfold wp, lift. destruct r; intros H1 H2; eauto. Qed.

Lemma wp_mono (m : M A) (Q Q' : A -> trace -> Prop) (E E' : trace -> Prop) tr :
  wp m Q E tr ->
  (forall a tr', Q a tr' -> Q' a tr') -> (forall tr', E tr' -> E' tr') ->
  wp m Q' E' tr.
Proof.
  unfold wp. destruct (m tr) as [[a|e] tr']; intros H H1 H2; auto.
Qed.

Lemma wp_observe (f : World -> trace -> A) Q E tr :
  Q (f W tr) tr -> wp (observe W f) Q E tr.
Proof. exact (fun H => H). Qed.

(** What [wp] says about a run. *)
Lemma wp_run_ok (m : M A) Q E tr a tr' :
  wp m Q E tr -> m tr = (Ok a, tr') -> Q a tr'.
Proof. unfold wp. intros H Hr. rewrite Hr in H. exact H. Qed.

Lemma wp_run_raise (m : M A) Q E tr e tr' :
  wp m Q E tr -> m tr = (Raise e, tr') -> E tr'.
Proof. unfold wp. intros H Hr. rewrite Hr in H. exact H. Qed.
End WpRules.

Section WpPrimitives.
Variable W : World.

Lemma wp_emit (e : event) (Q : unit -> trace -> Prop) E tr :
  Q tt (tr ++ [e])%list -> wp (emit e) Q E tr.
Proof. exact (fun H => H). Qed.

Lemma wp_log lvl text args (Q : unit -> trace -> Prop) E tr :
  Q tt (tr ++ [EvLog lvl text args])%list -> wp (log lvl text args) Q E tr.
Proof. exact (fun H => H). Qed.

Lemma wp_sleep d (Q : unit -> trace -> Prop) (E : trace -> Prop) tr :
  Q tt (tr ++ [EvSleep d])%list -> E (tr ++ [EvSleep d])%list ->
  wp (sleep W d) Q E tr.
Proof.
  unfold wp, sleep. destruct (cancelled W tr); intros H1 H2; assumption.
Qed.

Lemma wp_sh cmd (Q : Z -> trace -> Prop) E tr :
  (forall rc, Q rc (tr ++ [EvShell cmd rc])%list) -> wp (sh W cmd) Q E tr.
Proof. unfold wp, sh. intros H. apply H. Qed.

Lemma wp_active tag kind cmd rc (Q : unit -> trace -> Prop) E tr :
  Q tt (tr ++ [EvActive tag kind cmd rc])%list ->
  wp (set_fault_active tag kind cmd rc) Q E tr.
Proof. exact (fun H => H). Qed.

Lemma wp_inactive tag (Q : unit -> trace -> Prop) E tr :
  Q tt (tr ++ [EvInactive tag])%list -> wp (set_fault_inactive tag) Q E tr.
Proof. exact (fun H => H). Qed.

(** Loops keep an invariant that their body keeps. *)
Lemma wp_repeat (n : nat) (body : M unit) (I E : trace -> Prop) tr :
  (forall tr0, I tr0 -> wp body (fun _ => I) E tr0) ->
  I tr -> wp (repeatM n body) (fun _ => I) E tr.
Proof.
  intros Hbody. revert tr. induction n as [|n IH]; intros tr HI.
  - exact HI.
  - simpl. apply wp_bind. eapply wp_mono; [apply Hbody, HI | | auto].
    intros u tr' HI'. apply IH, HI'.
Qed.

Lemma wp_iter {S : Type} (n : nat) (body : S -> M S)
  (I : S -> trace -> Prop) (E : trace -> Prop) s tr :
  (forall s0 tr0, I s0 tr0 -> wp (body s0) I E tr0) ->
  I s tr -> wp (iterM n body s) (fun _ tr' => exists s', I s' tr') E tr.
Proof.
  intros Hbody. revert s tr. induction n as [|n IH]; intros s tr HI.
  - exists s. exact HI.
  - simpl. apply wp_bind. eapply wp_mono; [apply Hbody, HI | | auto].
    intros s' tr' HI'. apply IH, HI'.
Qed.

Lemma wp_for {X : Type} (l : list X) (body : X -> M unit)
  (I E : trace -> Prop) tr :
  (forall x tr0, In x l -> I tr0 -> wp (body x) (fun _ => I) E tr0) ->
  I tr -> wp (forM l body) (fun _ => I) E tr.
Proof.
  revert tr. induction l as [|x l IH]; intros tr Hbody HI.
  - exact HI.
  - simpl. apply wp_bind.
    eapply wp_mono; [apply Hbody; [left; reflexivity | exact HI] | | auto].
    intros u tr' HI'. apply IH; [|exact HI'].
    intros y tr0 Hy. apply Hbody. right. exact Hy.
Qed.
End WpPrimitives.

(** One step of a [wp] goal. *)
Ltac wp_step W :=
  lazymatch goal with
  | |- wp (bind _ _) _ _ _ => apply wp_bind
  | |- wp (ret _) _ _ _ => apply wp_ret
  | |- wp (throw _) _ _ _ => apply wp_throw
  | |- wp (log _ _ _) _ _ _ => apply wp_log
  | |- wp (emit _) _ _ _ => apply wp_emit
  | |- wp (sleep _ _) _ _ _ => apply wp_sleep
  | |- wp (sh _ _) _ _ _ => apply wp_sh; intros ?rc
  | |- wp (observe _ _) _ _ _ => apply wp_observe
  | |- wp (set_fault_active _ _ _ _) _ _ _ => apply wp_active
  | |- wp (set_fault_inactive _) _ _ _ => apply wp_inactive
  | |- wp (lift _) _ _ _ => apply wp_lift; [intros ? ? | intros ? ?]
  | |- wp (if ?b then _ else _) _ _ _ => destruct b eqn:?
  | |- wp (let '(_, _) := ?p in _) _ _ _ => destruct p eqn:?
  | |- wp (match ?x with _ => _ end) _ _ _ => destruct x eqn:?
  end.

(** ** Logger calls of a trace *)

Section LoggerFacts.

Lemma fault_log_app (a b : trace) :
  fault_log (a ++ b)%list = (fault_log a ++ fault_log b)%list.
Proof.
  induction a as [|e a IH]; [reflexivity|].
  destruct e; simpl; rewrite IH; reflexivity.
Qed.

Lemma logger_state_app strict tag st l1 l2 :
  logger_state strict tag st (l1 ++ l2)%list =
  match logger_state strict tag st l1 with
  | Some st' => logger_state strict tag st' l2
  | None => None
  end.
Proof.
  revert st. induction l1 as [|[b t] l1 IH]; intros st; [reflexivity|].
  simpl. destruct (String.eqb t tag); [|reflexivity].
  destruct b.
  - destruct (st && strict)%bool; [reflexivity | apply IH].
  - destruct st; [apply IH | reflexivity].
Qed.

Lemma LS_log strict tag st tr lvl text args :
  LS strict tag st tr -> LS strict tag st (tr ++ [EvLog lvl text args])%list.
Proof.
  unfold LS. intros H. rewrite fault_log_app, logger_state_app, H. reflexivity.
Qed.

Lemma LS_sleep strict tag st tr d :
  LS strict tag st tr -> LS strict tag st (tr ++ [EvSleep d])%list.
Proof.
  unfold LS. intros H. rewrite fault_log_app, logger_state_app, H. reflexivity.
Qed.

Lemma LS_shell strict tag st tr cmd rc :
  LS strict tag st tr -> LS strict tag st (tr ++ [EvShell cmd rc])%list.
Proof.
  unfold LS. intros H. rewrite fault_log_app, logger_state_app, H. reflexivity.
Qed.

Lemma LS_exec strict tag st tr argv :
  LS strict tag st tr -> LS strict tag st (tr ++ [EvExec argv])%list.
Proof.
  unfold LS. intros H. rewrite fault_log_app, logger_state_app, H. reflexivity.
Qed.

Lemma LS_active strict tag tr kind cmd rc :
  LS strict tag false tr ->
  LS strict tag true (tr ++ [EvActive tag kind cmd rc])%list.
Proof.
  unfold LS. intros H. rewrite fault_log_app, logger_state_app, H.
  simpl. rewrite String.eqb_refl. reflexivity.
Qed.

Lemma LS_active_again tag tr kind cmd rc :
  LS false tag true tr ->
  LS false tag true (tr ++ [EvActive tag kind cmd rc])%list.
Proof.
  unfold LS. intros H. rewrite fault_log_app, logger_state_app, H.
  simpl. rewrite String.eqb_refl. reflexivity.
Qed.

Lemma LS_inactive strict tag tr :
  LS strict tag true tr -> LS strict tag false (tr ++ [EvInactive tag])%list.
Proof.
  unfold LS. intros H. rewrite fault_log_app, logger_state_app, H.
  simpl. rewrite String.eqb_refl. reflexivity.
Qed.

Lemma LS_nil strict tag : LS strict tag false [].
Proof. reflexivity. Qed.

End LoggerFacts.

(** Closing a goal about the logger state of a trace that grew by known
    events. *)
Ltac ls :=
  first
    [ eassumption
    | exact I
    | apply LS_log; ls
    | apply LS_sleep; ls
    | apply LS_shell; ls
    | apply LS_exec; ls
    | apply LS_active; ls
    | apply LS_active_again; ls
    | apply LS_inactive; ls ].

Ltac wp_go W := repeat (wp_step W); try ls.

(** Using a proved [wp] fact for the first task of a sequence, or for the
    whole goal. *)
Ltac wp_apply L :=
  apply wp_bind;
  eapply wp_mono; [ apply L | cbv beta; intros ? ? ? | cbv beta; auto ].

Ltac wp_exact L :=
  eapply wp_mono; [ apply L | cbv beta; intros ? ? ? | cbv beta; auto ].

(** ** Logger calls of the multi injector *)

Section MultiLogger.
Variable W : World.
Import MultiInjector.

Lemma multi_execute_on strict self pid cmd tr :
  LS strict (tag self) false tr ->
  wp (execute_command_for_node W self pid cmd true)
     (fun _ => LS strict (tag self) true) (fun _ => True) tr.
Proof. intros H. unfold execute_command_for_node. wp_go W. Qed.

Lemma multi_execute_off strict self pid cmd tr :
  LS strict (tag self) true tr ->
  wp (execute_command_for_node W self pid cmd false)
     (fun _ => LS strict (tag self) false) (fun _ => True) tr.
Proof. intros H. unfold execute_command_for_node. wp_go W. Qed.

Lemma multi_burst_timing_LS strict tag0 tag1 args st tr :
  LS strict tag0 st tr ->
  wp (burst_timing tag1 args) (fun _ => LS strict tag0 st) (fun _ => True) tr.
Proof. intros H. unfold burst_timing. wp_go W. Qed.

Lemma multi_inject_burst_LS self tr :
  LS true (tag self) false tr ->
  wp (_inject_burst W self) (fun _ => LS true (tag self) false)
     (fun _ => True) tr.
Proof.
  intros H. unfold _inject_burst. wp_step W. wp_step W.
  wp_apply (multi_burst_timing_LS true (tag self)); [ls|].
  wp_step W. wp_step W. wp_step W; [|exact I].
  apply wp_repeat; [|assumption].
  intros tr2 H2.
  wp_apply multi_execute_on; [ls|].
  wp_step W. wp_step W; [|exact I].
  wp_apply multi_execute_off; [ls|].
  wp_go W.
Qed.

Lemma multi_inject_persistent_LS self tr :
  LS true (tag self) false tr ->
  wp (_inject_persistent W self) (fun _ => LS true (tag self) false)
     (fun _ => True) tr.
Proof.
  intros H. unfold _inject_persistent. wp_step W. wp_step W.
  wp_apply multi_execute_on; [ls|].
  wp_step W. wp_step W; [|exact I].
  wp_exact multi_execute_off; [ls|ls].
Qed.

Lemma multi_do_injection_LS self tr :
  LS true (tag self) false tr ->
  wp (do_injection W self) (fun _ => LS true (tag self) false)
     (fun _ => True) tr.
Proof.
  intros H. unfold do_injection.
  wp_step W. wp_step W. wp_step W. wp_step W; [|exact I].
  apply wp_bind.
  destruct (String.eqb (fault_pattern self) "burst");
    [|destruct (String.eqb (fault_pattern self) "persistent")].
  - wp_exact multi_inject_burst_LS; [ls|]. wp_go W.
  - wp_exact multi_inject_persistent_LS; [ls|]. wp_go W.
  - wp_go W.
Qed.

End MultiLogger.

(** ** Logger calls of the node injector *)

Section NodeLogger.
Variable W : World.
Import NodeInjector.

Lemma node_execute_on strict self pid cmd tr :
  LS strict (tag self) false tr ->
  wp (execute_command_for_node W self pid cmd true)
     (fun _ => LS strict (tag self) true) (fun _ => True) tr.
Proof. intros H. unfold execute_command_for_node. wp_go W. Qed.

Lemma node_execute_off strict self pid cmd tr :
  LS strict (tag self) true tr ->
  wp (execute_command_for_node W self pid cmd false)
     (fun _ => LS strict (tag self) false) (fun _ => True) tr.
Proof. intros H. unfold execute_command_for_node. wp_go W. Qed.

Lemma node_cgroup_size_LS strict tag0 st self tr :
  LS strict tag0 st tr ->
  wp (_get_cgroup_size W self) (fun _ => LS strict tag0 st) (fun _ => True) tr.
Proof. intros H. unfold _get_cgroup_size. wp_go W. Qed.

Lemma node_degradation_config_LS strict tag0 st self tr :
  LS strict tag0 st tr ->
  wp (degradation_config self) (fun _ => LS strict tag0 st)
     (fun _ => True) tr.
Proof. intros H. unfold degradation_config. wp_go W. Qed.

Lemma node_persistent_commands_LS strict tag0 st self tr :
  LS strict tag0 st tr ->
  wp (persistent_commands self) (fun _ => LS strict tag0 st)
     (fun _ => True) tr.
Proof. intros H. unfold persistent_commands. wp_go W. Qed.

(** One burst cycle, whatever the two commands are. *)
Lemma node_cycle self c1 c2 (d p : num) tr :
  LS true (tag self) false tr ->
  wp (execute_command_for_node W self (target_process_pid self) c1 true ;;
      sleep W d ;;
      execute_command_for_node W self (target_process_pid self) c2 false ;;
      rest <- lift (sub p d) ;;
      sleep W rest)
     (fun _ => LS true (tag self) false) (fun _ => True) tr.
Proof.
  intros H.
  wp_apply node_execute_on; [ls|].
  wp_step W. wp_step W; [|exact I].
  wp_apply node_execute_off; [ls|].
  wp_go W.
Qed.

Lemma node_inject_burst_LS self tr :
  LS true (tag self) false tr ->
  wp (_inject_burst W self) (fun _ => LS true (tag self) false)
     (fun _ => True) tr.
Proof.
  intros H. unfold _inject_burst. wp_step W. wp_step W.
  wp_apply (multi_burst_timing_LS true (tag self)); [ls|].
  wp_step W. wp_step W. wp_step W; [|exact I].
  wp_step W; [|wp_step W].
  - wp_step W.
    assert (Hlog :
      wp (match fault_args self with
          | [] => log Error "{self.tag} missing fault args for injection"
                    [LVal (VStr (tag self))]
          | _ :: _ => ret tt
          end) (fun _ => LS true (tag self) false) (fun _ => True) tr')
      by (destruct (fault_args self); wp_go W).
    wp_exact Hlog. wp_step W.
    apply wp_repeat; [|assumption].
    intros tr2 Hinv. apply node_cycle, Hinv.
  - wp_step W. wp_step W; [|exact I].
    wp_apply (node_cgroup_size_LS true (tag self)); [ls|].
    wp_step W.
    assert (Hpct :
      wp (match fault_args self with
          | a0 :: _ => lift (py_int (VStr a0))
          | [] =>
              log Error
                "{self.tag} is missing stress intensity, defaulting to 50%"
                [LVal (VStr (tag self))] ;;
              ret 50
          end) (fun _ => LS true (tag self) false) (fun _ => True) tr'0)
      by (destruct (fault_args self); wp_go W).
    wp_exact Hpct.
    wp_step W. wp_step W; [|exact I].
    wp_step W. wp_step W; [|exact I].
    wp_step W.
    apply wp_repeat; [|assumption].
    intros tr2 Hinv. apply node_cycle, Hinv.
  - wp_go W.
Qed.

Lemma node_inject_degradation_LS self tr :
  LS true (tag self) false tr ->
  wp (_inject_degradation W self) (fun _ => LS true (tag self) false)
     (fun _ => True) tr.
Proof.
  intros H. unfold _inject_degradation. wp_step W. wp_step W.
  wp_apply (node_degradation_config_LS true (tag self)); [ls|].
  destruct a as [[[e s] len] size].
  wp_step W. wp_step W; [|exact I].
  wp_step W; [|wp_step W].
  - wp_step W.
    assert (Hlog :
      wp (match fault_args self with
          | [] => log Error "{self.tag} missing fault args for injection"
                    [LVal (VStr (tag self))]
          | _ :: _ => ret tt
          end) (fun _ => LS true (tag self) false) (fun _ => True) tr')
      by (destruct (fault_args self); wp_go W).
    wp_exact Hlog. wp_step W. wp_step W. wp_step W; [|exact I].
    wp_step W.
    assert (Hmany :
      wp (if (1 <? a1)%nat
          then log Error
                 "{self.tag} contains more than one place to insert arguments, but currently only supports one!"
                 [LVal (VStr (tag self))]
          else ret tt) (fun _ => LS true (tag self) false) (fun _ => True) tr'0)
      by (destruct (1 <? a1)%nat; wp_go W).
    wp_exact Hmany.
    eapply wp_mono;
      [apply wp_iter with (I := fun _ => LS true (tag self) false)
                        (E := fun _ => True);
       [|assumption]
      | cbv beta; intros ? ? [? ?]; assumption | auto].
    intros v tr2 Hinv. unfold custom_degradation_step.
    wp_step W. wp_step W; [|exact I].
    wp_apply node_execute_on; [ls|].
    wp_step W. wp_step W; [|exact I].
    wp_apply node_execute_off; [ls|].
    wp_go W.
  - wp_apply (node_cgroup_size_LS true (tag self)); [ls|].
    eapply wp_mono;
      [apply wp_iter with (I := fun _ => LS true (tag self) false)
                        (E := fun _ => True);
       [|assumption]
      | cbv beta; intros ? ? [? ?]; assumption | auto].
    intros v tr2 Hinv. unfold stress_degradation_step.
    wp_step W. wp_step W; [|exact I].
    wp_step W. wp_step W; [|exact I].
    wp_step W.
    wp_step W. wp_step W; [|exact I].
    wp_step W. wp_step W; [|exact I].
    wp_apply node_execute_on; [ls|].
    wp_step W. wp_step W; [|exact I].
    wp_step W. wp_step W; [|exact I].
    wp_apply node_execute_off; [ls|].
    wp_go W.
  - wp_go W.
Qed.

Lemma node_inject_persistent_LS self tr :
  LS true (tag self) false tr ->
  wp (_inject_persistent W self) (fun _ => LS true (tag self) false)
     (fun _ => True) tr.
Proof.
  intros H. unfold _inject_persistent. wp_step W. wp_step W.
  wp_step W; [|wp_step W].
  - wp_apply (node_persistent_commands_LS true (tag self)); [ls|].
    wp_step W.
    wp_apply node_execute_on; [ls|].
    wp_step W. wp_step W; [|exact I].
    wp_exact node_execute_off; [ls|ls].
  - wp_apply (node_cgroup_size_LS true (tag self)); [ls|].
    wp_step W. wp_step W; [|exact I].
    wp_step W.
    assert (Hpct :
      wp (if (List.length (fault_args self) <? 1)%nat
          then
            log Error
              "{self.tag} doesn't define stress intensity! defaulting to 50%"
              [LVal (VStr (tag self))] ;;
            ret (Int 50)
          else
            a0 <- lift (index (fault_args self) 0) ;;
            f <- lift (py_float W (VStr a0)) ;;
            ret (Float f))
         (fun _ => LS true (tag self) false) (fun _ => True) tr')
      by wp_go W.
    wp_exact Hpct.
    wp_step W. wp_step W; [|exact I].
    wp_step W. wp_step W; [|exact I].
    wp_step W.
    wp_apply node_execute_on; [ls|].
    wp_step W. wp_step W; [|exact I].
    wp_exact node_execute_off; [ls|ls].
  - wp_go W.
Qed.

Lemma node_do_injection_LS self tr :
  LS true (tag self) false tr ->
  wp (do_injection W self) (fun _ => LS true (tag self) false)
     (fun _ => True) tr.
Proof.
  intros H. unfold do_injection.
  wp_step W. wp_step W. wp_step W. wp_step W; [|exact I].
  apply wp_bind.
  destruct (String.eqb (fault_pattern self) "burst");
    [|destruct (String.eqb (fault_pattern self) "degradation");
      [|destruct (String.eqb (fault_pattern self) "persistent")]].
  - wp_exact node_inject_burst_LS; [ls|]. wp_go W.
  - wp_exact node_inject_degradation_LS; [ls|]. wp_go W.
  - wp_exact node_inject_persistent_LS; [ls|]. wp_go W.
  - wp_go W.
Qed.

End NodeLogger.

(** ** Logger calls of the link injector *)

Section LinkLogger.
Variable W : World.
Import LinkInjector.

Lemma link_make_nics_LS strict tag0 st pid device ft fp pargs fargs tc tr :
  LS strict tag0 st tr ->
  wp (make_nics_injection_command W pid device ft fp pargs fargs tc)
     (fun _ => LS strict tag0 st) (fun _ => True) tr.
Proof. intros H. unfold make_nics_injection_command. wp_go W. Qed.

(** The filtered synthesizer only logs; its add list is never empty and its
    del list has one command. *)
Lemma link_make_filtered_LS strict tag0 st pid fp pargs ft fargs device proto
  dst src enable tr :
  LS strict tag0 st tr ->
  wp (make_filtered_nics_injection_commands W pid fp pargs ft fargs device
        proto dst src enable)
     (fun l tr' =>
        LS strict tag0 st tr' /\
        if enable then l <> [] else exists c, l = [c])
     (fun _ => True) tr.
Proof.
  intros H. unfold make_filtered_nics_injection_commands.
  destruct enable.
  - wp_go W; (split; [ls|]);
      destruct (PyStr.contains "redirect" ft); discriminate.
  - wp_go W; (split; [ls|]); eexists; reflexivity.
Qed.

Lemma link_for_active self (l : list string) st tr :
  LS false (tag self) st tr ->
  wp (forM l (fun command =>
        retcode <- sh W command ;;
        set_fault_active (tag self) (fault_type self) command retcode))
     (fun _ => LS false (tag self) (match l with [] => st | _ => true end))
     (fun _ => True) tr.
Proof.
  revert st tr. induction l as [|c l IH]; intros st tr H; [exact H|].
  simpl. apply wp_bind. wp_step W. wp_step W. wp_step W.
  eapply wp_mono; [apply (IH true) | | auto].
  - destruct st; ls.
  - cbv beta. intros _ tr' H'. destruct l; exact H'.
Qed.

Lemma link_toggle_on self pattern pargs tr :
  let strict := PyStr.contains "any" (fault_target_protocol self) in
  LS strict (tag self) false tr ->
  wp (toggle W self pattern pargs true)
     (fun _ => LS strict (tag self) true) (fun _ => True) tr.
Proof.
  intros strict H. unfold toggle, inject_nics. subst strict.
  destruct (PyStr.contains "any" (fault_target_protocol self)).
  - wp_apply (link_make_nics_LS true (tag self)); [ls|].
    wp_step W. unfold call. wp_step W; [|wp_go W].
    wp_go W.
  - wp_apply (link_make_filtered_LS false (tag self)); [ls|].
    destruct H0 as [H0 Hne].
    wp_exact link_for_active; [ls|].
    destruct a; [contradiction | assumption].
Qed.

Lemma link_toggle_off self pattern pargs tr :
  let strict := PyStr.contains "any" (fault_target_protocol self) in
  LS strict (tag self) true tr ->
  wp (toggle W self pattern pargs false)
     (fun _ => LS strict (tag self) false) (fun _ => True) tr.
Proof.
  intros strict H. unfold toggle, inject_nics. subst strict.
  destruct (PyStr.contains "any" (fault_target_protocol self)).
  - wp_apply (link_make_nics_LS true (tag self)); [ls|].
    wp_step W. unfold call. wp_step W; [|wp_go W].
    wp_go W.
  - wp_apply (link_make_filtered_LS false (tag self)); [ls|].
    destruct H0 as [H0 [c ->]].
    simpl. wp_go W.
Qed.

Lemma link_pre_LS strict tag0 st self tr :
  LS strict tag0 st tr ->
  wp (getPreInjectionTime self) (fun _ => LS strict tag0 st)
     (fun _ => True) tr.
Proof. intros H. unfold getPreInjectionTime. wp_go W. Qed.

Lemma link_inj_LS strict tag0 st self tr :
  LS strict tag0 st tr ->
  wp (getInjectionTime self) (fun _ => LS strict tag0 st)
     (fun _ => True) tr.
Proof. intros H. unfold getInjectionTime. wp_go W. Qed.

Lemma link_post_LS strict tag0 st self tr :
  LS strict tag0 st tr ->
  wp (getPostInjectionTime self) (fun _ => LS strict tag0 st)
     (fun _ => True) tr.
Proof. intros H. unfold getPostInjectionTime. wp_go W. Qed.

Lemma link_burst_LS self tr :
  let strict := PyStr.contains "any" (fault_target_protocol self) in
  LS strict (tag self) false tr ->
  wp (_inject_burst_pattern W self) (fun _ => LS strict (tag self) false)
     (fun _ => True) tr.
Proof.
  intros strict H. unfold _inject_burst_pattern.
  apply wp_bind.
  assert (Hlog :
    wp (if (List.length (fault_pattern_args self) <? 2)%nat
        then log Error
               "{self.tag} Burst doesn't have enough arguments to be defined"
               [LVal (VStr (tag self))]
        else ret tt) (fun _ => LS strict (tag self) false) (fun _ => True) tr)
    by wp_go W.
  wp_exact Hlog.
  wp_step W. wp_step W; [|exact I].
  wp_step W. wp_step W; [|exact I].
  wp_apply (link_inj_LS strict (tag self) false); [ls|].
  wp_step W. wp_step W.
  wp_apply (link_inj_LS strict (tag self) false); [ls|].
  wp_step W. wp_step W; [|exact I].
  wp_step W. wp_step W.
  apply wp_repeat; [|ls].
  intros tr2 Hinv.
  wp_apply link_toggle_on; [exact Hinv|].
  wp_step W. wp_step W; [|exact I].
  wp_apply link_toggle_off; [ls|].
  wp_go W.
Qed.

Lemma link_degradation_LS self tr :
  let strict := PyStr.contains "any" (fault_target_protocol self) in
  LS strict (tag self) false tr ->
  wp (_inject_degradation_pattern W self)
     (fun _ => LS strict (tag self) false) (fun _ => True) tr.
Proof.
  intros strict H. unfold _inject_degradation_pattern.
  apply wp_bind.
  assert (Hend :
    wp (if (4 <=? List.length (fault_pattern_args self))%nat
        then e <- lift (rbind (index (fault_pattern_args self) 3) py_int) ;;
             ret (Z.min e 100)
        else ret 100) (fun _ => LS strict (tag self) false) (fun _ => True) tr)
    by wp_go W.
  wp_exact Hend. apply wp_bind.
  assert (Hstart :
    wp (if (3 <=? List.length (fault_pattern_args self))%nat
        then v <- lift (index (fault_pattern_args self) 2) ;;
             ret (VStr (py_str W v))
        else ret (VInt 0)) (fun _ => LS strict (tag self) false)
       (fun _ => True) tr') by wp_go W.
  wp_exact Hstart. apply wp_bind.
  assert (Hlen :
    wp (if (2 <=? List.length (fault_pattern_args self))%nat
        then z <- lift (rbind (index (fault_pattern_args self) 1) py_int) ;;
             lift (truediv (Int z) (Int 1000))
        else lift (truediv (Int 1000) (Int 1000)))
       (fun _ => LS strict (tag self) false) (fun _ => True) tr'0)
    by wp_go W.
  wp_exact Hlen. apply wp_bind.
  assert (Hsize :
    wp (if (1 <=? List.length (fault_pattern_args self))%nat
        then v <- lift (index (fault_pattern_args self) 0) ;;
             ret (py_str W v)
        else
          log Error
            "{self.tag} does not have enough pattern_args to define degradation step, defaulting to 5"
            [LVal (VStr (tag self))] ;;
          ret (PyStr.of_Z 5))
       (fun _ => LS strict (tag self) false) (fun _ => True) tr'1)
    by wp_go W.
  wp_exact Hsize.
  wp_apply (link_inj_LS strict (tag self) false); [ls|].
  wp_step W. wp_step W; [|exact I].
  wp_step W. wp_step W.
  eapply wp_mono;
    [apply wp_iter with (I := fun _ => LS strict (tag self) false)
                       (E := fun _ => True); [|ls]
    | cbv beta; intros ? ? [? ?]; assumption | auto].
  intros v tr2 Hinv. unfold degradation_step.
  wp_apply link_toggle_on; [exact Hinv|].
  wp_step W. wp_step W; [|exact I].
  wp_apply link_toggle_off; [ls|].
  wp_go W.
Qed.

Lemma link_persistent_LS self tr :
  let strict := PyStr.contains "any" (fault_target_protocol self) in
  LS strict (tag self) false tr ->
  wp (_inject_persistent_or_random_pattern W self)
     (fun _ => LS strict (tag self) false) (fun _ => True) tr.
Proof.
  intros strict H. unfold _inject_persistent_or_random_pattern.
  wp_step W. wp_step W.
  wp_apply link_toggle_on; [ls|].
  wp_apply (link_inj_LS strict (tag self) true); [ls|].
  wp_step W. wp_step W; [|exact I].
  wp_exact link_toggle_off; [ls|ls].
Qed.

Lemma link_do_injection_LS self tr :
  let strict := PyStr.contains "any" (fault_target_protocol self) in
  LS strict (tag self) false tr ->
  wp (do_injection W self) (fun _ => LS strict (tag self) false)
     (fun _ => True) tr.
Proof.
  intros strict H. unfold do_injection.
  wp_apply (link_pre_LS strict (tag self) false); [ls|].
  wp_step W. wp_step W.
  wp_apply (link_pre_LS strict (tag self) false); [ls|].
  wp_step W. wp_step W; [|exact I].
  apply wp_bind.
  assert (Hpat :
    forall tr0, LS strict (tag self) false tr0 ->
    wp (if PyStr.contains "burst" (fault_pattern self)
        then _inject_burst_pattern W self
        else if PyStr.contains "degradation" (fault_pattern self)
             then _inject_degradation_pattern W self
             else _inject_persistent_or_random_pattern W self)
       (fun _ => LS strict (tag self) false) (fun _ => True) tr0).
  { intros tr0 H0'.
    destruct (PyStr.contains "burst" (fault_pattern self));
      [|destruct (PyStr.contains "degradation" (fault_pattern self))].
    - apply link_burst_LS, H0'.
    - apply link_degradation_LS, H0'.
    - apply link_persistent_LS, H0'. }
  wp_exact Hpat; [ls|].
  wp_apply (link_post_LS strict (tag self) false); [ls|].
  wp_step W. wp_step W.
  wp_apply (link_post_LS strict (tag self) false); [ls|].
  wp_go W.
Qed.

End LinkLogger.

(** ** Pairing of logger calls (C4) *)

Section Pairing.

Lemma paired_of_state tag l :
  (logger_state true tag false l = Some false -> paired tag l) /\
  (logger_state true tag true l = Some false ->
   exists rest, l = (false, tag) :: rest /\ paired tag rest).
Proof.
  induction l as [|[b t] l [IH0 IH1]]; split; intros H; simpl in H.
  - constructor.
  - discriminate.
  - destruct (String.eqb_spec t tag) as [->|]; [|discriminate].
    destruct b; [|discriminate].
    destruct (IH1 H) as (rest & -> & Hp). constructor. exact Hp.
  - destruct (String.eqb_spec t tag) as [->|]; [|discriminate].
    destruct b; [discriminate|].
    exists l. split; [reflexivity | apply IH0, H].
Qed.

Lemma grouped_of_state tag l :
  (logger_state false tag false l = Some false -> grouped tag l) /\
  (logger_state false tag true l = Some false ->
   exists k rest,
     l = (repeat (true, tag) k ++ (false, tag) :: rest)%list /\
     grouped tag rest).
Proof.
  induction l as [|[b t] l [IH0 IH1]]; split; intros H; simpl in H.
  - constructor.
  - discriminate.
  - destruct (String.eqb_spec t tag) as [->|]; [|discriminate].
    destruct b; [|discriminate].
    destruct (IH1 H) as (k & rest & -> & Hg).
    apply (grouped_cons tag k rest Hg).
  - destruct (String.eqb_spec t tag) as [->|]; [|discriminate].
    destruct b.
    + destruct (IH1 H) as (k & rest & -> & Hg).
      exists (S k), rest. split; [reflexivity | exact Hg].
    + exists O, l. split; [reflexivity | apply IH0, H].
Qed.

(** C4, as the code has it: on every run of [do_injection] that returns
    (no exception, no cancellation), the logger calls of a multi injector,
    of a node injector and of a link injector without protocol filter are
    exactly pairs of one [set_fault_active(tag)] followed by one
    [set_fault_inactive(tag)]; with a protocol filter each activation is a
    run of one or more [set_fault_active(tag)] (one per executed add
    command) closed by exactly one [set_fault_inactive(tag)]. *)
Theorem logger_pairing_on_return (W : World) :
  (forall self tr,
     MultiInjector.do_injection W self [] = (Ok tt, tr) ->
     paired (MultiInjector.tag self) (fault_log tr)) /\
  (forall self tr,
     NodeInjector.do_injection W self [] = (Ok tt, tr) ->
     paired (NodeInjector.tag self) (fault_log tr)) /\
  (forall self tr,
     LinkInjector.do_injection W self [] = (Ok tt, tr) ->
     if PyStr.contains "any" (LinkInjector.fault_target_protocol self)
     then paired (LinkInjector.tag self) (fault_log tr)
     else grouped (LinkInjector.tag self) (fault_log tr)).
Proof.
  repeat split.
  - intros self tr Hrun.
    apply paired_of_state.
    exact (wp_run_ok _ _ _ _ _ _
             (multi_do_injection_LS W self [] (LS_nil _ _)) Hrun).
  - intros self tr Hrun.
    apply paired_of_state.
    exact (wp_run_ok _ _ _ _ _ _
             (node_do_injection_LS W self [] (LS_nil _ _)) Hrun).
  - intros self tr Hrun.
    pose proof (wp_run_ok _ _ _ _ _ _
                  (link_do_injection_LS W self [] (LS_nil _ _)) Hrun) as H.
    cbv beta zeta in H. unfold LS in H.
    destruct (PyStr.contains "any" (LinkInjector.fault_target_protocol self)).
    + apply paired_of_state, H.
    + apply grouped_of_state, H.
Qed.

Lemma logger_pairing_witness :
  paired "m1" (fault_log (snd (MultiInjector.do_injection quiet sample_multi [])))
  /\ paired "n1"
       (fault_log (snd (NodeInjector.do_injection quiet sample_node [])))
  /\ paired "f1"
       (fault_log (snd (LinkInjector.do_injection quiet sample_link [])))
  /\ grouped "f1"
       (fault_log (snd (LinkInjector.do_injection quiet sample_filtered []))).
Proof.
  destruct (logger_pairing_on_return quiet) as (Hm & Hn & Hl).
  split; [|split; [|split]].
  - apply (Hm sample_multi). reflexivity.
  - apply (Hn sample_node). reflexivity.
  - apply (Hl sample_link). reflexivity.
  - apply (Hl sample_filtered). reflexivity.
Defined.

(** C4 as stated fails: the filtered fault [sample_filtered] returns
    normally after three [set_fault_active] calls (one per add command) and
    a single [set_fault_inactive] call. *)
Lemma logger_pairing_counterexample :
  let run := LinkInjector.do_injection quiet sample_filtered [] in
  fst run = Ok tt /\
  count_active (snd run) = 3%nat /\
  count_inactive (snd run) = 1%nat /\
  ~ paired "f1" (fault_log (snd run)).
Proof.
  cbv zeta. repeat split.
  intros H. vm_compute in H. inversion H.
Qed.

(** Cancellation is not handled either: cancelled while the fault is
    active, the task ends with the fault still marked active. *)
Lemma cancellation_leaves_active :
  let run := LinkInjector.do_injection cancel_second_sleep sample_link [] in
  fst run = Raise CancelledError /\
  fault_log (snd run) = [(true, "f1")].
Proof. split; reflexivity. Qed.

End Pairing.

(** ** Pipes in executed commands (C1) *)

Section Pipes.

(** Whatever the command, the line handed to the shell holds no pipe
    character any more: [replace] puts the prefix in the place of the
    character instead of after it. *)
Lemma multi_full_command_has_no_pipe pid cmd :
  has_char "|" (MultiInjector.full_command pid cmd) = false.
Proof.
  unfold MultiInjector.full_command.
  destruct (PyStr.contains "|" (MultiInjector.base_command pid ++ cmd)) eqn:Hc.
  - apply replace_char_gone.
    rewrite !has_char_app, has_char_of_pid; try reflexivity; discriminate.
  - rewrite contains_char in Hc. exact Hc.
Qed.

Lemma node_full_command_has_no_pipe pid cmd :
  has_char "|" (NodeInjector.full_command pid cmd) = false.
Proof.
  unfold NodeInjector.full_command.
  destruct (PyStr.contains "|" (NodeInjector.base_command pid ++ cmd)) eqn:Hc.
  - apply replace_char_gone.
    rewrite !has_char_app, has_char_of_pid; try reflexivity; discriminate.
  - rewrite contains_char in Hc. exact Hc.
Qed.

(** C1 at a failing input: the injection command of every multi injector
    is a pipeline, and the command line the executor runs for it has lost
    the pipe; the same happens to a pipeline given to a node injector. *)
Theorem pipe_is_replaced_not_kept :
  shell_commands
    (snd (MultiInjector.execute_command_for_node quiet sample_multi (Some 100)
            "echo '{}' | tcset /dev/stdin --import-setting" true []))
  = ["nsenter --target 100 --net --pid echo '{}' nsenter --target 100 --net --pid  tcset /dev/stdin --import-setting"]
  /\
  shell_commands
    (snd (NodeInjector.execute_command_for_node quiet sample_node (Some 100)
            (Some "cat /proc/loadavg | logger") true []))
  = ["nsenter --target 100 --net --pid --cgroup cat /proc/loadavg nsenter --target 100 --net --pid --cgroup logger"].
Proof. split; reflexivity. Qed.

End Pipes.

(** ** Unknown fault patterns (C5) *)

Section UnknownPattern.
Variable W : World.
Hypothesis never_cancelled : forall tr, cancelled W tr = false.

(** The multi injector logs the error, runs nothing and keeps both
    waits. *)
Lemma multi_unknown_pattern_skips (self : MultiInjector.t) :
  String.eqb (MultiInjector.fault_pattern self) "burst" = false ->
  String.eqb (MultiInjector.fault_pattern self) "persistent" = false ->
  MultiInjector.do_injection W self [] =
  (Ok tt,
   [EvLog Info "Fault %s waits %s s of pre-injection time"
      [LVal (VStr (MultiInjector.tag self));
       LVal (VNum (MultiInjector.pre_injection_time self))];
    EvSleep (MultiInjector.pre_injection_time self);
    EvLog Error "{self.tag} has unknown fault pattern: {self.fault_pattern}"
      [LVal (VStr (MultiInjector.tag self));
       LVal (VStr (MultiInjector.fault_pattern self))];
    EvLog Info "Fault %s waits %s s of post-injection time"
      [LVal (VStr (MultiInjector.tag self));
       LVal (VNum (MultiInjector.post_injection_time self))];
    EvSleep (MultiInjector.post_injection_time self)]).
Proof.
  intros Hb Hp.
  unfold MultiInjector.do_injection, bind, log, emit, sleep.
  rewrite Hb, Hp. simpl. rewrite !never_cancelled. reflexivity.
Qed.

(** So does the node injector. *)
Lemma node_unknown_pattern_skips (self : NodeInjector.t) :
  String.eqb (NodeInjector.fault_pattern self) "burst" = false ->
  String.eqb (NodeInjector.fault_pattern self) "degradation" = false ->
  String.eqb (NodeInjector.fault_pattern self) "persistent" = false ->
  NodeInjector.do_injection W self [] =
  (Ok tt,
   [EvLog Info "Fault %s waits %s s of pre-injection time"
      [LVal (VStr (NodeInjector.tag self));
       LVal (VNum (NodeInjector.pre_injection_time self))];
    EvSleep (NodeInjector.pre_injection_time self);
    EvLog Error "{self.tag} has unknown fault pattern"
      [LVal (VStr (NodeInjector.tag self))];
    EvLog Info "Fault %s waits %s s of post-injection time"
      [LVal (VStr (NodeInjector.tag self));
       LVal (VNum (NodeInjector.post_injection_time self))];
    EvSleep (NodeInjector.post_injection_time self)]).
Proof.
  intros Hb Hd Hp.
  unfold NodeInjector.do_injection, bind, log, emit, sleep.
  rewrite Hb, Hd, Hp. simpl. rewrite !never_cancelled. reflexivity.
Qed.

End UnknownPattern.

(** C5 at a failing input: the link injector sends an unknown pattern down
    the persistent path.  Without a filter the synthesizer logs the error
    and returns [None], which [call] rejects with a [TypeError]: the task
    dies after the first wait and the post-injection wait never happens.
    With a filter the root qdisc and the classifier are even installed and
    removed again. *)
Theorem link_unknown_pattern_runs_active_phase :
  (let run := LinkInjector.do_injection quiet sample_link_unknown [] in
   fst run = Raise TypeError /\
   errors (snd run) = ["Fault pattern %s is unknown"] /\
   sleeps (snd run) = [Float (S754_zero false)]) /\
  (let run := LinkInjector.do_injection quiet sample_filtered_unknown [] in
   fst run = Ok tt /\
   errors (snd run) = [] /\
   shell_commands (snd run) =
   ["nsenter --target 100 --net tc qdisc add dev eth0 root handle 1: prio";
    "nsenter --target 100 --net tc filter add dev eth0 parent 1:0 protocol ip prio 1 u32 match ip protocol 6 0xff match ip dport 80 0xffff flowid 1:1";
    "nsenter --target 100 --net tc qdisc del dev eth0 root handle 1: prio"]).
Proof. repeat split. Qed.

(** ** Bursts with missing pattern arguments (C6) *)

Section BurstDefaults.
Variable W : World.

(** Multi and node injectors: fewer than two pattern arguments give one
    second every two seconds, after one error line. *)
Lemma burst_timing_defaults (tag0 : string) (args : list value) (tr : trace) :
  (List.length args < 2)%nat ->
  MultiInjector.burst_timing tag0 args tr =
  (Ok (Int 1, Int 2),
   (tr ++ [EvLog Error
             "{self.tag} burst is missing parameters, defaulting to 1 second per 2 seconds"
             [LVal (VStr tag0)]])%list).
Proof.
  intros H. unfold MultiInjector.burst_timing.
  destruct (Nat.ltb_spec (List.length args) 2) as [_|Hge]; [reflexivity | lia].
Qed.

Lemma count_active_snoc tr e :
  count_active (tr ++ [e])%list =
  (count_active tr + match e with EvActive _ _ _ _ => 1 | _ => 0 end)%nat.
Proof.
  unfold count_active. rewrite fault_log_app, filter_app, length_app.
  destruct e; simpl; lia.
Qed.

Lemma count_inactive_snoc tr e :
  count_inactive (tr ++ [e])%list =
  (count_inactive tr + match e with EvInactive _ => 1 | _ => 0 end)%nat.
Proof.
  unfold count_inactive. rewrite fault_log_app, filter_app, length_app.
  destruct e; simpl; lia.
Qed.

(** [n] rounds of a body that marks the fault active once and inactive
    once do so [n] times. *)
Lemma wp_repeat_cycles (body : M unit) (n : nat) :
  (forall tr0,
     wp body (fun _ tr' => count_active tr' = S (count_active tr0) /\
                           count_inactive tr' = S (count_inactive tr0))
        (fun _ => True) tr0) ->
  forall tr,
    wp (repeatM n body)
       (fun _ tr' => count_active tr' = (count_active tr + n)%nat /\
                     count_inactive tr' = (count_inactive tr + n)%nat)
       (fun _ => True) tr.
Proof.
  intros Hbody. induction n as [|n IH]; intros tr.
  - simpl. apply wp_ret. split; lia.
  - simpl. apply wp_bind. eapply wp_mono; [apply Hbody | | auto].
    cbv beta. intros u tr' [Ha Hi].
    eapply wp_mono; [apply IH | | auto].
    cbv beta. intros u' tr'' [Ha' Hi']. split; lia.
Qed.

Ltac counts :=
  repeat rewrite count_active_snoc; repeat rewrite count_inactive_snoc;
  simpl; try (split; lia); try lia.

(** A burst of the multi injector that returns has run
    [int(injection_time / burst_period)] cycles (none when that number is
    negative), each with one activation and one deactivation. *)
Lemma multi_burst_cycles (self : MultiInjector.t) tr :
  wp (MultiInjector._inject_burst W self)
     (fun _ tr' =>
        exists d p n,
          fst (MultiInjector.burst_timing (MultiInjector.tag self)
                 (MultiInjector.fault_pattern_args self) tr) = Ok (d, p) /\
          rbind (truediv (MultiInjector.injection_time self) p) to_int = Ok n /\
          count_active tr' = (count_active tr + range_len n)%nat /\
          count_inactive tr' = (count_inactive tr + range_len n)%nat)
     (fun _ => True) tr.
Proof.
  unfold MultiInjector._inject_burst. wp_step W. wp_step W. apply wp_bind.
  assert (Htiming :
    wp (MultiInjector.burst_timing (MultiInjector.tag self)
          (MultiInjector.fault_pattern_args self))
       (fun r tr' =>
          fst (MultiInjector.burst_timing (MultiInjector.tag self)
                 (MultiInjector.fault_pattern_args self) tr) = Ok r /\
          count_active tr' = count_active tr /\
          count_inactive tr' = count_inactive tr)
       (fun _ => True)
       (tr ++ [EvLog Info "Fault %s commencing burst"
                 [LVal (VStr (MultiInjector.tag self))]])%list).
  { unfold MultiInjector.burst_timing.
    destruct (List.length (MultiInjector.fault_pattern_args self) <? 2)%nat.
    - wp_go W. split; [reflexivity | counts].
    - unfold wp, bind, lift.
      destruct (rbind (rbind (index (MultiInjector.fault_pattern_args self) 0)
                         py_int) (fun z => truediv (Int z) (Int 1000)));
        [|exact I].
      destruct (rbind (rbind (index (MultiInjector.fault_pattern_args self) 1)
                         py_int) (fun z => truediv (Int z) (Int 1000)));
        [|exact I].
      simpl. split; [reflexivity | counts]. }
  wp_exact Htiming. destruct a as [d p]. destruct H as (Ht & Ha & Hi).
  wp_step W. wp_step W; [|exact I].
  eapply wp_mono; [apply wp_repeat_cycles | | auto].
  - intros tr0. unfold MultiInjector.execute_command_for_node.
    wp_go W. counts.
  - cbv beta. intros u tr'' [Ha' Hi']. exists d, p, a. repeat split; auto; lia.
Qed.

End BurstDefaults.

(** C6 at a failing input: the link injector logs that the burst has too
    few arguments and then reads [burst_config[1]] all the same, which
    raises an [IndexError] before any command is run. *)
Theorem link_burst_short_args_raises :
  LinkInjector._inject_burst_pattern quiet sample_link_burst_short [] =
  (Raise IndexError,
   [EvLog Error "{self.tag} Burst doesn't have enough arguments to be defined"
      [LVal (VStr "f1")]]).
Proof. reflexivity. Qed.

(** The same for every link injector with fewer than two pattern
    arguments: one error line, then an exception, and nothing else. *)
Lemma link_burst_short_args_always_raises (W : World) self tr :
  (List.length (LinkInjector.fault_pattern_args self) < 2)%nat ->
  exists e,
    LinkInjector._inject_burst_pattern W self tr =
    (Raise e,
     (tr ++ [EvLog Error
               "{self.tag} Burst doesn't have enough arguments to be defined"
               [LVal (VStr (LinkInjector.tag self))]])%list).
Proof.
  intros H. unfold LinkInjector._inject_burst_pattern.
  destruct (Nat.ltb_spec (List.length (LinkInjector.fault_pattern_args self)) 2)
    as [_|Hge]; [|lia].
  destruct (LinkInjector.fault_pattern_args self) as [|v [|v' rest]];
    simpl in H; try lia.
  - eexists. reflexivity.
  - unfold bind, log, emit, lift. simpl.
    destruct (py_float W v) as [f|e]; simpl.
    + destruct (truediv (Float f) (Int 1000)); eexists; reflexivity.
    + eexists. reflexivity.
Qed.

(** ** More than one placeholder in a custom degradation (C8) *)

(** C8 at a failing input: with two placeholders the usage error is logged,
    and then the first [format] of the start command raises an
    [IndexError]; no command is run and the post-injection wait never
    happens. *)
Theorem node_two_placeholders_raises :
  let run := NodeInjector.do_injection quiet sample_node_two_places [] in
  fst run = Raise IndexError /\
  errors (snd run) =
  ["{self.tag} contains more than one place to insert arguments, but currently only supports one!"]
  /\ shell_commands (snd run) = []
  /\ sleeps (snd run) = [Int 0].
Proof. repeat split. Qed.

(** ** Persistent custom faults without commands (C10) *)

(** C10: in [_inject_persistent] the test for fewer than one argument comes
    after the test for fewer than two, so its branch is never taken: the
    choice of commands never logs anything.  With an empty [fault_args] a
    custom persistent fault therefore raises an [IndexError] at
    [fault_args[0]], having logged no error and run no command. *)
Theorem node_persistent_no_args_raises :
  (forall self tr, snd (NodeInjector.persistent_commands self tr) = tr) /\
  (forall (W : World) self tr,
     NodeInjector.fault_type self = "custom" ->
     NodeInjector.fault_args self = [] ->
     NodeInjector._inject_persistent W self tr =
     (Raise IndexError,
      (tr ++ [EvLog Info "Fault %s commencing persistent"
                [LVal (VStr (NodeInjector.tag self))]])%list)).
Proof.
  split.
  - intros self tr. unfold NodeInjector.persistent_commands.
    destruct (NodeInjector.fault_args self) as [|a [|b rest]]; reflexivity.
  - intros W self tr Ht Ha.
    unfold NodeInjector._inject_persistent, NodeInjector.persistent_commands.
    rewrite Ht, Ha. reflexivity.
Qed.

Lemma node_persistent_no_args_raises_witness :
  NodeInjector._inject_persistent quiet sample_node_no_args [] =
  (Raise IndexError,
   [EvLog Info "Fault %s commencing persistent" [LVal (VStr "n1")]]).
Proof.
  apply (proj2 node_persistent_no_args_raises quiet sample_node_no_args []);
    reflexivity.
Defined.

(** ** The threshold of a random redirect (C3) *)

Section RandomRedirect.
Import LinkInjector.




(** The filtered half of C3 at the scenario of the specification: a random
    redirect of 25 percent of the TCP traffic gets the leaf
    [netem redirect 25%] and no [basic match] filter. *)
Lemma filtered_random_redirect_has_no_threshold :
  fst (make_filtered_nics_injection_commands quiet (Some 100) "random"
         [VInt 25] "redirect" ["eth1"] "eth0" "TCP" None None true [])
  = Ok ["nsenter --target 100 --net tc qdisc add dev eth0 handle ffff: ingress ";
        "nsenter --target 100 --net tc filter add dev eth0 parent 1:0 protocol ip prio 1 u32 match ip protocol 6 0xff flowid 1:1";
        "nsenter --target 100 --net tc qdisc add dev eth0 parent 1:1 handle 2: netem redirect 25%"]
  /\
  forallb (fun cmd => negb (PyStr.contains "basic match" cmd))
    ["nsenter --target 100 --net tc qdisc add dev eth0 handle ffff: ingress ";
     "nsenter --target 100 --net tc filter add dev eth0 parent 1:0 protocol ip prio 1 u32 match ip protocol 6 0xff flowid 1:1";
     "nsenter --target 100 --net tc qdisc add dev eth0 parent 1:1 handle 2: netem redirect 25%"]
  = true.
Proof. split; reflexivity. Qed.


End RandomRedirect.

(** ** Filtered faults without ports (C9) *)

Section NoPorts.
Import LinkInjector.

Lemma wp_fst_ok {A : Type} (m : M A) Q E tr a :
  wp m Q E tr -> fst (m tr) = Ok a -> exists tr', Q a tr'.
Proof.
  unfold wp. destruct (m tr) as [[x|e] tr']; simpl; intros H Hr;
    [|discriminate].
  inversion Hr; subst. exists tr'. exact H.
Qed.

Lemma prefix_split (p s : string) :
  String.prefix p s = true -> exists rest, s = p ++ rest.
Proof.
  revert s. induction p as [|c p IH]; intros s H.
  - exists s. reflexivity.
  - destruct s as [|x s]; simpl in H; [discriminate|].
    destruct (ascii_dec c x) as [->|]; [|discriminate].
    destruct (IH s H) as [rest ->]. exists rest. reflexivity.
Qed.

Lemma base_command_no_p (pid : option Z) :
  has_char "p" (base_command pid) = false.
Proof.
  destruct pid as [z|]; [|reflexivity].
  unfold base_command. rewrite !has_char_app, has_char_of_Z;
    try reflexivity; discriminate.
Qed.

(** Rewriting the parent of a command leaves what stands before its first
    [p] alone. *)
Lemma replace_parent_keeps (pid : option Z) (word rest new : string) :
  has_char "p" word = false ->
  PyStr.replace "parent 1:0" new ((base_command pid ++ word) ++ rest)
  = (base_command pid ++ word) ++ PyStr.replace "parent 1:0" new rest.
Proof.
  intros Hw. unfold PyStr.replace.
  apply replace_from_skips.
  rewrite has_char_app, base_command_no_p, Hw. reflexivity.
Qed.

Lemma is_classifier_qdisc pid rest :
  is_classifier pid (base_command pid ++ "tc qdisc add dev " ++ rest) = false.
Proof. unfold is_classifier. rewrite prefix_app_cancel. reflexivity. Qed.

Lemma is_classifier_filter pid rest :
  is_classifier pid (base_command pid ++ "tc filter add dev " ++ rest) = true.
Proof.
  unfold is_classifier. rewrite <- append_assoc. apply prefix_app.
Qed.

(** The rewriting of a persistent redirect keeps a [tc qdisc] command a
    [tc qdisc] command and a classifier a classifier. *)
Lemma is_classifier_qdisc_rewritten pid rest new tail :
  is_classifier pid
    (PyStr.replace "parent 1:0" new
       (base_command pid ++ "tc qdisc add dev " ++ rest) ++ tail) = false.
Proof.
  rewrite <- (append_assoc (base_command pid)).
  rewrite replace_parent_keeps by reflexivity.
  rewrite !append_assoc. apply is_classifier_qdisc.
Qed.

Lemma is_classifier_filter_rewritten pid rest new tail :
  is_classifier pid
    (PyStr.replace "parent 1:0" new
       (base_command pid ++ "tc filter add dev " ++ rest) ++ tail) = true.
Proof.
  rewrite <- (append_assoc (base_command pid)).
  rewrite replace_parent_keeps by reflexivity.
  rewrite !append_assoc. apply is_classifier_filter.
Qed.

Lemma contains_match_classifier pid device number :
  PyStr.contains "match" (bare_classifier pid device number) = true.
Proof.
  unfold bare_classifier.
  apply contains_app_l, contains_app_r. reflexivity.
Qed.

(** *** The classifiers of an add list *)

Lemma tc_add_classifier pid b cmd :
  tc_add pid b cmd -> is_classifier pid cmd = b.
Proof.
  intros [rest|rest]; [apply is_classifier_qdisc | apply is_classifier_filter].
Qed.

Lemma tc_add_rewritten pid b cmd new tail :
  tc_add pid b cmd ->
  is_classifier pid (PyStr.replace "parent 1:0" new cmd ++ tail) = b.
Proof.
  intros [rest|rest];
    [apply is_classifier_qdisc_rewritten | apply is_classifier_filter_rewritten].
Qed.

(** Concatenations re-associated to the right, literals folded in. *)
Ltac flat :=
  repeat first [rewrite append_assoc | progress cbn [append]].

Lemma bare_classifier_explicit pid device number :
  bare_classifier pid device number
  = protocol_classifier "1:0" pid device number.
Proof. unfold bare_classifier, protocol_classifier. flat. reflexivity. Qed.

Lemma port_filters_explicit pid device number direction ports :
  port_filters
    ((base_command pid ++ "tc filter add dev " ++ device
      ++ " parent 1:0 protocol ip prio 1 u32 ")
     ++ "match ip protocol " ++ number ++ " 0xff") direction ports
  = map (port_classifier "1:0" pid device number direction) (ports_of ports).
Proof.
  unfold port_filters, ports_of. destruct ports as [[|x l]|]; try reflexivity.
  apply map_ext. intros port. unfold port_classifier. flat. reflexivity.
Qed.

Lemma port_classifier_shape parent pid device number direction port :
  tc_add pid true (port_classifier parent pid device number direction port)
  /\ PyStr.contains "match"
       (port_classifier parent pid device number direction port) = true.
Proof.
  unfold port_classifier. split; [constructor|].
  do 5 apply contains_app_r. apply contains_app_l. reflexivity.
Qed.

Lemma protocol_classifier_shape parent pid device number :
  tc_add pid true (protocol_classifier parent pid device number)
  /\ PyStr.contains "match" (protocol_classifier parent pid device number)
     = true.
Proof.
  unfold protocol_classifier. split; [constructor|].
  do 5 apply contains_app_r. apply contains_app_l. reflexivity.
Qed.

Lemma expected_classifiers_shape parent pid device number dst src :
  Forall (fun cmd => tc_add pid true cmd
                     /\ PyStr.contains "match" cmd = true)
    (expected_classifiers parent pid device number dst src).
Proof.
  unfold expected_classifiers. repeat (apply Forall_app; split).
  - apply Forall_forall. intros cmd Hin.
    apply in_map_iff in Hin as (y & <- & _). apply port_classifier_shape.
  - apply Forall_forall. intros cmd Hin.
    apply in_map_iff in Hin as (y & <- & _). apply port_classifier_shape.
  - destruct dst, src; repeat constructor; apply protocol_classifier_shape.
Qed.

Lemma filter_classifiers_all pid (l : list string) :
  Forall (fun cmd => tc_add pid true cmd
                     /\ PyStr.contains "match" cmd = true) l ->
  filter (is_classifier pid) l = l.
Proof.
  induction 1 as [|cmd l [Hc _] _ IH]; [reflexivity|].
  cbn [filter]. rewrite (tc_add_classifier _ _ _ Hc), IH. reflexivity.
Qed.

(** The rewriting of a persistent redirect changes every classifier and
    leaves the other commands what they are, commands that are no
    classifiers. *)
Lemma rewritten_filter pid (action : string) (l : list string) :
  Forall (fun cmd => exists b, tc_add pid b cmd /\
                               (b = true -> PyStr.contains "match" cmd = true))
    l ->
  filter (is_classifier pid)
    (map (fun cmd =>
            if PyStr.contains "match" cmd
            then PyStr.replace "parent 1:0" "parent ffff:" cmd ++ action
            else cmd) l)
  = map (fun cmd => PyStr.replace "parent 1:0" "parent ffff:" cmd ++ action)
      (filter (is_classifier pid) l).
Proof.
  induction 1 as [|cmd l (b & Hc & Hm) _ IH]; [reflexivity|].
  cbn [map filter]. rewrite (tc_add_classifier _ _ _ Hc).
  destruct b.
  - rewrite (Hm eq_refl), (tc_add_rewritten _ _ _ _ _ Hc), IH. reflexivity.
  - assert (Hsame :
      is_classifier pid
        (if PyStr.contains "match" cmd
         then PyStr.replace "parent 1:0" "parent ffff:" cmd ++ action
         else cmd) = false).
    { destruct (PyStr.contains "match" cmd);
        [apply (tc_add_rewritten _ _ _ _ _ Hc)
        | apply (tc_add_classifier _ _ _ Hc)]. }
    rewrite Hsame. exact IH.
Qed.

(** The classifiers of every add list that is synthesized: those written
    out in [expected_classifiers], as they are, or, in the persistent
    redirect branch, each with its parent rewritten and the mirred action
    appended. *)
Lemma filtered_classifiers_wp (W : World) pid fp pargs ft fargs device proto
  dst src tr :
  wp (make_filtered_nics_injection_commands W pid fp pargs ft fargs device
        proto dst src true)
     (fun l _ =>
        exists number,
          lookup proto target_protocol_table = Ok number /\
          (redirect_rewrite fp ft = false ->
           filter (is_classifier pid) l
           = expected_classifiers "1:0" pid device number dst src) /\
          (redirect_rewrite fp ft = true ->
           exists dest,
             index fargs 0 = Ok dest /\
             filter (is_classifier pid) l
             = map (fun cmd =>
                      PyStr.replace "parent 1:0" "parent ffff:" cmd
                      ++ mirred_action fargs dest)
                 (expected_classifiers "1:0" pid device number dst src)))
     (fun _ => True) tr.
Proof.
  unfold make_filtered_nics_injection_commands.
  wp_step W. wp_step W. cbv iota. wp_step W. wp_step W; [|exact I].
  match goal with
  | |- context [ret (?l ++ [_])%list] => set (cmd_list := l)
  end.
  assert (Hroot :
    forall rest,
      filter (is_classifier pid)
        (List.app
           (if PyStr.contains "redirect" ft
            then [base_command pid ++ "tc qdisc add dev " ++ device
                  ++ " handle ffff: ingress "]
            else [base_command pid ++ "tc qdisc add dev " ++ device
                  ++ " root handle 1: prio"]) rest)
      = filter (is_classifier pid) rest).
  { intros rest. destruct (PyStr.contains "redirect" ft);
      cbn [filter app]; rewrite is_classifier_qdisc; reflexivity. }
  assert (Hlist :
    cmd_list
    = List.app
        (if PyStr.contains "redirect" ft
         then [base_command pid ++ "tc qdisc add dev " ++ device
               ++ " handle ffff: ingress "]
         else [base_command pid ++ "tc qdisc add dev " ++ device
               ++ " root handle 1: prio"])
        (expected_classifiers "1:0" pid device a dst src)).
  { subst cmd_list. unfold expected_classifiers.
    rewrite !port_filters_explicit. f_equal. f_equal. f_equal.
    fold (bare_classifier pid device a).
    rewrite bare_classifier_explicit. reflexivity. }
  assert (Hfilter :
    filter (is_classifier pid) cmd_list
    = expected_classifiers "1:0" pid device a dst src).
  { rewrite Hlist, Hroot. apply filter_classifiers_all.
    apply expected_classifiers_shape. }
  assert (Hshape :
    Forall (fun cmd => exists b, tc_add pid b cmd /\
                                 (b = true ->
                                  PyStr.contains "match" cmd = true))
      cmd_list).
  { rewrite Hlist. apply Forall_app. split.
    - destruct (PyStr.contains "redirect" ft); repeat constructor;
        exists false; (split; [constructor | discriminate]).
    - eapply Forall_impl; [|apply expected_classifiers_shape].
      intros cmd [Hc Hm]. exists true. split; [exact Hc | intros _; exact Hm]. }
  assert (Hleaf : forall rest,
    filter (is_classifier pid)
      (List.app cmd_list
         [(base_command pid ++ "tc qdisc add dev " ++ device
           ++ " parent 1:1 handle 2: ") ++ rest])
    = expected_classifiers "1:0" pid device a dst src).
  { intros rest. rewrite filter_app, Hfilter. cbn [filter].
    rewrite !append_assoc, is_classifier_qdisc. apply app_nil_r. }
  clearbody cmd_list.
  repeat wp_step W; try exact I; exists a; (split; [assumption|]);
    (split; intros Hr; unfold redirect_rewrite in Hr;
     repeat match goal with
            | H : PyStr.contains ?n ?x = _ |- _ =>
                rewrite H in Hr; clear H
            end;
     cbn [negb andb] in Hr; try discriminate).
  all: try apply Hleaf.
  all: try exact Hfilter.
  eexists. split; [eassumption|].
  unfold mirred_action. rewrite <- Hfilter. apply rewritten_filter, Hshape.
Qed.

(** The tail of a classifier behind the device name, with its parent
    rewritten. *)
Lemma tail_rewritten (number direction ps : string) :
  In number (map snd target_protocol_table) ->
  direction = "dport" \/ direction = "sport" ->
  has_char "p" ps = false ->
  PyStr.replace_from "parent 1:0" "parent ffff:"
    (" parent 1:0 protocol ip prio 1 u32 match ip protocol " ++ number
     ++ " 0xff flowid 1:1") 0
  = " parent ffff: protocol ip prio 1 u32 match ip protocol " ++ number
    ++ " 0xff flowid 1:1"
  /\
  PyStr.replace_from "parent 1:0" "parent ffff:"
    (" parent 1:0 protocol ip prio 1 u32 match ip protocol " ++ number
     ++ " 0xff match ip " ++ direction ++ " " ++ ps ++ " 0xffff flowid 1:1") 0
  = " parent ffff: protocol ip prio 1 u32 match ip protocol " ++ number
    ++ " 0xff match ip " ++ direction ++ " " ++ ps ++ " 0xffff flowid 1:1".
Proof.
  intros Hn Hd Hp. split.
  - simpl in Hn.
    repeat (destruct Hn as [<-|Hn]; [vm_compute; reflexivity|]).
    contradiction.
  - assert (Hps :
      PyStr.replace_from "parent 1:0" "parent ffff:"
        (ps ++ " 0xffff flowid 1:1") 0 = ps ++ " 0xffff flowid 1:1").
    { rewrite replace_from_skips by exact Hp. reflexivity. }
    simpl in Hn.
    repeat (destruct Hn as [<-|Hn];
            [destruct Hd as [-> | ->]; simpl; rewrite Hps; reflexivity|]).
    contradiction.
Qed.

Lemma lookup_in (k v : string) (d : list (string * string)) :
  lookup k d = Ok v -> In v (map snd d).
Proof.
  induction d as [|[k' v'] d IH]; simpl; [discriminate|].
  destruct (String.eqb k k'); intros H.
  - inversion H. left. reflexivity.
  - right. apply IH, H.
Qed.

(** For a device name without the letter [p] the rewriting is plain: the
    classifiers of the persistent redirect branch are those of
    [expected_classifiers] under the parent [ffff:]. *)
Lemma expected_classifiers_rewritten pid device proto number dst src :
  lookup proto target_protocol_table = Ok number ->
  has_char "p" device = false ->
  map (PyStr.replace "parent 1:0" "parent ffff:")
    (expected_classifiers "1:0" pid device number dst src)
  = expected_classifiers "ffff:" pid device number dst src.
Proof.
  intros Hl Hd. apply lookup_in in Hl.
  assert (Hhead :
    has_char "p" (base_command pid ++ "tc filter add dev " ++ device) = false).
  { rewrite !has_char_app, base_command_no_p, Hd. reflexivity. }
  assert (Hport : forall direction port,
    direction = "dport" \/ direction = "sport" ->
    PyStr.replace "parent 1:0" "parent ffff:"
      (port_classifier "1:0" pid device number direction port)
    = port_classifier "ffff:" pid device number direction port).
  { intros direction port Hdir. unfold port_classifier, PyStr.replace.
    cbn beta iota.
    rewrite <- (append_assoc "tc filter add dev " device),
      <- (append_assoc (base_command pid)).
    rewrite replace_from_skips by exact Hhead.
    destruct (tail_rewritten number direction (PyStr.of_Z port) Hl Hdir)
      as [_ Ht]; [apply has_char_of_Z; [reflexivity | discriminate]|].
    cbn [append] in Ht |- *. rewrite Ht.
    rewrite !append_assoc. reflexivity. }
  assert (Hproto :
    PyStr.replace "parent 1:0" "parent ffff:"
      (protocol_classifier "1:0" pid device number)
    = protocol_classifier "ffff:" pid device number).
  { unfold protocol_classifier, PyStr.replace. cbn beta iota.
    rewrite <- (append_assoc "tc filter add dev " device),
      <- (append_assoc (base_command pid)).
    rewrite replace_from_skips by exact Hhead.
    destruct (tail_rewritten number "dport" "" Hl (or_introl eq_refl) eq_refl)
      as [Ht _].
    cbn [append] in Ht |- *. rewrite Ht.
    rewrite !append_assoc. reflexivity. }
  unfold expected_classifiers. rewrite !map_app, !map_map.
  f_equal; [|f_equal].
  - apply map_ext. intros port. apply Hport. left. reflexivity.
  - apply map_ext. intros port. apply Hport. right. reflexivity.
  - destruct dst, src; try reflexivity. cbn [map]. rewrite Hproto.
    reflexivity.
Qed.

(** C9, as the code has it: when both port lists are absent ([None]), an
    add list that is synthesized holds exactly one [tc filter add]
    classifier.  Outside the persistent redirect branch it is the
    classifier written out in [protocol_classifier]: it matches the
    protocol number and has no port clause.  In the persistent redirect
    branch it is that classifier with [parent 1:0] rewritten and the
    action [ action mirred egress {mode} dev {fault_args[0]}] appended;
    for a device name without the letter [p] that is the same classifier
    under the parent [ffff:], again without a port clause. *)
Theorem filtered_without_ports_one_classifier (W : World) (pid : option Z)
  (fault_pattern fault_type device target_protocol : string)
  (fault_pattern_args : list value) (fault_args cmds : list string)
  (tr : trace) :
  fst (make_filtered_nics_injection_commands W pid fault_pattern
         fault_pattern_args fault_type fault_args device target_protocol
         None None true tr) = Ok cmds ->
  exists number,
    lookup target_protocol target_protocol_table = Ok number /\
    (redirect_rewrite fault_pattern fault_type = false ->
     filter (is_classifier pid) cmds
     = [base_command pid ++ "tc filter add dev " ++ device
        ++ " parent 1:0 protocol ip prio 1 u32 match ip protocol "
        ++ number ++ " 0xff flowid 1:1"]) /\
    (redirect_rewrite fault_pattern fault_type = true ->
     exists destination_interface,
       index fault_args 0 = Ok destination_interface /\
       filter (is_classifier pid) cmds
       = [PyStr.replace "parent 1:0" "parent ffff:"
            (base_command pid ++ "tc filter add dev " ++ device
             ++ " parent 1:0 protocol ip prio 1 u32 match ip protocol "
             ++ number ++ " 0xff flowid 1:1")
          ++ " action mirred egress " ++ redirect_or_mirror fault_args
          ++ " dev " ++ destination_interface] /\
       (has_char "p" device = false ->
        filter (is_classifier pid) cmds
        = [(base_command pid ++ "tc filter add dev " ++ device
            ++ " parent ffff: protocol ip prio 1 u32 match ip protocol "
            ++ number ++ " 0xff flowid 1:1")
           ++ " action mirred egress " ++ redirect_or_mirror fault_args
           ++ " dev " ++ destination_interface])).
Proof.
  intros Hrun.
  destruct (wp_fst_ok _ _ _ _ _
              (filtered_classifiers_wp W pid fault_pattern fault_pattern_args
                 fault_type fault_args device target_protocol None None tr)
              Hrun) as [_ (number & Hl & Hplain & Hred)].
  exists number. split; [exact Hl|]. split.
  - intros Hr. rewrite (Hplain Hr). reflexivity.
  - intros Hr. destruct (Hred Hr) as (dest & Hdest & Hcmds).
    exists dest. split; [exact Hdest|]. split.
    + rewrite Hcmds. reflexivity.
    + intros Hp. rewrite Hcmds.
      rewrite <- (map_map (PyStr.replace "parent 1:0" "parent ffff:")
                    (fun cmd => cmd ++ mirred_action fault_args dest)).
      rewrite (expected_classifiers_rewritten pid device target_protocol
                 number None None Hl Hp).
      reflexivity.
Qed.

Lemma filtered_without_ports_one_classifier_witness :
  exists number,
    lookup "TCP" target_protocol_table = Ok number /\
    (redirect_rewrite "random" "loss" = false ->
     filter (is_classifier (Some 100))
       ["nsenter --target 100 --net tc qdisc add dev eth0 root handle 1: prio";
        "nsenter --target 100 --net tc filter add dev eth0 parent 1:0 protocol ip prio 1 u32 match ip protocol 6 0xff flowid 1:1";
        "nsenter --target 100 --net tc qdisc add dev eth0 parent 1:1 handle 2: netem loss 10%"]
     = [base_command (Some 100) ++ "tc filter add dev " ++ "eth0"
        ++ " parent 1:0 protocol ip prio 1 u32 match ip protocol "
        ++ number ++ " 0xff flowid 1:1"]) /\
    (redirect_rewrite "random" "loss" = true ->
     exists destination_interface,
       index [] 0 = Ok destination_interface /\
       filter (is_classifier (Some 100))
         ["nsenter --target 100 --net tc qdisc add dev eth0 root handle 1: prio";
          "nsenter --target 100 --net tc filter add dev eth0 parent 1:0 protocol ip prio 1 u32 match ip protocol 6 0xff flowid 1:1";
          "nsenter --target 100 --net tc qdisc add dev eth0 parent 1:1 handle 2: netem loss 10%"]
       = [PyStr.replace "parent 1:0" "parent ffff:"
            (base_command (Some 100) ++ "tc filter add dev " ++ "eth0"
             ++ " parent 1:0 protocol ip prio 1 u32 match ip protocol "
             ++ number ++ " 0xff flowid 1:1")
          ++ " action mirred egress " ++ redirect_or_mirror []
          ++ " dev " ++ destination_interface] /\
       (has_char "p" "eth0" = false ->
        filter (is_classifier (Some 100))
          ["nsenter --target 100 --net tc qdisc add dev eth0 root handle 1: prio";
           "nsenter --target 100 --net tc filter add dev eth0 parent 1:0 protocol ip prio 1 u32 match ip protocol 6 0xff flowid 1:1";
           "nsenter --target 100 --net tc qdisc add dev eth0 parent 1:1 handle 2: netem loss 10%"]
        = [(base_command (Some 100) ++ "tc filter add dev " ++ "eth0"
            ++ " parent ffff: protocol ip prio 1 u32 match ip protocol "
            ++ number ++ " 0xff flowid 1:1")
           ++ " action mirred egress " ++ redirect_or_mirror []
           ++ " dev " ++ destination_interface])).
Proof.
  apply (filtered_without_ports_one_classifier quiet (Some 100) "random" "loss"
           "eth0" "TCP" [VInt 10] [] _ []).
  reflexivity.
Defined.

(** C9 as stated fails for port lists that are present and empty: the add
    list then has the root qdisc and the leaf but no classifier at all. *)
Lemma filtered_empty_ports_counterexample :
  fst (make_filtered_nics_injection_commands quiet (Some 100) "random"
         [VInt 10] "loss" [] "eth0" "TCP" (Some []) (Some []) true [])
  = Ok ["nsenter --target 100 --net tc qdisc add dev eth0 root handle 1: prio";
        "nsenter --target 100 --net tc qdisc add dev eth0 parent 1:1 handle 2: netem loss 10%"]
  /\
  filter (is_classifier (Some 100))
    ["nsenter --target 100 --net tc qdisc add dev eth0 root handle 1: prio";
     "nsenter --target 100 --net tc qdisc add dev eth0 parent 1:1 handle 2: netem loss 10%"]
  = [].
Proof. split; reflexivity. Qed.

End NoPorts.

(** ** The namespace prefix of link commands (C2) *)

Section LinkPrefix.
Import LinkInjector.
Variable W : World.
Variable pid : Z.

Lemma prefix_rewritten (cmd tail : string) :
  has_net_prefix pid cmd ->
  has_net_prefix pid
    (PyStr.replace "parent 1:0" "parent ffff:" cmd ++ tail).
Proof.
  unfold has_net_prefix. intros H. destruct (prefix_split _ _ H) as [rest ->].
  rewrite <- (append_nil_r (base_command (Some pid))) at 2.
  rewrite replace_parent_keeps by reflexivity.
  rewrite append_nil_r. apply prefix_trans_app, prefix_app.
Qed.

Lemma port_filters_prefix (c direction : string) (ports : option (list Z)) :
  has_net_prefix pid c ->
  Forall (has_net_prefix pid) (port_filters c direction ports).
Proof.
  intros Hc. unfold port_filters.
  destruct ports as [[|x l]|]; try constructor.
  - unfold has_net_prefix. apply prefix_trans_app, Hc.
  - apply Forall_forall. intros cmd Hin.
    apply in_map_iff in Hin as (y & <- & _).
    unfold has_net_prefix. apply prefix_trans_app, Hc.
Qed.

Ltac pre :=
  first [ apply prefix_app | apply prefix_trans_app; pre ].

Lemma make_nics_prefix device ft fp pargs fargs tc tr :
  wp (make_nics_injection_command W (Some pid) device ft fp pargs fargs tc)
     (fun r _ => forall cmd, r = Some cmd -> has_net_prefix pid cmd)
     (fun _ => True) tr.
Proof.
  unfold make_nics_injection_command.
  repeat wp_step W; try exact I;
    intros cmd Hc; inversion Hc; subst; unfold has_net_prefix; pre.
Qed.

Lemma make_filtered_prefix fp pargs ft fargs device proto dst src enable tr :
  wp (make_filtered_nics_injection_commands W (Some pid) fp pargs ft fargs
        device proto dst src enable)
     (fun l _ => Forall (has_net_prefix pid) l) (fun _ => True) tr.
Proof.
  unfold make_filtered_nics_injection_commands.
  wp_step W. wp_step W. destruct enable.
  - wp_step W. wp_step W; [|exact I].
    match goal with
    | |- context [ret (?l ++ [_])%list] => set (cmd_list := l)
    end.
    assert (Hlist : Forall (has_net_prefix pid) cmd_list).
    { subst cmd_list.
      repeat (apply Forall_app; split).
      - destruct (PyStr.contains "redirect" ft); repeat constructor;
          unfold has_net_prefix; pre.
      - apply port_filters_prefix. unfold has_net_prefix. pre.
      - apply port_filters_prefix. unfold has_net_prefix. pre.
      - destruct dst, src; repeat constructor. unfold has_net_prefix. pre. }
    repeat wp_step W; try exact I.
    all: try (apply Forall_app; split; [exact Hlist|];
              repeat constructor; unfold has_net_prefix; pre).
    all: try exact Hlist.
    apply Forall_forall. intros cmd Hin.
    apply in_map_iff in Hin as (c & <- & Hc).
    rewrite Forall_forall in Hlist. specialize (Hlist c Hc).
    destruct (PyStr.contains "match" c);
      [apply prefix_rewritten, Hlist | exact Hlist].
  - repeat wp_step W; repeat constructor; unfold has_net_prefix; pre.
Qed.

End LinkPrefix.

Section LinkTool.
Import LinkInjector.
Variable W : World.
Variable node_pid : option Z.

Lemma tool_follows_app (cmd tail : string) :
  tool_follows node_pid cmd -> tool_follows node_pid (cmd ++ tail).
Proof.
  intros [rest [-> | ->]]; exists (rest ++ tail); [left | right];
    rewrite !append_assoc; reflexivity.
Qed.

Lemma tool_follows_rewritten (cmd tail : string) :
  tool_follows node_pid cmd ->
  tool_follows node_pid
    (PyStr.replace "parent 1:0" "parent ffff:" cmd ++ tail).
Proof.
  intros [rest [-> | ->]].
  - rewrite <- (append_assoc (base_command node_pid)).
    rewrite replace_parent_keeps by reflexivity.
    exists (PyStr.replace "parent 1:0" "parent ffff:" rest ++ tail). left.
    rewrite !append_assoc. reflexivity.
  - rewrite <- (append_assoc (base_command node_pid)).
    rewrite replace_parent_keeps by reflexivity.
    exists (PyStr.replace "parent 1:0" "parent ffff:" rest ++ tail). right.
    rewrite !append_assoc. reflexivity.
Qed.

(** A command written out in the source begins with the prefix and the
    tool. *)
Ltac tool :=
  eexists;
  first [ left; repeat first [rewrite append_assoc | progress cbn [append]];
          reflexivity
        | right; repeat first [rewrite append_assoc | progress cbn [append]];
          reflexivity ].

Lemma port_filters_tool (c direction : string) (ports : option (list Z)) :
  tool_follows node_pid c ->
  Forall (tool_follows node_pid) (port_filters c direction ports).
Proof.
  intros Hc. unfold port_filters.
  destruct ports as [[|x l]|]; try constructor.
  - apply tool_follows_app, Hc.
  - apply Forall_forall. intros cmd Hin.
    apply in_map_iff in Hin as (y & <- & _).
    apply tool_follows_app, Hc.
Qed.

Lemma make_nics_tool device ft fp pargs fargs tc tr :
  wp (make_nics_injection_command W node_pid device ft fp pargs fargs tc)
     (fun r _ => forall cmd, r = Some cmd -> tool_follows node_pid cmd)
     (fun _ => True) tr.
Proof.
  unfold make_nics_injection_command.
  repeat wp_step W; try exact I;
    intros cmd Hc; inversion Hc; subst; tool.
Qed.

Lemma make_filtered_tool fp pargs ft fargs device proto dst src enable tr :
  wp (make_filtered_nics_injection_commands W node_pid fp pargs ft fargs
        device proto dst src enable)
     (fun l _ => Forall (tool_follows node_pid) l) (fun _ => True) tr.
Proof.
  unfold make_filtered_nics_injection_commands.
  wp_step W. wp_step W. destruct enable.
  - wp_step W. wp_step W; [|exact I].
    match goal with
    | |- context [ret (?l ++ [_])%list] => set (cmd_list := l)
    end.
    assert (Hlist : Forall (tool_follows node_pid) cmd_list).
    { subst cmd_list.
      repeat (apply Forall_app; split).
      - destruct (PyStr.contains "redirect" ft); repeat constructor; tool.
      - apply port_filters_tool. tool.
      - apply port_filters_tool. tool.
      - destruct dst, src; repeat constructor. tool. }
    repeat wp_step W; try exact I.
    all: try (apply Forall_app; split; [exact Hlist|];
              repeat constructor; tool).
    all: try exact Hlist.
    apply Forall_forall. intros cmd Hin.
    apply in_map_iff in Hin as (c & <- & Hc).
    rewrite Forall_forall in Hlist. specialize (Hlist c Hc).
    destruct (PyStr.contains "match" c);
      [apply tool_follows_rewritten, Hlist | exact Hlist].
  - repeat wp_step W; repeat constructor; tool.
Qed.

End LinkTool.

(** A command in which the tool follows the prefix begins with the prefix
    and has no [--pid] flag behind [--net]. *)
Lemma tool_follows_net_only (pid : Z) (cmd : string) :
  tool_follows (Some pid) cmd -> net_prefix_only pid cmd.
Proof.
  intros H. unfold net_prefix_only. split; [|split; [exact H|]].
  - destruct H as [rest [-> | ->]]; apply prefix_app.
  - assert (Hflag :
      "nsenter --target " ++ PyStr.of_Z pid ++ " --net --pid "
      = LinkInjector.base_command (Some pid) ++ "--pid ").
    { unfold LinkInjector.base_command. rewrite !append_assoc. reflexivity. }
    rewrite Hflag.
    destruct H as [rest [-> | ->]]; rewrite prefix_app_cancel; reflexivity.
Qed.

(** C2, as the code has it: with a namespace pid, every command of the
    unfiltered synthesizer and every command of the filtered synthesizer
    begins with [nsenter --target {pid} --net ] and goes on at once with
    the tool, [tc] or [ifconfig]; so none of them has a [--pid] flag there:
    none begins with [nsenter --target {pid} --net --pid ]. *)
Theorem link_commands_begin_with_net_prefix (W : World) (pid : Z) :
  (forall device fault_type fault_pattern fault_pattern_args fault_args
          tc_cmd tr cmd,
     fst (LinkInjector.make_nics_injection_command W (Some pid) device
            fault_type fault_pattern fault_pattern_args fault_args tc_cmd tr)
     = Ok (Some cmd) ->
     String.prefix ("nsenter --target " ++ PyStr.of_Z pid ++ " --net ") cmd
     = true /\
     tool_follows (Some pid) cmd /\
     String.prefix ("nsenter --target " ++ PyStr.of_Z pid ++ " --net --pid ")
       cmd = false) /\
  (forall fault_pattern fault_pattern_args fault_type fault_args device
          target_protocol target_dst_ports target_src_ports enable tr cmds,
     fst (LinkInjector.make_filtered_nics_injection_commands W (Some pid)
            fault_pattern fault_pattern_args fault_type fault_args device
            target_protocol target_dst_ports target_src_ports enable tr)
     = Ok cmds ->
     Forall (net_prefix_only pid) cmds).
Proof.
  split.
  - intros device ft fp pargs fargs tc tr cmd Hrun.
    destruct (wp_fst_ok _ _ _ _ _
                (make_nics_tool W (Some pid) device ft fp pargs fargs tc tr)
                Hrun) as [_ H].
    apply (tool_follows_net_only pid cmd). apply H. reflexivity.
  - intros fp pargs ft fargs device proto dst src enable tr cmds Hrun.
    destruct (wp_fst_ok _ _ _ _ _
                (make_filtered_tool W (Some pid) fp pargs ft fargs device
                   proto dst src enable tr) Hrun) as [_ H].
    eapply Forall_impl; [|exact H].
    intros cmd. apply tool_follows_net_only.
Qed.

Lemma link_commands_begin_with_net_prefix_witness :
  net_prefix_only 100
    "nsenter --target 100 --net tc qdisc add dev eth0 root netem loss 100%"
  /\
  Forall (net_prefix_only 100)
    ["nsenter --target 100 --net tc qdisc add dev eth0 root handle 1: prio";
     "nsenter --target 100 --net tc filter add dev eth0 parent 1:0 protocol ip prio 1 u32 match ip protocol 6 0xff match ip dport 80 0xffff flowid 1:1";
     "nsenter --target 100 --net tc qdisc add dev eth0 parent 1:1 handle 2: netem loss 10%"].
Proof.
  destruct (link_commands_begin_with_net_prefix quiet 100) as [Hn Hf].
  split.
  - apply (Hn "eth0" "loss" "persistent" None [] "add" []). reflexivity.
  - apply (Hf "random" [VInt 10] "loss" [] "eth0" "TCP" (Some [80]) None true
             []).
    reflexivity.
Defined.

(** C2 as stated fails: the commands of the first scenario of the
    specification do not begin with [nsenter --target 100 --net --pid ],
    neither without nor with a filter. *)
Lemma link_commands_pid_flag_counterexample :
  fst (LinkInjector.make_nics_injection_command quiet (Some 100) "eth0" "loss"
         "persistent" None [] "add" [])
  = Ok (Some
          "nsenter --target 100 --net tc qdisc add dev eth0 root netem loss 100%")
  /\
  String.prefix "nsenter --target 100 --net --pid "
    "nsenter --target 100 --net tc qdisc add dev eth0 root netem loss 100%"
  = false /\
  fst (LinkInjector.make_filtered_nics_injection_commands quiet (Some 100)
         "persistent" [] "loss" [] "eth0" "TCP" None None false [])
  = Ok ["nsenter --target 100 --net tc qdisc del dev eth0 root handle 1: prio"]
  /\
  String.prefix "nsenter --target 100 --net --pid "
    "nsenter --target 100 --net tc qdisc del dev eth0 root handle 1: prio"
  = false.
Proof. repeat split. Qed.

(** ** The ramp of a degradation (C7) *)

Section LinkRamp.
Import LinkInjector.
Variable W : World.

Lemma submitted_app (a b : trace) :
  submitted (a ++ b)%list = (submitted a ++ submitted b)%list.
Proof.
  induction a as [|e a IH]; [reflexivity|].
  destruct e as [lvl text args| | | | |]; simpl; try exact IH.
  destruct lvl; try exact IH.
  destruct (String.eqb text nics_config_text);
    [simpl; rewrite IH; reflexivity|].
  destruct (String.eqb text filter_config_text);
    [simpl; rewrite IH; reflexivity | exact IH].
Qed.

Lemma sorted_snoc (vs : list Z) (c : Z) :
  Sorted Z.le vs -> Forall (fun x => x <= c) vs -> Sorted Z.le (vs ++ [c])%list.
Proof.
  induction vs as [|x vs IH]; intros Hs Hf; simpl.
  - repeat constructor.
  - inversion Hs as [|? ? Hs' Hhd]; subst.
    inversion Hf as [|? ? Hx Hf']; subst.
    constructor; [apply IH; assumption|].
    destruct vs as [|y vs]; simpl; constructor.
    + exact Hx.
    + inversion Hhd; assumption.
Qed.

Lemma ramp_weaken base c c' tr :
  Ramp base c tr -> c <= c' -> Ramp base c' tr.
Proof.
  intros (vs & H1 & H2 & H3) Hle. exists vs. repeat split; auto.
  eapply Forall_impl; [|exact H3]. cbv beta. intros; lia.
Qed.

Lemma ramp_same base c tr tr' :
  Ramp base c tr -> submitted tr' = submitted tr -> Ramp base c tr'.
Proof.
  intros (vs & H1 & H2 & H3) Hs. exists vs. repeat split; auto.
  unfold submitted_intensities in *. rewrite Hs. exact H1.
Qed.

Lemma ramp_push base c tr tr' v :
  Ramp base c tr -> submitted tr' = (submitted tr ++ [LList [v]])%list ->
  py_int v = Ok c -> Ramp base c tr'.
Proof.
  intros (vs & H1 & H2 & H3) Hs Hv. exists (vs ++ [c])%list. repeat split.
  - unfold submitted_intensities in *.
    rewrite Hs, map_app, H1, map_app, <- app_assoc. simpl.
    rewrite Hv. reflexivity.
  - apply sorted_snoc; assumption.
  - apply Forall_app. split; [exact H3|]. repeat constructor. lia.
Qed.

(** Closing a goal that says what a grown trace submitted. *)
Ltac subm :=
  repeat rewrite submitted_app; simpl submitted;
  repeat rewrite app_nil_r;
  first [ eassumption | reflexivity
        | match goal with H : submitted _ = _ |- _ => rewrite H end;
          reflexivity ].

Lemma make_nics_submits pid device ft fp pargs fargs tc tr :
  let K := (submitted tr
            ++ [match pargs with None => LVal VNone | Some l => LList l end])%list
  in
  wp (make_nics_injection_command W pid device ft fp pargs fargs tc)
     (fun _ tr' => submitted tr' = K) (fun tr' => submitted tr' = K) tr.
Proof.
  intros K. subst K. unfold make_nics_injection_command.
  repeat wp_step W; subm.
Qed.

Lemma make_filtered_submits pid fp pargs ft fargs device proto dst src enable
  tr :
  let K := (submitted tr ++ [LList pargs])%list in
  wp (make_filtered_nics_injection_commands W pid fp pargs ft fargs device
        proto dst src enable)
     (fun _ tr' => submitted tr' = K) (fun tr' => submitted tr' = K) tr.
Proof.
  intros K. subst K. unfold make_filtered_nics_injection_commands.
  repeat wp_step W; subm.
Qed.

(** Each call of [inject_nics] hands its pattern arguments to a synthesizer
    exactly once, whether it returns or raises. *)
Lemma toggle_submits self pattern v enable tr :
  let K := (submitted tr ++ [LList [v]])%list in
  wp (toggle W self pattern [v] enable)
     (fun _ tr' => submitted tr' = K) (fun tr' => submitted tr' = K) tr.
Proof.
  intros K. subst K. unfold toggle, inject_nics.
  destruct (PyStr.contains "any" (fault_target_protocol self)).
  - apply wp_bind.
    eapply wp_mono; [apply make_nics_submits | | cbv beta; auto].
    cbv beta zeta. intros cmd tr1 H1. unfold call.
    repeat wp_step W; subm.
  - apply wp_bind.
    eapply wp_mono; [apply make_filtered_submits | | cbv beta; auto].
    cbv beta zeta. intros cmds tr1 H1.
    apply wp_for; [|exact H1].
    intros c tr2 _ H2. repeat wp_step W; subm.
Qed.

Lemma link_degradation_step_ramp self len size bound base v s tr :
  py_int (VStr size) = Ok s -> 0 <= s ->
  link_ramp_inv base bound v tr ->
  wp (degradation_step W self len size bound v)
     (link_ramp_inv base bound) (Ramp base bound) tr.
Proof.
  intros Hs Hs0 (cur & Hv & Hle & Hr). unfold degradation_step.
  apply wp_bind.
  eapply wp_mono; [apply toggle_submits | cbv beta zeta | cbv beta zeta].
  2: { intros tr1 H1. apply ramp_weaken with cur; [|exact Hle].
       eapply ramp_push; eassumption. }
  intros u tr1 H1.
  assert (Hr1 : Ramp base cur tr1) by (eapply ramp_push; eassumption).
  assert (Hr2 : Ramp base cur (tr1 ++ [EvSleep len])%list)
    by (eapply ramp_same; [exact Hr1 | subm]).
  wp_step W. wp_step W;
    [|apply ramp_weaken with cur; [exact Hr2 | exact Hle]].
  apply wp_bind.
  eapply wp_mono; [apply toggle_submits | cbv beta zeta | cbv beta zeta].
  2: { intros tr3 H3. apply ramp_weaken with cur; [|exact Hle].
       eapply ramp_push; eassumption. }
  intros u' tr3 H3.
  assert (Hr3 : Ramp base cur tr3) by (eapply ramp_push; eassumption).
  wp_step W. wp_step W; [|apply ramp_weaken with cur; assumption].
  wp_step W. wp_step W; [|apply ramp_weaken with cur; assumption].
  wp_step W. rewrite py_int_of_Z.
  apply wp_lift; [|discriminate].
  intros c Hc. inversion Hc; subst c.
  assert (a = cur) by congruence.
  assert (a0 = s) by congruence. subst a a0.
  destruct (cur + s >? bound) eqn:Hgt.
  - apply wp_ret. exists bound. split; [apply py_int_of_Z|].
    split; [lia|]. apply ramp_weaken with cur; assumption.
  - apply wp_ret. exists (cur + s). split; [apply py_int_of_Z|].
    split; [rewrite Z.gtb_ltb in Hgt; apply Z.ltb_ge in Hgt; lia|].
    apply ramp_weaken with cur; [assumption | lia].
Qed.


End LinkRamp.

Section NodeRampFacts.
Import NodeInjector.
Variable W : World.

Lemma activations_app (a b : trace) :
  activations (a ++ b)%list = (activations a ++ activations b)%list.
Proof.
  induction a as [|e a IH]; [reflexivity|].
  destruct e; simpl; rewrite IH; reflexivity.
Qed.









End NodeRampFacts.

Section StressRampFacts.
Import NodeInjector.
Variable W : World.









End StressRampFacts.

Section Ramp.

Lemma wp_snd {A : Type} (m : M A) (P : trace -> Prop) tr :
  wp m (fun _ => P) P tr -> P (snd (m tr)).
Proof. unfold wp. destruct (m tr) as [[a|e] tr']; exact (fun H => H). Qed.

(** The CPU stress loop updates its intensity in the same way: the next
    value is the smaller of [v + step] and the end. *)
Lemma stress_step_next (W : World) self cf len step bound v tr :
  wp (NodeInjector.stress_degradation_step W self cf len step bound v)
     (fun v' _ => v' = Z.min (v + step) bound) (fun _ => True) tr.
Proof.
  unfold NodeInjector.stress_degradation_step,
    NodeInjector.execute_command_for_node.
  repeat wp_step W; try exact I; reflexivity.
Qed.



(** The CPU stress fault of the witness runs three rounds, with the
    intensities 20, 30 and 40 in a cgroup of half a CPU. *)
Lemma stress_ramp_sample_commands :
  activations
    (snd (NodeInjector._inject_degradation half_cgroup sample_node_stress_ramp
            []))
  = ["stress-ng -l 10 -t 1 --cpu 1 --cpu-method int64longdouble &";
     "stress-ng -l 15 -t 1 --cpu 1 --cpu-method int64longdouble &";
     "stress-ng -l 20 -t 1 --cpu 1 --cpu-method int64longdouble &"] /\
  map (stress_command_at
         (Some (Float (B64.div (B64.exact 50000) (B64.exact 100000))))
         (Float (B64.div (B64.exact 1000) (B64.exact 1000))))
    [20; 30; 40]
  = map Ok
      ["stress-ng -l 10 -t 1 --cpu 1 --cpu-method int64longdouble &";
       "stress-ng -l 15 -t 1 --cpu 1 --cpu-method int64longdouble &";
       "stress-ng -l 20 -t 1 --cpu 1 --cpu-method int64longdouble &"].
Proof. split; vm_compute; reflexivity. Qed.


End Ramp.

(** * Further properties of the injectors *)

(** ** Commands without a pipe *)

Section PlainCommands.
Variable W : World.

Lemma multi_base_no_pipe pid :
  has_char "|" (MultiInjector.base_command pid) = false.
Proof.
  unfold MultiInjector.base_command.
  rewrite !has_char_app, has_char_of_pid; try reflexivity; discriminate.
Qed.

Lemma node_base_no_pipe pid :
  has_char "|" (NodeInjector.base_command pid) = false.
Proof.
  unfold NodeInjector.base_command.
  rewrite !has_char_app, has_char_of_pid; try reflexivity; discriminate.
Qed.

(** X1: A command without a pipe character is handed to the shell as it is,
    behind the namespace prefix, by the multi executor and by the node
    executor, and it is the only command the call runs. *)
Theorem plain_command_runs_behind_prefix (pid : option Z) (cmd : string)
  (enable : bool) (tr : trace) :
  has_char "|" cmd = false ->
  (forall self,
     shell_commands
       (snd (MultiInjector.execute_command_for_node W self pid cmd enable tr))
     = List.app (shell_commands tr)
         ["nsenter --target " ++ PyStr.of_pid pid ++ " --net --pid " ++ cmd])
  /\
  (forall self,
     shell_commands
       (snd (NodeInjector.execute_command_for_node W self pid (Some cmd)
               enable tr))
     = List.app (shell_commands tr)
         ["nsenter --target " ++ PyStr.of_pid pid
          ++ " --net --pid --cgroup " ++ cmd]).
Proof.
  intros Hcmd.
  assert (Happ : forall a b : trace,
            shell_commands (a ++ b)%list
            = (shell_commands a ++ shell_commands b)%list).
  { intros a b. induction a as [|e a IH]; [reflexivity|].
    destruct e; simpl; rewrite IH; reflexivity. }
  split; intros self.
  - unfold MultiInjector.execute_command_for_node, MultiInjector.full_command.
    rewrite contains_char, has_char_app, multi_base_no_pipe, Hcmd.
    unfold bind, sh, set_fault_active, set_fault_inactive, emit.
    destruct enable; cbn [snd]; rewrite !Happ; simpl shell_commands;
      rewrite app_nil_r; unfold MultiInjector.base_command;
      rewrite !append_assoc; reflexivity.
  - unfold NodeInjector.execute_command_for_node, NodeInjector.full_command.
    rewrite contains_char, has_char_app, node_base_no_pipe, Hcmd.
    unfold bind, sh, observe, log, set_fault_active, set_fault_inactive,
      emit, ret.
    destruct (slow W _); destruct enable; cbn [snd]; rewrite !Happ;
      simpl shell_commands; rewrite ?app_nil_r;
      unfold NodeInjector.base_command; rewrite !append_assoc; reflexivity.
Qed.

End PlainCommands.

Lemma plain_command_runs_behind_prefix_witness :
  shell_commands
    (snd (NodeInjector.execute_command_for_node quiet sample_node (Some 100)
            (Some "clear_rate") false []))
  = ["nsenter --target 100 --net --pid --cgroup clear_rate"].
Proof.
  apply (proj2 (plain_command_runs_behind_prefix quiet (Some 100) "clear_rate"
                  false [] eq_refl) sample_node).
Defined.

(** ** Add and del commands of the unfiltered synthesizer *)

Section AddDel.
Import LinkInjector.
Variable W : World.

(** Rewriting with every equation at hand that speaks about the goal. *)
Ltac rew_all :=
  repeat match goal with
         | H : ?l = _ |- context [?l] => rewrite H
         end.

(** Concatenations re-associated to the right, literals folded in. *)
Ltac str_norm :=
  repeat first [rewrite append_assoc | progress cbn [append]].

Lemma netem_verb_wp pid device ft fp pargs fargs tc1 tr1 :
  PyStr.contains "redirect" ft = false ->
  PyStr.contains "down" ft = false ->
  wp (make_nics_injection_command W pid device ft fp pargs fargs tc1)
     (fun r _ =>
        forall c1, r = Some c1 ->
        exists rest,
          c1 = base_command pid ++ "tc qdisc " ++ tc1 ++ " dev " ++ device
               ++ rest /\
          forall tc2 tr2,
            fst (make_nics_injection_command W pid device ft fp pargs fargs
                   tc2 tr2)
            = Ok (Some (base_command pid ++ "tc qdisc " ++ tc2 ++ " dev "
                        ++ device ++ rest)))
     (fun _ => True) tr1.
Proof.
  intros Hred Hdown. unfold make_nics_injection_command at 1.
  repeat wp_step W; try exact I; try congruence;
    intros c1 Hc; inversion Hc; subst; clear Hc;
    (eexists; split; [str_norm; reflexivity|]);
    intros tc2 tr2;
    unfold make_nics_injection_command, bind, log, emit, lift, ret;
    cbn [fst]; rew_all; cbn [rbind fst]; rew_all;
    str_norm; reflexivity.
Qed.

(** X2: For the faults that use one [tc qdisc] command (every type except
    redirect and down), the command depends on the verb in one place only:
    when a verb yields a command, every other verb yields the same command
    with the verb exchanged.  So the del command is the add command with
    [del] for [add]. *)
Theorem netem_del_is_add_with_verb_exchanged (pid : option Z)
  (device fault_type fault_pattern tc1 c1 : string)
  (fault_pattern_args : option (list value)) (fault_args : list string)
  (tr1 : trace) :
  PyStr.contains "redirect" fault_type = false ->
  PyStr.contains "down" fault_type = false ->
  fst (make_nics_injection_command W pid device fault_type fault_pattern
         fault_pattern_args fault_args tc1 tr1) = Ok (Some c1) ->
  exists rest,
    c1 = base_command pid ++ "tc qdisc " ++ tc1 ++ " dev " ++ device ++ rest /\
    forall tc2 tr2,
      fst (make_nics_injection_command W pid device fault_type fault_pattern
             fault_pattern_args fault_args tc2 tr2)
      = Ok (Some (base_command pid ++ "tc qdisc " ++ tc2 ++ " dev " ++ device
                  ++ rest)).
Proof.
  intros Hred Hdown Hrun.
  destruct (wp_fst_ok _ _ _ _ _
              (netem_verb_wp pid device fault_type fault_pattern
                 fault_pattern_args fault_args tc1 tr1 Hred Hdown) Hrun)
    as [_ H].
  apply H. reflexivity.
Qed.

End AddDel.

Lemma netem_del_is_add_with_verb_exchanged_witness :
  exists rest,
    "nsenter --target 100 --net tc qdisc add dev eth0 root netem loss 100%"
    = LinkInjector.base_command (Some 100) ++ "tc qdisc " ++ "add" ++ " dev "
      ++ "eth0" ++ rest /\
    forall tc2 tr2,
      fst (LinkInjector.make_nics_injection_command quiet (Some 100) "eth0"
             "loss" "persistent" None [] tc2 tr2)
      = Ok (Some (LinkInjector.base_command (Some 100) ++ "tc qdisc " ++ tc2
                  ++ " dev " ++ "eth0" ++ rest)).
Proof.
  apply (netem_del_is_add_with_verb_exchanged quiet (Some 100) "eth0" "loss"
           "persistent" "add" _ None [] []); reflexivity.
Defined.

(** ** What a trace holds, piece by piece *)

Section TraceFacts.

Lemma shell_commands_app (a b : trace) :
  shell_commands (a ++ b)%list = (shell_commands a ++ shell_commands b)%list.
Proof.
  induction a as [|e a IH]; [reflexivity|].
  destruct e; simpl; rewrite IH; reflexivity.
Qed.

Lemma sleeps_app (a b : trace) :
  sleeps (a ++ b)%list = (sleeps a ++ sleeps b)%list.
Proof.
  induction a as [|e a IH]; [reflexivity|].
  destruct e; simpl; rewrite IH; reflexivity.
Qed.

Lemma errors_app (a b : trace) :
  errors (a ++ b)%list = (errors a ++ errors b)%list.
Proof.
  induction a as [|e a IH]; [reflexivity|].
  destruct e as [[] | | | | |]; simpl; rewrite IH; reflexivity.
Qed.

End TraceFacts.

(** Splitting the observations of a trace that grew by known events. *)
Ltac obs :=
  rewrite ?shell_commands_app, ?sleeps_app, ?errors_app, ?fault_log_app,
    ?activations_app;
  cbn [shell_commands sleeps errors fault_log activations];
  rewrite ?app_nil_r, <- ?app_assoc;
  cbn [List.app].

(** ** Filtered faults: removal, and protocols outside the table *)

Section FilteredToggle.
Import LinkInjector.
Variable W : World.

Lemma lookup_missing (k : string) (d : list (string * string)) :
  existsb (String.eqb k) (map fst d) = false -> lookup k d = Raise KeyError.
Proof.
  induction d as [|[k' v] d IH]; intros H; [reflexivity|].
  simpl in *. destruct (String.eqb k k'); [discriminate|].
  apply IH. exact H.
Qed.

(** X3: Removing a filtered fault never fails and is one command: whatever the
    pattern, its arguments, the protocol and the ports are, the injector
    deletes the ingress qdisc of the interface for a redirect fault and the
    root prio qdisc otherwise, and marks the fault inactive once.  The
    protocol table is not consulted. *)
Theorem filtered_removal_is_one_command (self : t) (pattern : string)
  (pattern_args : list value) (tr : trace) :
  PyStr.contains "any" (fault_target_protocol self) = false ->
  let run := toggle W self pattern pattern_args false tr in
  fst run = Ok tt /\
  shell_commands (snd run)
  = List.app (shell_commands tr)
      [base_command (namespace_pid self) ++ "tc qdisc del dev "
       ++ target_interface self
       ++ (if PyStr.contains "redirect" (fault_type self)
           then " ingress " else " root handle 1: prio")] /\
  fault_log (snd run) = List.app (fault_log tr) [(false, tag self)] /\
  errors (snd run) = errors tr.
Proof.
  intros Hany. unfold toggle, inject_nics. rewrite Hany.
  unfold make_filtered_nics_injection_commands, bind, log, emit, ret, sh,
    set_fault_inactive.
  destruct (PyStr.contains "redirect" (fault_type self));
    cbn [forM bind fst snd]; unfold bind, sh, emit, ret; cbn [fst snd];
    repeat split; obs; reflexivity.
Qed.

(** X4: Installing a filtered fault for a protocol that is not a key of the
    protocol table raises [KeyError] before any command is run and before
    the fault logger is called. *)
Theorem unknown_protocol_raises_before_any_command (self : t)
  (pattern : string) (pattern_args : list value) (tr : trace) :
  PyStr.contains "any" (fault_target_protocol self) = false ->
  known_protocol (fault_target_protocol self) = false ->
  let run := toggle W self pattern pattern_args true tr in
  fst run = Raise KeyError /\
  shell_commands (snd run) = shell_commands tr /\
  fault_log (snd run) = fault_log tr.
Proof.
  intros Hany Hkey. unfold toggle, inject_nics. rewrite Hany.
  unfold make_filtered_nics_injection_commands, bind, log, emit, lift.
  rewrite (lookup_missing _ _ Hkey). cbn [fst snd].
  repeat split; obs; reflexivity.
Qed.

End FilteredToggle.

Lemma filtered_removal_is_one_command_witness :
  let run := LinkInjector.toggle quiet sample_filtered "persistent" [] false []
  in
  fst run = Ok tt /\
  shell_commands (snd run)
  = ["nsenter --target 100 --net tc qdisc del dev eth0 root handle 1: prio"] /\
  fault_log (snd run) = [(false, "f1")] /\
  errors (snd run) = [].
Proof.
  apply (filtered_removal_is_one_command quiet sample_filtered "persistent" []
           [] eq_refl).
Defined.

Lemma unknown_protocol_raises_before_any_command_witness :
  let run := LinkInjector.toggle quiet sample_filtered_sctp "random" [VInt 10]
               true [] in
  fst run = Raise KeyError /\
  shell_commands (snd run) = [] /\
  fault_log (snd run) = [].
Proof.
  apply (unknown_protocol_raises_before_any_command quiet sample_filtered_sctp
           "random" [VInt 10] []); reflexivity.
Defined.

(** ** Filtered faults: one classifier for each port *)

Section ClassifierPerPort.
Import LinkInjector.
Variable W : World.
Variable pid : option Z.

Lemma expected_classifiers_length parent device number dst src :
  List.length (expected_classifiers parent pid device number dst src)
  = (port_count dst + port_count src
     + match dst, src with
       | None, None => 1
       | _, _ => 0
       end)%nat.
Proof.
  unfold expected_classifiers, port_count, ports_of.
  rewrite !length_app, !length_map.
  destruct dst, src; cbn [List.length]; lia.
Qed.

(** X5: The [tc filter add] classifiers of every add list that is
    synthesized are, in this order: for each destination port the
    classifier that matches the protocol number and [dport] that port, for
    each source port the one that matches [sport] that port, and the
    protocol-only classifier when both port lists are absent.  In the
    persistent redirect branch each of them has [parent 1:0] rewritten and
    the mirred action appended; for a device name without the letter [p]
    these are the same classifiers under the parent [ffff:].  So there is
    one classifier for each port, and one more only when both port lists
    are absent. *)
Theorem one_classifier_for_each_port
  (fault_pattern fault_type device target_protocol : string)
  (fault_pattern_args : list value) (fault_args cmds : list string)
  (target_dst_ports target_src_ports : option (list Z)) (tr : trace) :
  fst (make_filtered_nics_injection_commands W pid fault_pattern
         fault_pattern_args fault_type fault_args device target_protocol
         target_dst_ports target_src_ports true tr) = Ok cmds ->
  exists number,
    lookup target_protocol target_protocol_table = Ok number /\
    (redirect_rewrite fault_pattern fault_type = false ->
     filter (is_classifier pid) cmds
     = expected_classifiers "1:0" pid device number target_dst_ports
         target_src_ports) /\
    (redirect_rewrite fault_pattern fault_type = true ->
     exists destination_interface,
       index fault_args 0 = Ok destination_interface /\
       filter (is_classifier pid) cmds
       = map (fun cmd =>
                PyStr.replace "parent 1:0" "parent ffff:" cmd
                ++ mirred_action fault_args destination_interface)
           (expected_classifiers "1:0" pid device number target_dst_ports
              target_src_ports) /\
       (has_char "p" device = false ->
        filter (is_classifier pid) cmds
        = map (fun cmd => cmd ++ mirred_action fault_args destination_interface)
            (expected_classifiers "ffff:" pid device number target_dst_ports
               target_src_ports))) /\
    List.length (filter (is_classifier pid) cmds)
    = (port_count target_dst_ports + port_count target_src_ports
       + match target_dst_ports, target_src_ports with
         | None, None => 1
         | _, _ => 0
         end)%nat.
Proof.
  intros Hrun.
  destruct (wp_fst_ok _ _ _ _ _
              (filtered_classifiers_wp W pid fault_pattern fault_pattern_args
                 fault_type fault_args device target_protocol target_dst_ports
                 target_src_ports tr)
              Hrun) as [_ (number & Hl & Hplain & Hred)].
  exists number. split; [exact Hl|]. split; [exact Hplain|]. split.
  - intros Hr. destruct (Hred Hr) as (dest & Hdest & Hcmds).
    exists dest. split; [exact Hdest|]. split; [exact Hcmds|].
    intros Hp. rewrite Hcmds.
    rewrite <- (map_map (PyStr.replace "parent 1:0" "parent ffff:")
                  (fun cmd => cmd ++ mirred_action fault_args dest)).
    rewrite (expected_classifiers_rewritten pid device target_protocol
               number target_dst_ports target_src_ports Hl Hp).
    reflexivity.
  - destruct (redirect_rewrite fault_pattern fault_type) eqn:Hr.
    + destruct (Hred eq_refl) as (dest & _ & ->).
      rewrite length_map. apply expected_classifiers_length.
    + rewrite (Hplain eq_refl). apply expected_classifiers_length.
Qed.

End ClassifierPerPort.

Lemma one_classifier_for_each_port_witness :
  exists number,
    LinkInjector.lookup "TCP" LinkInjector.target_protocol_table = Ok number /\
    (redirect_rewrite "random" "loss" = false ->
     filter (is_classifier (Some 100))
       ["nsenter --target 100 --net tc qdisc add dev eth0 root handle 1: prio";
        "nsenter --target 100 --net tc filter add dev eth0 parent 1:0 protocol ip prio 1 u32 match ip protocol 6 0xff match ip dport 80 0xffff flowid 1:1";
        "nsenter --target 100 --net tc filter add dev eth0 parent 1:0 protocol ip prio 1 u32 match ip protocol 6 0xff match ip dport 443 0xffff flowid 1:1";
        "nsenter --target 100 --net tc filter add dev eth0 parent 1:0 protocol ip prio 1 u32 match ip protocol 6 0xff match ip sport 22 0xffff flowid 1:1";
        "nsenter --target 100 --net tc qdisc add dev eth0 parent 1:1 handle 2: netem loss 10%"]
     = expected_classifiers "1:0" (Some 100) "eth0" number (Some [80; 443])
         (Some [22])) /\
    (redirect_rewrite "random" "loss" = true ->
     exists destination_interface,
       index [] 0 = Ok destination_interface /\
       filter (is_classifier (Some 100))
         ["nsenter --target 100 --net tc qdisc add dev eth0 root handle 1: prio";
          "nsenter --target 100 --net tc filter add dev eth0 parent 1:0 protocol ip prio 1 u32 match ip protocol 6 0xff match ip dport 80 0xffff flowid 1:1";
          "nsenter --target 100 --net tc filter add dev eth0 parent 1:0 protocol ip prio 1 u32 match ip protocol 6 0xff match ip dport 443 0xffff flowid 1:1";
          "nsenter --target 100 --net tc filter add dev eth0 parent 1:0 protocol ip prio 1 u32 match ip protocol 6 0xff match ip sport 22 0xffff flowid 1:1";
          "nsenter --target 100 --net tc qdisc add dev eth0 parent 1:1 handle 2: netem loss 10%"]
       = map (fun cmd =>
                PyStr.replace "parent 1:0" "parent ffff:" cmd
                ++ mirred_action [] destination_interface)
           (expected_classifiers "1:0" (Some 100) "eth0" number
              (Some [80; 443]) (Some [22])) /\
       (has_char "p" "eth0" = false ->
        filter (is_classifier (Some 100))
          ["nsenter --target 100 --net tc qdisc add dev eth0 root handle 1: prio";
           "nsenter --target 100 --net tc filter add dev eth0 parent 1:0 protocol ip prio 1 u32 match ip protocol 6 0xff match ip dport 80 0xffff flowid 1:1";
           "nsenter --target 100 --net tc filter add dev eth0 parent 1:0 protocol ip prio 1 u32 match ip protocol 6 0xff match ip dport 443 0xffff flowid 1:1";
           "nsenter --target 100 --net tc filter add dev eth0 parent 1:0 protocol ip prio 1 u32 match ip protocol 6 0xff match ip sport 22 0xffff flowid 1:1";
           "nsenter --target 100 --net tc qdisc add dev eth0 parent 1:1 handle 2: netem loss 10%"]
        = map (fun cmd => cmd ++ mirred_action [] destination_interface)
            (expected_classifiers "ffff:" (Some 100) "eth0" number
               (Some [80; 443]) (Some [22])))) /\
    List.length
      (filter (is_classifier (Some 100))
         ["nsenter --target 100 --net tc qdisc add dev eth0 root handle 1: prio";
          "nsenter --target 100 --net tc filter add dev eth0 parent 1:0 protocol ip prio 1 u32 match ip protocol 6 0xff match ip dport 80 0xffff flowid 1:1";
          "nsenter --target 100 --net tc filter add dev eth0 parent 1:0 protocol ip prio 1 u32 match ip protocol 6 0xff match ip dport 443 0xffff flowid 1:1";
          "nsenter --target 100 --net tc filter add dev eth0 parent 1:0 protocol ip prio 1 u32 match ip protocol 6 0xff match ip sport 22 0xffff flowid 1:1";
          "nsenter --target 100 --net tc qdisc add dev eth0 parent 1:1 handle 2: netem loss 10%"])
    = 3%nat.
Proof.
  apply (one_classifier_for_each_port quiet (Some 100) "random" "loss" "eth0"
           "TCP" [VInt 10] [] _ (Some [80; 443]) (Some [22]) []).
  reflexivity.
Defined.

(** The classifiers written out, at the ports of the witness and in the
    persistent redirect branch of a redirect to eth1. *)
Lemma expected_classifiers_sample :
  expected_classifiers "1:0" (Some 100) "eth0" "6" (Some [80; 443]) (Some [22])
  = ["nsenter --target 100 --net tc filter add dev eth0 parent 1:0 protocol ip prio 1 u32 match ip protocol 6 0xff match ip dport 80 0xffff flowid 1:1";
     "nsenter --target 100 --net tc filter add dev eth0 parent 1:0 protocol ip prio 1 u32 match ip protocol 6 0xff match ip dport 443 0xffff flowid 1:1";
     "nsenter --target 100 --net tc filter add dev eth0 parent 1:0 protocol ip prio 1 u32 match ip protocol 6 0xff match ip sport 22 0xffff flowid 1:1"]
  /\
  filter (is_classifier (Some 100))
    match
      fst (LinkInjector.make_filtered_nics_injection_commands quiet (Some 100)
             "persistent" [] "redirect" ["eth1"] "eth0" "TCP" (Some [80])
             (Some [22]) true [])
    with
    | Ok cmds => cmds
    | Raise _ => []
    end
  = ["nsenter --target 100 --net tc filter add dev eth0 parent ffff: protocol ip prio 1 u32 match ip protocol 6 0xff match ip dport 80 0xffff flowid 1:1 action mirred egress redirect dev eth1";
     "nsenter --target 100 --net tc filter add dev eth0 parent ffff: protocol ip prio 1 u32 match ip protocol 6 0xff match ip sport 22 0xffff flowid 1:1 action mirred egress redirect dev eth1"].
Proof. split; vm_compute; reflexivity. Qed.

(** ** Every synthesized command is run *)

Section CommandsRun.
Import LinkInjector.
Variable W : World.

(** Taking a task apart at every test it makes. *)
Ltac split_run :=
  repeat first
    [ progress cbn beta iota
    | match goal with
      | |- context [match ?x with _ => _ end] => destruct x eqn:?
      end ].

(** The filtered synthesizer writes its entry line and nothing else, and
    what it returns does not depend on what happened before. *)
Lemma make_filtered_run pid fp pargs ft fargs device proto dst src enable tr :
  make_filtered_nics_injection_commands W pid fp pargs ft fargs device proto
    dst src enable tr
  = (fst (make_filtered_nics_injection_commands W pid fp pargs ft fargs
            device proto dst src enable []),
     (tr ++ [EvLog Debug filter_config_text
               [LVal (VStr fp); LList pargs; LVal (VStr ft);
                LList (map VStr fargs); LVal (VStr device);
                LVal (VStr proto); ports_arg dst; ports_arg src;
                LBool enable]])%list).
Proof.
  unfold make_filtered_nics_injection_commands, bind, log, emit, lift, ret.
  split_run; reflexivity.
Qed.

Lemma make_nics_run pid device ft fp pargs fargs tc tr :
  exists logged,
    make_nics_injection_command W pid device ft fp pargs fargs tc tr
    = (fst (make_nics_injection_command W pid device ft fp pargs fargs tc []),
       (tr ++ logged)%list) /\
    shell_commands logged = [] /\ fault_log logged = [] /\
    activations logged = [] /\ sleeps logged = [].
Proof.
  unfold make_nics_injection_command, bind, log, emit, lift, ret.
  split_run;
    (eexists; split;
     [ first [reflexivity | rewrite <- app_assoc; reflexivity]
     | repeat split; reflexivity ]).
Qed.

(** Running a list of commands: each is handed to the shell, in order, and
    reported to the fault logger once. *)
Lemma for_commands_run (self : t) (enable : bool) (cmds : list string)
  (tr : trace) :
  let run :=
    forM cmds (fun command =>
      bind (sh W command) (fun retcode =>
        if enable
        then set_fault_active (tag self) (fault_type self) command retcode
        else set_fault_inactive (tag self))) tr in
  fst run = Ok tt /\
  shell_commands (snd run) = List.app (shell_commands tr) cmds /\
  fault_log (snd run)
  = List.app (fault_log tr) (map (fun _ => (enable, tag self)) cmds) /\
  activations (snd run)
  = List.app (activations tr) (if enable then cmds else []).
Proof.
  set (body := fun command : string =>
    bind (sh W command) (fun retcode =>
      if enable
      then set_fault_active (tag self) (fault_type self) command retcode
      else set_fault_inactive (tag self))).
  assert (Hbody : forall c tr0,
    exists rc,
      body c tr0
      = (Ok tt,
         (tr0 ++ [EvShell c rc;
                  if enable
                  then EvActive (tag self) (fault_type self) c rc
                  else EvInactive (tag self)])%list)).
  { intros c tr0. exists (shell W tr0 c). subst body.
    unfold bind, sh, set_fault_active, set_fault_inactive, emit.
    destruct enable; cbn; rewrite <- app_assoc; reflexivity. }
  clearbody body. revert tr. induction cmds as [|c cmds IH]; intros tr.
  - cbn. rewrite !app_nil_r. destruct enable; rewrite ?app_nil_r; auto.
  - cbn [forM]. unfold bind. destruct (Hbody c tr) as [rc ->].
    match goal with
    | |- context [forM cmds body ?tr0] =>
        destruct (IH tr0) as (H1 & H2 & H3 & H4)
    end.
    cbn zeta in H1, H2, H3, H4. cbn zeta.
    rewrite H1, H2, H3, H4.
    rewrite shell_commands_app, fault_log_app, activations_app.
    destruct enable;
      cbn [shell_commands fault_log activations map List.app];
      rewrite <- ?app_assoc; cbn [List.app]; rewrite ?app_nil_r; auto.
Qed.

(** X6: A filtered fault runs exactly the commands that the filtered
    synthesizer returns for it, in their order, and calls the fault logger
    once for each of them: [set_fault_active] with the command when
    installing, [set_fault_inactive] when removing. *)
Theorem filtered_commands_all_run (self : t) (pattern : string)
  (pattern_args : list value) (enable : bool) (cmds : list string)
  (tr : trace) :
  PyStr.contains "any" (fault_target_protocol self) = false ->
  fst (make_filtered_nics_injection_commands W (namespace_pid self) pattern
         pattern_args (fault_type self) (fault_args self)
         (target_interface self) (fault_target_protocol self)
         (fault_target_dst_ports self) (fault_target_src_ports self)
         enable []) = Ok cmds ->
  let run := toggle W self pattern pattern_args enable tr in
  fst run = Ok tt /\
  shell_commands (snd run) = List.app (shell_commands tr) cmds /\
  fault_log (snd run)
  = List.app (fault_log tr) (map (fun _ => (enable, tag self)) cmds) /\
  activations (snd run)
  = List.app (activations tr) (if enable then cmds else []).
Proof.
  intros Hany Hcmds. cbv zeta.
  replace (toggle W self pattern pattern_args enable tr)
    with (forM cmds (fun command =>
            bind (sh W command) (fun retcode =>
              if enable
              then set_fault_active (tag self) (fault_type self) command
                     retcode
              else set_fault_inactive (tag self)))
            (snd (make_filtered_nics_injection_commands W (namespace_pid self)
                    pattern pattern_args (fault_type self) (fault_args self)
                    (target_interface self) (fault_target_protocol self)
                    (fault_target_dst_ports self)
                    (fault_target_src_ports self) enable tr)))
    by (unfold toggle, inject_nics; rewrite Hany; unfold bind at 2;
        rewrite make_filtered_run, Hcmds; reflexivity).
  rewrite make_filtered_run. cbn [snd].
  match goal with
  | |- context [forM cmds _ ?tr0] =>
      destruct (for_commands_run self enable cmds tr0) as (H1 & H2 & H3 & H4)
  end.
  cbv zeta in H1, H2, H3, H4.
  rewrite H1, H2, H3, H4.
  rewrite shell_commands_app, fault_log_app, activations_app.
  cbn [shell_commands fault_log activations]. rewrite !app_nil_r. auto.
Qed.

(** X7: An unfiltered fault runs the one command that the unfiltered
    synthesizer returns, built with [add] when installing and with [del]
    when removing; an empty list of pattern arguments reaches the
    synthesizer as [None]. *)
Theorem unfiltered_command_is_run (self : t) (pattern : string)
  (pattern_args : list value) (enable : bool) (cmd : string) (tr : trace) :
  PyStr.contains "any" (fault_target_protocol self) = true ->
  fst (make_nics_injection_command W (namespace_pid self)
         (target_interface self) (fault_type self) pattern
         match pattern_args with
         | [] => None
         | _ => Some pattern_args
         end
         (fault_args self) (if enable then "add" else "del") [])
  = Ok (Some cmd) ->
  let run := toggle W self pattern pattern_args enable tr in
  fst run = Ok tt /\
  shell_commands (snd run) = List.app (shell_commands tr) [cmd] /\
  fault_log (snd run) = List.app (fault_log tr) [(enable, tag self)] /\
  activations (snd run)
  = List.app (activations tr) (if enable then [cmd] else []).
Proof.
  intros Hany Hcmd. cbv zeta. unfold toggle, inject_nics. rewrite Hany.
  unfold bind at 1 3 5 7.
  match goal with
  | |- context [make_nics_injection_command W ?p ?d ?ft ?fp ?pa ?fa ?tc tr] =>
      destruct (make_nics_run p d ft fp pa fa tc tr)
        as (logged & -> & Hs & Hf & Ha & _)
  end.
  rewrite Hcmd. unfold call, bind, sh, ret, set_fault_active,
    set_fault_inactive, emit.
  destruct enable; cbn [fst snd];
    rewrite ?shell_commands_app, ?fault_log_app, ?activations_app, Hs, Hf, Ha;
    cbn [shell_commands fault_log activations List.app];
    rewrite ?app_nil_r; auto.
Qed.

End CommandsRun.

Lemma filtered_commands_all_run_witness :
  let run := LinkInjector.toggle quiet sample_filtered "random" [VInt 10] true
               [] in
  fst run = Ok tt /\
  shell_commands (snd run)
  = ["nsenter --target 100 --net tc qdisc add dev eth0 root handle 1: prio";
     "nsenter --target 100 --net tc filter add dev eth0 parent 1:0 protocol ip prio 1 u32 match ip protocol 6 0xff match ip dport 80 0xffff flowid 1:1";
     "nsenter --target 100 --net tc qdisc add dev eth0 parent 1:1 handle 2: netem loss 10%"] /\
  fault_log (snd run) = [(true, "f1"); (true, "f1"); (true, "f1")] /\
  activations (snd run)
  = ["nsenter --target 100 --net tc qdisc add dev eth0 root handle 1: prio";
     "nsenter --target 100 --net tc filter add dev eth0 parent 1:0 protocol ip prio 1 u32 match ip protocol 6 0xff match ip dport 80 0xffff flowid 1:1";
     "nsenter --target 100 --net tc qdisc add dev eth0 parent 1:1 handle 2: netem loss 10%"].
Proof.
  apply (filtered_commands_all_run quiet sample_filtered "random" [VInt 10]
           true
           ["nsenter --target 100 --net tc qdisc add dev eth0 root handle 1: prio";
            "nsenter --target 100 --net tc filter add dev eth0 parent 1:0 protocol ip prio 1 u32 match ip protocol 6 0xff match ip dport 80 0xffff flowid 1:1";
            "nsenter --target 100 --net tc qdisc add dev eth0 parent 1:1 handle 2: netem loss 10%"]
           []); reflexivity.
Defined.

Lemma unfiltered_command_is_run_witness :
  let run := LinkInjector.toggle quiet sample_link "persistent" [] false [] in
  fst run = Ok tt /\
  shell_commands (snd run)
  = ["nsenter --target 100 --net tc qdisc del dev eth0 root netem loss 100%"] /\
  fault_log (snd run) = [(false, "f1")] /\
  activations (snd run) = [].
Proof.
  apply (unfiltered_command_is_run quiet sample_link "persistent" [] false
           "nsenter --target 100 --net tc qdisc del dev eth0 root netem loss 100%"
           []); reflexivity.
Defined.

(** ** Persistent faults of the multi and node injectors *)

Section PersistentOutcomes.
Variable W : World.

(** X8: A persistent multi fault has two outcomes.  Either it returns, having
    run the inject command, slept for the injection time and run the eject
    command, with one call to [set_fault_active] and one to
    [set_fault_inactive].  Or the sleep is cancelled: then the eject command
    is never run and the fault stays marked active.  Nothing else can
    happen. *)
Theorem multi_persistent_outcomes (self : MultiInjector.t) (tr : trace) :
  let run := MultiInjector._inject_persistent W self tr in
  let inject :=
    MultiInjector.full_command (MultiInjector.target_process_pid self)
      (MultiInjector.inject_command self) in
  let eject :=
    MultiInjector.full_command (MultiInjector.target_process_pid self)
      (MultiInjector.eject_command self) in
  sleeps (snd run)
  = List.app (sleeps tr) [MultiInjector.injection_time self] /\
  activations (snd run)
  = List.app (activations tr) [MultiInjector.inject_command self] /\
  ((fst run = Ok tt /\
    shell_commands (snd run) = List.app (shell_commands tr) [inject; eject] /\
    fault_log (snd run)
    = List.app (fault_log tr)
        [(true, MultiInjector.tag self); (false, MultiInjector.tag self)])
   \/
   (fst run = Raise CancelledError /\
    shell_commands (snd run) = List.app (shell_commands tr) [inject] /\
    fault_log (snd run)
    = List.app (fault_log tr) [(true, MultiInjector.tag self)])).
Proof.
  cbv zeta.
  unfold MultiInjector._inject_persistent,
    MultiInjector.execute_command_for_node, bind, log, sleep, sh,
    set_fault_active, set_fault_inactive, emit.
  cbn beta iota zeta.
  match goal with
  | |- context [cancelled W ?t] => destruct (cancelled W t)
  end; cbn [fst snd];
    (split; [obs; reflexivity|]); (split; [obs; reflexivity|]);
    [right | left]; repeat split; obs; reflexivity.
Qed.

(** Taking a run apart at every test whose outcome the world decides. *)
Ltac case_run :=
  repeat first
    [ progress cbn beta iota zeta
    | match goal with
      | |- context [if ?b then _ else _] => destruct b
      end ].

(** X9: A persistent custom fault of the node injector with at least one
    fault argument has the same two outcomes: it returns after the start
    command, the sleep of the injection time and the end command, or the
    sleep is cancelled and the fault stays marked active.  The first
    argument is the start command.  The second, when there is one, is the
    end command; with a single argument no end command is run, and the
    fault is still marked inactive. *)
Theorem node_custom_persistent_outcomes (self : NodeInjector.t) (tr : trace)
  (a0 : string) (rest : list string) :
  NodeInjector.fault_type self = "custom" ->
  NodeInjector.fault_args self = a0 :: rest ->
  let run := NodeInjector._inject_persistent W self tr in
  let start :=
    NodeInjector.full_command (NodeInjector.target_process_pid self) a0 in
  let stop :=
    match rest with
    | a1 :: _ =>
        [NodeInjector.full_command (NodeInjector.target_process_pid self) a1]
    | [] => []
    end in
  sleeps (snd run) = List.app (sleeps tr) [NodeInjector.injection_time self] /\
  activations (snd run) = List.app (activations tr) [a0] /\
  ((fst run = Ok tt /\
    shell_commands (snd run) = List.app (shell_commands tr) (start :: stop) /\
    fault_log (snd run)
    = List.app (fault_log tr)
        [(true, NodeInjector.tag self); (false, NodeInjector.tag self)])
   \/
   (fst run = Raise CancelledError /\
    shell_commands (snd run) = List.app (shell_commands tr) [start] /\
    fault_log (snd run)
    = List.app (fault_log tr) [(true, NodeInjector.tag self)])).
Proof.
  intros Ht Ha. cbv zeta.
  unfold NodeInjector._inject_persistent, NodeInjector.persistent_commands.
  rewrite Ht, Ha. rewrite String.eqb_refl.
  destruct rest as [|a1 rest];
    cbn [List.length Nat.ltb Nat.leb index nth_error of_option];
    unfold NodeInjector.execute_command_for_node, bind, lift, ret, log, sleep,
      sh, observe, set_fault_active, set_fault_inactive, emit;
    case_run; cbn [fst snd];
    (split; [obs; reflexivity|]); (split; [obs; reflexivity|]);
    first [ left; repeat split; obs; reflexivity
          | right; repeat split; obs; reflexivity ].
Qed.

End PersistentOutcomes.

Lemma node_custom_persistent_outcomes_witness :
  let run := NodeInjector._inject_persistent quiet sample_node [] in
  sleeps (snd run) = [Int 5] /\
  activations (snd run) = ["set_rate {} &"] /\
  ((fst run = Ok tt /\
    shell_commands (snd run)
    = [NodeInjector.full_command (Some 100) "set_rate {} &";
       NodeInjector.full_command (Some 100) "clear_rate"] /\
    fault_log (snd run) = [(true, "n1"); (false, "n1")])
   \/
   (fst run = Raise CancelledError /\
    shell_commands (snd run)
    = [NodeInjector.full_command (Some 100) "set_rate {} &"] /\
    fault_log (snd run) = [(true, "n1")])).
Proof.
  apply (node_custom_persistent_outcomes quiet sample_node [] "set_rate {} &"
           ["clear_rate"]); reflexivity.
Defined.

(** ** The cycles of a burst *)

Section BurstCycles.
Variable W : World.

Lemma wp_conj {A : Type} (m : M A) (Q1 Q2 : A -> trace -> Prop)
  (E : trace -> Prop) tr :
  wp m Q1 E tr -> wp m Q2 E tr ->
  wp m (fun a tr' => Q1 a tr' /\ Q2 a tr') E tr.
Proof. unfold wp. destruct (m tr) as [[a|e] tr']; auto. Qed.

(** [n] rounds of a body that adds the observations [xs] add them [n]
    times. *)
Lemma wp_repeat_appends {X : Type} (f : trace -> list X) (xs : list X)
  (body : M unit) (n : nat) :
  (forall tr0,
     wp body (fun _ tr' => f tr' = List.app (f tr0) xs) (fun _ => True) tr0) ->
  forall tr,
    wp (repeatM n body)
       (fun _ tr' => f tr' = List.app (f tr) (List.concat (repeat xs n)))
       (fun _ => True) tr.
Proof.
  intros Hbody. induction n as [|n IH]; intros tr.
  - simpl. apply wp_ret. rewrite app_nil_r. reflexivity.
  - simpl. apply wp_bind. eapply wp_mono; [apply Hbody | | auto].
    cbv beta. intros u tr' H.
    eapply wp_mono; [apply IH | | auto].
    cbv beta. intros u' tr'' H'. rewrite H', H, <- app_assoc. reflexivity.
Qed.

Lemma truediv_int_float (x y : Z) (q : num) :
  truediv (Int x) (Int y) = Ok q -> exists f, q = Float f.
Proof.
  unfold truediv. destruct (y =? 0); [discriminate|].
  destruct (B64.is_finite _); [|discriminate].
  intros H. inversion H. eexists. reflexivity.
Qed.

(** What the timing of a burst is does not depend on what happened before;
    reading it runs nothing, and the gap between two bursts can always be
    computed from it. *)
Lemma burst_timing_run (tag0 : string) (args : list value) (tr : trace) :
  wp (MultiInjector.burst_timing tag0 args)
     (fun r tr' =>
        fst (MultiInjector.burst_timing tag0 args []) = Ok r /\
        (exists rest, sub (snd r) (fst r) = Ok rest) /\
        sleeps tr' = sleeps tr /\
        shell_commands tr' = shell_commands tr /\
        fault_log tr' = fault_log tr)
     (fun _ => True) tr.
Proof.
  unfold MultiInjector.burst_timing.
  destruct (List.length args <? 2)%nat.
  - wp_go W. repeat split; try (obs; reflexivity).
    exists (Int 1). reflexivity.
  - unfold wp, bind, lift.
    destruct (rbind (rbind (index args 0) py_int)
                (fun z => truediv (Int z) (Int 1000))) as [d|] eqn:Hd;
      [|exact I].
    destruct (rbind (rbind (index args 1) py_int)
                (fun z => truediv (Int z) (Int 1000))) as [p|] eqn:Hp;
      [|exact I].
    cbn. repeat split.
    destruct (rbind (index args 0) py_int) as [zd|]; [|discriminate].
    destruct (rbind (index args 1) py_int) as [zp|]; [|discriminate].
    cbn [rbind] in Hd, Hp.
    destruct (truediv_int_float _ _ _ Hd) as [fd ->].
    destruct (truediv_int_float _ _ _ Hp) as [fp ->].
    eexists. reflexivity.
Qed.

(** X10: A burst of the multi injector that returns has run
    [int(injection_time / burst_period)] cycles, none when that number is
    negative.  Each cycle runs the inject command, sleeps for the burst
    duration, runs the eject command and sleeps for the rest of the period;
    the fault logger sees one activation and one deactivation a cycle. *)
Theorem multi_burst_runs_whole_cycles (self : MultiInjector.t) (tr : trace) :
  let run := MultiInjector._inject_burst W self tr in
  fst run = Ok tt ->
  exists d p rest n,
    fst (MultiInjector.burst_timing (MultiInjector.tag self)
           (MultiInjector.fault_pattern_args self) []) = Ok (d, p) /\
    sub p d = Ok rest /\
    rbind (truediv (MultiInjector.injection_time self) p) to_int = Ok n /\
    sleeps (snd run)
    = List.app (sleeps tr) (List.concat (repeat [d; rest] (range_len n))) /\
    shell_commands (snd run)
    = List.app (shell_commands tr)
        (List.concat
           (repeat
              [MultiInjector.full_command
                 (MultiInjector.target_process_pid self)
                 (MultiInjector.inject_command self);
               MultiInjector.full_command
                 (MultiInjector.target_process_pid self)
                 (MultiInjector.eject_command self)]
              (range_len n))) /\
    fault_log (snd run)
    = List.app (fault_log tr)
        (List.concat
           (repeat [(true, MultiInjector.tag self);
                    (false, MultiInjector.tag self)]
              (range_len n))).
Proof.
  cbv zeta. intros Hrun.
  assert (Hwp :
    wp (MultiInjector._inject_burst W self)
       (fun _ tr' =>
          exists d p rest n,
            fst (MultiInjector.burst_timing (MultiInjector.tag self)
                   (MultiInjector.fault_pattern_args self) []) = Ok (d, p) /\
            sub p d = Ok rest /\
            rbind (truediv (MultiInjector.injection_time self) p) to_int
            = Ok n /\
            sleeps tr'
            = List.app (sleeps tr) (List.concat (repeat [d; rest] (range_len n))) /\
            shell_commands tr'
            = List.app (shell_commands tr)
                (List.concat
                   (repeat
                      [MultiInjector.full_command
                         (MultiInjector.target_process_pid self)
                         (MultiInjector.inject_command self);
                       MultiInjector.full_command
                         (MultiInjector.target_process_pid self)
                         (MultiInjector.eject_command self)]
                      (range_len n))) /\
            fault_log tr'
            = List.app (fault_log tr)
                (List.concat
                   (repeat [(true, MultiInjector.tag self);
                            (false, MultiInjector.tag self)]
                      (range_len n))))
       (fun _ => True) tr).
  { unfold MultiInjector._inject_burst. wp_step W. wp_step W.
    wp_apply burst_timing_run.
    destruct a as [d p]. destruct H as (Ht & [rest Hrest] & Hs & Hc & Hf).
    cbn [fst snd] in Hrest.
    wp_step W. wp_step W; [|exact I].
    eapply wp_mono;
      [ apply wp_conj;
        [ apply (wp_repeat_appends sleeps [d; rest])
        | apply wp_conj;
          [ apply (wp_repeat_appends shell_commands
                     [MultiInjector.full_command
                        (MultiInjector.target_process_pid self)
                        (MultiInjector.inject_command self);
                      MultiInjector.full_command
                        (MultiInjector.target_process_pid self)
                        (MultiInjector.eject_command self)])
          | apply (wp_repeat_appends fault_log
                     [(true, MultiInjector.tag self);
                      (false, MultiInjector.tag self)]) ] ]
      | | auto ].
    - intros tr0. unfold MultiInjector.execute_command_for_node.
      repeat wp_step W; try exact I.
      assert (a0 = rest) by congruence. subst a0. obs. reflexivity.
    - intros tr0. unfold MultiInjector.execute_command_for_node.
      repeat wp_step W; try exact I. obs. reflexivity.
    - intros tr0. unfold MultiInjector.execute_command_for_node.
      repeat wp_step W; try exact I. obs. reflexivity.
    - cbv beta. intros u trz (H1 & H2 & H3).
      exists d, p, rest, a. repeat split; try assumption.
      + rewrite H1, Hs. obs. reflexivity.
      + rewrite H2, Hc. obs. reflexivity.
      + rewrite H3, Hf. obs. reflexivity. }
  unfold wp in Hwp.
  destruct (MultiInjector._inject_burst W self tr) as [[u|e] tr'];
    [exact Hwp | discriminate].
Qed.

End BurstCycles.

Lemma multi_burst_runs_whole_cycles_witness :
  exists d p rest n,
    fst (MultiInjector.burst_timing "m1" [VInt 500; VInt 2000] [])
    = Ok (d, p) /\
    sub p d = Ok rest /\
    rbind (truediv (Int 5) p) to_int = Ok n /\
    sleeps (snd (MultiInjector._inject_burst quiet sample_multi []))
    = List.app [] (List.concat (repeat [d; rest] (range_len n))) /\
    shell_commands (snd (MultiInjector._inject_burst quiet sample_multi []))
    = List.app []
        (List.concat
           (repeat
              [MultiInjector.full_command (Some 100)
                 "echo '{}' | tcset /dev/stdin --import-setting";
               MultiInjector.full_command (Some 100)
                 "echo '{}' | tcset /dev/stdin --import-setting"]
              (range_len n))) /\
    fault_log (snd (MultiInjector._inject_burst quiet sample_multi []))
    = List.app [] (List.concat (repeat [(true, "m1"); (false, "m1")] (range_len n))).
Proof.
  apply (multi_burst_runs_whole_cycles quiet sample_multi []). reflexivity.
Defined.

(** ** Custom node faults without commands *)

Section NodeWithoutCommands.
Import NodeInjector.
Variable W : World.

Lemma repeat_snoc {X : Type} (x : X) (k : nat) :
  (repeat x k ++ [x])%list = repeat x (S k).
Proof. induction k as [|k IH]; [reflexivity|]. simpl. rewrite IH. reflexivity. Qed.

(** X11: A custom burst without fault arguments runs no command at all, whether
    it returns or not; each of its cycles still reports an activation to
    the fault logger, with a placeholder for the command. *)
Theorem node_custom_burst_without_commands (self : t) (tr : trace) :
  fault_type self = "custom" ->
  fault_args self = [] ->
  let run := _inject_burst W self tr in
  shell_commands (snd run) = shell_commands tr /\
  exists k,
    activations (snd run)
    = List.app (activations tr) (repeat dummy_command k).
Proof.
  intros Ht Ha. cbv zeta.
  set (I := fun tr' : trace =>
    shell_commands tr' = shell_commands tr /\
    exists k,
      activations tr' = List.app (activations tr) (repeat dummy_command k)).
  assert (Hwp : wp (_inject_burst W self) (fun _ => I) I tr).
  { assert (Hlog : forall tr0 lvl text args,
      I tr0 -> I (tr0 ++ [EvLog lvl text args])%list).
    { intros tr0 lvl text args [H1 [k H2]]. split; [obs; exact H1|].
      exists k. obs. exact H2. }
    assert (Hsleep : forall tr0 d, I tr0 -> I (tr0 ++ [EvSleep d])%list).
    { intros tr0 d [H1 [k H2]]. split; [obs; exact H1|].
      exists k. obs. exact H2. }
    assert (Hoff : forall tr0 tg, I tr0 -> I (tr0 ++ [EvInactive tg])%list).
    { intros tr0 tg [H1 [k H2]]. split; [obs; exact H1|].
      exists k. obs. exact H2. }
    assert (Hon : forall tr0 tg kind rc,
      I tr0 -> I (tr0 ++ [EvActive tg kind dummy_command rc])%list).
    { intros tr0 tg kind rc [H1 [k H2]]. split; [obs; exact H1|].
      exists (S k). obs. rewrite H2, <- app_assoc, repeat_snoc. reflexivity. }
    assert (H0 : I tr) by (split; [reflexivity | exists 0%nat; cbn;
                                   rewrite app_nil_r; reflexivity]).
    unfold _inject_burst. rewrite Ht, Ha. rewrite String.eqb_refl.
    cbn [custom_commands].
    wp_step W. wp_step W.
    apply wp_bind. unfold burst_timing, MultiInjector.burst_timing.
    repeat wp_step W; auto.
    all: apply wp_repeat; auto.
    all: intros tr0 HI; unfold execute_command_for_node;
      repeat wp_step W; auto 6. }
  unfold wp in Hwp.
  destruct (_inject_burst W self tr) as [[u|e] tr']; exact Hwp.
Qed.

End NodeWithoutCommands.

Lemma node_custom_burst_without_commands_witness :
  let run := NodeInjector._inject_burst quiet sample_node_burst_no_args [] in
  shell_commands (snd run) = [] /\
  exists k, activations (snd run) = List.app [] (repeat dummy_command k).
Proof.
  apply (node_custom_burst_without_commands quiet sample_node_burst_no_args []);
    reflexivity.
Defined.

Section NodeFailures.
Import NodeInjector.
Variable W : World.

(** X12: A custom degradation without fault arguments always ends in an
    exception, and it does so before any command is run and before the
    fault logger is called. *)
Theorem node_custom_degradation_without_commands (self : t) (tr : trace) :
  fault_type self = "custom" ->
  fault_args self = [] ->
  let run := _inject_degradation W self tr in
  (exists e, fst run = Raise e) /\
  shell_commands (snd run) = shell_commands tr /\
  fault_log (snd run) = fault_log tr.
Proof.
  intros Ht Ha. cbv zeta.
  assert (Hwp :
    wp (_inject_degradation W self) (fun _ _ => False)
       (fun tr' => shell_commands tr' = shell_commands tr /\
                   fault_log tr' = fault_log tr) tr).
  { unfold _inject_degradation, degradation_config.
    rewrite Ht, Ha. rewrite String.eqb_refl. cbn [custom_commands].
    repeat wp_step W; try (split; obs; reflexivity).
    all: cbn [count_placeholders] in *; discriminate. }
  unfold wp in Hwp.
  destruct (_inject_degradation W self tr) as [[u|e] tr']; cbn [fst snd].
  - contradiction.
  - destruct Hwp as [H1 H2]. repeat split; eauto.
Qed.

(** X13: When [cgget] fails, or when the cgroup of the process was never found,
    a persistent CPU stress ends in a [TypeError]: no command is run and
    the fault logger is not called.  The failure of [cgget] is logged as an
    error first. *)
Theorem node_stress_without_cgroup_raises (self : t) (tr : trace) :
  fault_type self = "stress_cpu" ->
  (forall tr0, cgget W tr0 = None) ->
  let run := _inject_persistent W self tr in
  fst run = Raise TypeError /\
  shell_commands (snd run) = shell_commands tr /\
  fault_log (snd run) = fault_log tr /\
  errors (snd run)
  = List.app (errors tr)
      match cpu_cgroup_name self with
      | Some name =>
          ["Tried to find cgroup size for " ++ name
           ++ ", but couldn't find it"]
      | None => []
      end.
Proof.
  intros Ht Hcg. cbv zeta.
  unfold _inject_persistent, _get_cgroup_size. rewrite Ht.
  change (String.eqb "stress_cpu" "custom") with false.
  change (String.eqb "stress_cpu" "stress_cpu") with true.
  cbn beta iota.
  destruct (cpu_cgroup_name self) as [name|];
    unfold bind, log, observe, lift, throw, ret, emit; rewrite ?Hcg;
    cbn [fst snd float_of_size]; repeat split; obs; reflexivity.
Qed.

End NodeFailures.

Lemma node_custom_degradation_without_commands_witness :
  let run := NodeInjector._inject_degradation quiet sample_node_burst_no_args
               [] in
  (exists e, fst run = Raise e) /\
  shell_commands (snd run) = [] /\
  fault_log (snd run) = [].
Proof.
  apply (node_custom_degradation_without_commands quiet
           sample_node_burst_no_args []); reflexivity.
Defined.

Lemma node_stress_without_cgroup_raises_witness :
  let run := NodeInjector._inject_persistent quiet sample_node_stress [] in
  fst run = Raise TypeError /\
  shell_commands (snd run) = [] /\
  fault_log (snd run) = [] /\
  errors (snd run)
  = ["Tried to find cgroup size for docker/n1, but couldn't find it"].
Proof.
  apply (node_stress_without_cgroup_raises quiet sample_node_stress []);
    reflexivity.
Defined.

(** ** The commands the multi injector builds *)

Section BuiltCommands.
Variable W : World.

Lemma replace_one_char (c : ascii) (new a b : string) :
  has_char c a = false -> has_char c b = false ->
  PyStr.replace (String c "") new (a ++ String c b) = a ++ new ++ b.
Proof.
  intros Ha Hb. unfold PyStr.replace. cbn beta iota.
  rewrite replace_from_skips by exact Ha.
  cbn [PyStr.replace_from String.prefix String.length Nat.pred].
  destruct (ascii_dec c c) as [_|Hne]; [|contradiction].
  rewrite prefix_nil. f_equal. f_equal.
  rewrite <- (append_nil_r b) at 1.
  rewrite replace_from_skips by exact Hb.
  cbn [PyStr.replace_from]. apply append_nil_r.
Qed.

(** X14: The inject command that the constructor builds pipes the settings into
    [tcset].  Executed, it has lost that pipe: for settings without a pipe
    character the line handed to the shell is one [echo] whose arguments
    are the settings, the namespace prefix and the [tcset] call, so [tcset]
    is never started. *)
Theorem built_inject_command_loses_its_pipe
  (pid : option Z) (tag0 fault_pattern0 config_string : string)
  (fault_pattern_args0 : list value) (pre inj post : num)
  (self : MultiInjector.t) :
  MultiInjector.new W pid tag0 fault_pattern0 fault_pattern_args0
    config_string pre inj post = Ok self ->
  has_char "|" config_string = false ->
  MultiInjector.inject_command self
  = "echo '" ++ config_string ++ "' | tcset /dev/stdin --import-setting" /\
  MultiInjector.full_command (MultiInjector.target_process_pid self)
    (MultiInjector.inject_command self)
  = "nsenter --target " ++ PyStr.of_pid pid ++ " --net --pid "
    ++ "echo '" ++ config_string ++ "' "
    ++ "nsenter --target " ++ PyStr.of_pid pid ++ " --net --pid "
    ++ " tcset /dev/stdin --import-setting".
Proof.
  intros Hnew Hcfg. unfold MultiInjector.new, MultiInjector.build_start_command
    in Hnew.
  destruct (json_keys W config_string) as [names|]; [|discriminate].
  cbn [of_option rbind fst snd] in Hnew. inversion Hnew; subst; clear Hnew.
  cbn [MultiInjector.inject_command MultiInjector.target_process_pid].
  split; [reflexivity|].
  unfold MultiInjector.full_command.
  set (P := "nsenter --target " ++ PyStr.of_pid pid ++ " --net --pid ").
  assert (HP : has_char "|" P = false).
  { subst P. apply (multi_base_no_pipe pid). }
  match goal with
  | |- context [PyStr.replace _ _ ?full] =>
      replace full
        with ((P ++ "echo '" ++ config_string ++ "' ")
              ++ String "|" " tcset /dev/stdin --import-setting")
  end.
  2:{ subst P. unfold MultiInjector.base_command.
      repeat first [rewrite append_assoc | progress cbn [append]].
      reflexivity. }
  assert (Ha : has_char "|" (P ++ "echo '" ++ config_string ++ "' ") = false).
  { rewrite !has_char_app, HP, Hcfg. reflexivity. }
  rewrite contains_char, has_char_app, Ha.
  change (has_char "|" (String "|" " tcset /dev/stdin --import-setting"))
    with true.
  cbn [orb].
  rewrite replace_one_char by (exact Ha || reflexivity).
  subst P. repeat first [rewrite append_assoc | progress cbn [append]].
  reflexivity.
Qed.

End BuiltCommands.

Lemma built_inject_command_loses_its_pipe_witness :
  MultiInjector.inject_command sample_multi
  = "echo '" ++ "{}" ++ "' | tcset /dev/stdin --import-setting" /\
  MultiInjector.full_command (MultiInjector.target_process_pid sample_multi)
    (MultiInjector.inject_command sample_multi)
  = "nsenter --target " ++ PyStr.of_pid (Some 100) ++ " --net --pid "
    ++ "echo '" ++ "{}" ++ "' "
    ++ "nsenter --target " ++ PyStr.of_pid (Some 100) ++ " --net --pid "
    ++ " tcset /dev/stdin --import-setting".
Proof.
  apply (built_inject_command_loses_its_pipe quiet (Some 100) "m1" "burst"
           "{}" [VInt 500; VInt 2000] (Int 0) (Int 5) (Int 0) sample_multi);
    reflexivity.
Defined.

(** ** The intensities of a custom node degradation *)

Section NodeRampValues.
Import NodeInjector.
Variable W : World.

Lemma custom_step_exact self sb eb len step bound v tr :
  wp (custom_degradation_step W self sb eb len step bound v)
     (fun v' tr' =>
        v' = Z.min (v + step) bound /\
        exists cmd,
          format_command sb v = Ok cmd /\
          activations tr' = List.app (activations tr) [cmd])
     (fun _ => True) tr.
Proof.
  unfold custom_degradation_step, execute_command_for_node.
  repeat wp_step W; try exact I;
    (split; [reflexivity|]); eexists; (split; [eassumption|]);
    obs; reflexivity.
Qed.

Lemma custom_iter_exact self sb eb len step bound (n : nat) :
  forall v tr,
    wp (iterM n (custom_degradation_step W self sb eb len step bound) v)
       (fun _ tr' =>
          exists cmds,
            activations tr' = List.app (activations tr) cmds /\
            Forall2 (fun cmd x => format_command sb x = Ok cmd) cmds
              (ramp_values n v step bound))
       (fun _ => True) tr.
Proof.
  induction n as [|n IH]; intros v tr.
  - simpl. apply wp_ret. exists []. rewrite app_nil_r. split; constructor.
  - cbn [iterM ramp_values]. apply wp_bind.
    eapply wp_mono; [apply custom_step_exact | cbv beta | auto].
    intros v' tr1 (-> & cmd & Hcmd & Hact).
    eapply wp_mono; [apply IH | cbv beta | auto].
    intros u tr2 (cmds & Hacts & Hall).
    exists (cmd :: cmds). split.
    + rewrite Hacts, Hact, <- app_assoc. reflexivity.
    + constructor; assumption.
Qed.

(** With a step size that is not negative and a start at or below the end,
    the intensity of round [k] is the start plus [k] steps, cut at the
    end. *)
Lemma ramp_values_closed (n : nat) (a s e : Z) :
  0 <= s -> a <= e ->
  ramp_values n a s e
  = map (fun k => Z.min (a + Z.of_nat k * s) e) (seq 0 n).
Proof.
  intros Hs. revert a. induction n as [|n IH]; intros a Ha; [reflexivity|].
  cbn [ramp_values seq map]. f_equal; [lia|].
  rewrite IH by lia. rewrite <- seq_shift, map_map.
  apply map_ext. intros k.
  destruct (Z.le_gt_cases (a + s) e).
  - rewrite (Z.min_l (a + s) e) by lia. f_equal. lia.
  - rewrite (Z.min_r (a + s) e) by lia. nia.
Qed.

(** X15: A custom degradation that returns has run
    [int(injection_time / step_length)] rounds, and the start commands it
    reported are the first fault argument formatted with the intensities of
    those rounds: the start value first, then each time the step size more,
    cut at the end value.  When the step size is not negative and the start
    is at or below the end, round [k] has the intensity
    [min(start + k * step, end)]. *)
Theorem node_custom_degradation_values (self : t) (tr : trace)
  (e a s n : Z) (len : num) :
  fault_type self = "custom" ->
  degradation_end (fault_pattern_args self) = Ok e ->
  degradation_start_node (fault_pattern_args self) = Ok a ->
  degradation_length (fault_pattern_args self) = Ok len ->
  degradation_size_node (fault_pattern_args self) = Ok s ->
  rbind (truediv (injection_time self) len) to_int = Ok n ->
  fst (_inject_degradation W self tr) = Ok tt ->
  (exists cmds,
     activations (snd (_inject_degradation W self tr))
     = List.app (activations tr) cmds /\
     Forall2
       (fun cmd x =>
          format_command (fst (custom_commands (fault_args self))) x = Ok cmd)
       cmds (ramp_values (range_len n) a s e)) /\
  (0 <= s -> a <= e ->
   ramp_values (range_len n) a s e
   = map (fun k => Z.min (a + Z.of_nat k * s) e) (seq 0 (range_len n))).
Proof.
  intros Ht He Ha Hlen Hs Hn Hrun.
  split; [|apply ramp_values_closed].
  set (sb := fst (custom_commands (fault_args self))).
  assert (Hwp :
    wp (_inject_degradation W self)
       (fun _ tr' =>
          exists cmds,
            activations tr' = List.app (activations tr) cmds /\
            Forall2 (fun cmd x => format_command sb x = Ok cmd) cmds
              (ramp_values (range_len n) a s e))
       (fun _ => True) tr).
  { unfold degradation_end in He.
    unfold degradation_start_node in Ha.
    unfold degradation_size_node in Hs.
    unfold degradation_length in Hlen.
    unfold _inject_degradation.
    wp_step W. wp_step W. apply wp_bind.
    assert (Hcfg :
      wp (degradation_config self)
         (fun cfg tr' =>
            activations tr' = activations tr /\ cfg = (e, a, len, s))
         (fun _ => True)
         (tr ++ [EvLog Info "Fault %s commencing degradation"
                   [LVal (VStr (tag self))]])%list).
    { unfold degradation_config.
      destruct (4 <=? List.length (fault_pattern_args self))%nat;
      destruct (3 <=? List.length (fault_pattern_args self))%nat;
      destruct (2 <=? List.length (fault_pattern_args self))%nat;
      destruct (1 <=? List.length (fault_pattern_args self))%nat;
      rewrite ?He, ?Ha, ?Hs;
      inversion He; inversion Ha; inversion Hs; subst;
      repeat wp_step W; try exact I;
      (split; [obs; reflexivity|]);
      repeat match goal with
             | H : rbind (index _ 1) py_int = Ok _ |- _ =>
                 rewrite H in Hlen; cbn [rbind] in Hlen
             end;
      repeat (f_equal; try congruence). }
    eapply wp_mono; [exact Hcfg | cbv beta | auto].
    clear Hcfg. intros cfg tr1 [H1 ->].
    rewrite Hn. wp_step W. wp_step W; [|discriminate].
    match goal with H : Ok n = Ok _ |- _ => inversion H; subst; clear H end.
    rewrite Ht. change (String.eqb "custom" "custom") with true. cbv iota.
    apply wp_bind.
    assert (Hlog :
      wp (match fault_args self with
          | [] => log Error "{self.tag} missing fault args for injection"
                    [LVal (VStr (tag self))]
          | _ :: _ => ret tt
          end)
         (fun _ tr' => activations tr' = activations tr)
         (fun _ => True) tr1)
      by (destruct (fault_args self); repeat wp_step W; obs; exact H1).
    eapply wp_mono; [exact Hlog | cbv beta | auto].
    clear Hlog. intros u tr2 H2.
    subst sb. destruct (custom_commands (fault_args self)) as [sb eb].
    cbn [fst] in *.
    wp_step W. wp_step W; [|exact I].
    apply wp_bind.
    assert (Hmany :
      wp (if (1 <? a1)%nat
          then log Error
                 "{self.tag} contains more than one place to insert arguments, but currently only supports one!"
                 [LVal (VStr (tag self))]
          else ret tt)
         (fun _ tr' => activations tr' = activations tr)
         (fun _ => True) tr2)
      by (repeat wp_step W; obs; exact H2).
    eapply wp_mono; [exact Hmany | cbv beta | auto].
    clear Hmany. intros u' tr3 H3.
    eapply wp_mono; [apply custom_iter_exact | cbv beta | auto].
    intros u'' tr4 (cmds & Hacts & Hall).
    exists cmds. split; [rewrite Hacts, H3; reflexivity | exact Hall]. }
  unfold wp in Hwp.
  destruct (_inject_degradation W self tr) as [[u|ex] tr'];
    [exact Hwp | discriminate].
Qed.

End NodeRampValues.

Lemma node_custom_degradation_values_witness :
  (exists cmds,
     activations (snd (NodeInjector._inject_degradation quiet sample_node []))
     = List.app [] cmds /\
     Forall2
       (fun cmd x =>
          NodeInjector.format_command (Some "set_rate {} &") x = Ok cmd)
       cmds (ramp_values 5 0 10 50)) /\
  (0 <= 10 -> 0 <= 50 ->
   ramp_values 5 0 10 50
   = map (fun k => Z.min (0 + Z.of_nat k * 10) 50) (seq 0 5)).
Proof.
  eapply (node_custom_degradation_values quiet sample_node [] 50 0 10 5);
    reflexivity.
Defined.

(** ** The cap of a link degradation *)

Section LinkCap.
Import LinkInjector.
Variable W : World.

Ltac subm :=
  repeat rewrite submitted_app; simpl submitted;
  repeat rewrite app_nil_r;
  first [ eassumption | reflexivity
        | match goal with H : submitted _ = _ |- _ => rewrite H end;
          reflexivity ].

Lemma link_degradation_capped self e a s tr :
  degradation_end (fault_pattern_args self) = Ok e ->
  degradation_start_link W (fault_pattern_args self) = Ok a ->
  degradation_size_link W (fault_pattern_args self) = Ok s ->
  0 <= s -> a <= Z.min e 100 ->
  wp (_inject_degradation_pattern W self)
     (fun _ => Ramp (submitted_intensities tr) (Z.min e 100))
     (Ramp (submitted_intensities tr) (Z.min e 100)) tr.
Proof.
  intros He Ha Hs Hs0 Hle.
  set (base := submitted_intensities tr).
  assert (Hnil : forall tr', submitted tr' = submitted tr ->
                             forall c, Ramp base c tr').
  { intros tr' Heq c. exists []. repeat split; try constructor.
    unfold base, submitted_intensities. rewrite Heq. simpl.
    rewrite app_nil_r. reflexivity. }
  unfold degradation_end in He.
  unfold degradation_start_link in Ha.
  unfold degradation_size_link in Hs.
  unfold _inject_degradation_pattern.
  apply wp_bind.
  assert (Hend :
    wp (if (4 <=? List.length (fault_pattern_args self))%nat
        then x <- lift (rbind (index (fault_pattern_args self) 3) py_int) ;;
             ret (Z.min x 100)
        else ret 100)
       (fun bound tr' =>
          submitted tr' = submitted tr /\ a <= bound <= Z.min e 100)
       (fun tr' => submitted tr' = submitted tr) tr).
  { destruct (4 <=? List.length (fault_pattern_args self))%nat.
    - rewrite He. unfold wp, bind, lift, ret. simpl. split; [reflexivity|lia].
    - apply wp_ret. inversion He; subst. split; [reflexivity|lia]. }
  eapply wp_mono; [exact Hend | cbv beta | cbv beta; intros; apply Hnil; auto].
  clear Hend. intros bound tr1 [H1 Hbound].
  apply wp_bind.
  assert (Hstart :
    wp (if (3 <=? List.length (fault_pattern_args self))%nat
        then v <- lift (index (fault_pattern_args self) 2) ;;
             ret (VStr (py_str W v))
        else ret (VInt 0))
       (fun v tr' => submitted tr' = submitted tr /\ py_int v = Ok a)
       (fun tr' => submitted tr' = submitted tr) tr1).
  { destruct (3 <=? List.length (fault_pattern_args self))%nat.
    - unfold wp, bind, lift, ret.
      destruct (index (fault_pattern_args self) 2) as [v|]; simpl;
        [|exact H1].
      split; [exact H1 | exact Ha].
    - apply wp_ret. split; [exact H1|]. inversion Ha. reflexivity. }
  eapply wp_mono; [exact Hstart | cbv beta | cbv beta; intros; apply Hnil; auto].
  clear Hstart. intros v0 tr2 [H2 Hv0].
  apply wp_bind.
  assert (Hlen :
    wp (if (2 <=? List.length (fault_pattern_args self))%nat
        then z <- lift (rbind (index (fault_pattern_args self) 1) py_int) ;;
             lift (truediv (Int z) (Int 1000))
        else lift (truediv (Int 1000) (Int 1000)))
       (fun _ tr' => submitted tr' = submitted tr)
       (fun tr' => submitted tr' = submitted tr) tr2)
    by (repeat wp_step W; exact H2).
  eapply wp_mono; [exact Hlen | cbv beta | cbv beta; intros; apply Hnil; auto].
  clear Hlen. intros len tr3 H3.
  apply wp_bind.
  assert (Hsize :
    wp (if (1 <=? List.length (fault_pattern_args self))%nat
        then v <- lift (index (fault_pattern_args self) 0) ;;
             ret (py_str W v)
        else
          log Error
            "{self.tag} does not have enough pattern_args to define degradation step, defaulting to 5"
            [LVal (VStr (tag self))] ;;
          ret (PyStr.of_Z 5))
       (fun size tr' =>
          submitted tr' = submitted tr /\ py_int (VStr size) = Ok s)
       (fun tr' => submitted tr' = submitted tr) tr3).
  { destruct (1 <=? List.length (fault_pattern_args self))%nat.
    - unfold wp, bind, lift, ret.
      destruct (index (fault_pattern_args self) 0) as [v|]; simpl;
        [|exact H3].
      split; [exact H3 | exact Hs].
    - wp_step W. wp_step W. wp_step W. split; [subm|].
      inversion Hs. reflexivity. }
  eapply wp_mono; [exact Hsize | cbv beta | cbv beta; intros; apply Hnil; auto].
  clear Hsize. intros size tr4 [H4 Hsize].
  unfold getInjectionTime.
  wp_step W. wp_step W. wp_step W; [|apply Hnil; exact H4].
  wp_step W. wp_step W. wp_step W; [|apply Hnil; exact H4].
  wp_step W. wp_step W.
  eapply wp_mono;
    [apply wp_iter with (I := link_ramp_inv base bound) (E := Ramp base bound)
    | cbv beta | cbv beta].
  - intros v tr5 Hinv.
    apply (link_degradation_step_ramp W self len size bound base v s tr5);
      assumption.
  - exists a. split; [exact Hv0|]. split; [lia|].
    apply Hnil. subm.
  - intros u tr5 (v & cur & _ & Hcur & Hr).
    apply ramp_weaken with cur; [exact Hr | lia].
  - intros tr5 Hr. apply ramp_weaken with bound; [exact Hr | lia].
Qed.

(** X16: A link degradation never submits an intensity above 100, even when the
    end value it was given is larger: under the conditions of the ramp (a
    step size that is not negative, a start at or below both the end value
    and 100) the submitted intensities never decrease and stay at or below
    the smaller of the end value and 100. *)
Theorem link_degradation_stops_at_100 (self : t) (e a s : Z) (tr : trace) :
  degradation_end (fault_pattern_args self) = Ok e ->
  degradation_start_link W (fault_pattern_args self) = Ok a ->
  degradation_size_link W (fault_pattern_args self) = Ok s ->
  0 <= s -> a <= Z.min e 100 ->
  Ramp (submitted_intensities tr) (Z.min e 100)
    (snd (_inject_degradation_pattern W self tr)).
Proof.
  intros He Ha Hs Hs0 Hle.
  apply wp_snd. apply (link_degradation_capped self e a s tr); assumption.
Qed.

End LinkCap.

Lemma link_degradation_stops_at_100_witness :
  Ramp [] (Z.min 150 100)
    (snd (LinkInjector._inject_degradation_pattern quiet sample_link_ramp_high
            [])).
Proof.
  apply (link_degradation_stops_at_100 quiet sample_link_ramp_high 150 30 40
           []); try reflexivity; lia.
Defined.

(** ** A persistent link fault installs and removes the same qdisc *)

Section LinkPersistent.
Import LinkInjector.
Variable W : World.

(** One call of [inject_nics] without a filter: when it returns, it ran the
    one command of the unfiltered synthesizer, reported it once and did not
    sleep. *)
Lemma toggle_unfiltered_wp self pattern pattern_args enable tr :
  PyStr.contains "any" (fault_target_protocol self) = true ->
  wp (toggle W self pattern pattern_args enable)
     (fun _ tr' =>
        exists cmd,
          fst (make_nics_injection_command W (namespace_pid self)
                 (target_interface self) (fault_type self) pattern
                 match pattern_args with
                 | [] => None
                 | _ => Some pattern_args
                 end
                 (fault_args self) (if enable then "add" else "del") [])
          = Ok (Some cmd) /\
          shell_commands tr' = List.app (shell_commands tr) [cmd] /\
          fault_log tr' = List.app (fault_log tr) [(enable, tag self)] /\
          sleeps tr' = sleeps tr)
     (fun _ => True) tr.
Proof.
  intros Hany. unfold toggle, inject_nics. rewrite Hany.
  unfold wp, bind at 1.
  match goal with
  | |- context [make_nics_injection_command W ?p ?d ?ft ?fp ?pa ?fa ?tc tr] =>
      destruct (make_nics_run W p d ft fp pa fa tc tr)
        as (logged & -> & Hs & Hf & _ & Hz);
      destruct (fst (make_nics_injection_command W p d ft fp pa fa tc []))
        as [[cmd|]|ex]
  end; try exact I.
  unfold call, bind, sh, ret, set_fault_active, set_fault_inactive, emit.
  destruct enable; cbn beta iota zeta; exists cmd;
    (split; [reflexivity|]);
    rewrite ?shell_commands_app, ?fault_log_app, ?sleeps_app, Hs, Hf, Hz;
    cbn [shell_commands fault_log sleeps List.app];
    rewrite ?app_nil_r; auto.
Qed.

(** X17: A persistent or random fault without a filter, of a type that uses one
    [tc qdisc] command (any type except redirect and down): when it returns,
    it has run two commands, [tc qdisc add] and [tc qdisc del], on the same
    interface and with the same arguments after the device, with one sleep
    of the injection time between them and one activation and one
    deactivation reported. *)
Theorem link_persistent_installs_then_removes (self : t) (tr : trace) :
  PyStr.contains "any" (fault_target_protocol self) = true ->
  PyStr.contains "redirect" (fault_type self) = false ->
  PyStr.contains "down" (fault_type self) = false ->
  fst (_inject_persistent_or_random_pattern W self tr) = Ok tt ->
  exists rest f,
    to_float (injection_time self) = Ok f /\
    shell_commands (snd (_inject_persistent_or_random_pattern W self tr))
    = List.app (shell_commands tr)
        [base_command (namespace_pid self) ++ "tc qdisc add dev "
         ++ target_interface self ++ rest;
         base_command (namespace_pid self) ++ "tc qdisc del dev "
         ++ target_interface self ++ rest] /\
    sleeps (snd (_inject_persistent_or_random_pattern W self tr))
    = List.app (sleeps tr) [Float f] /\
    fault_log (snd (_inject_persistent_or_random_pattern W self tr))
    = List.app (fault_log tr) [(true, tag self); (false, tag self)].
Proof.
  intros Hany Hred Hdown Hrun.
  assert (Hwp :
    wp (_inject_persistent_or_random_pattern W self)
       (fun _ tr' =>
          exists rest f,
            to_float (injection_time self) = Ok f /\
            shell_commands tr'
            = List.app (shell_commands tr)
                [base_command (namespace_pid self) ++ "tc qdisc add dev "
                 ++ target_interface self ++ rest;
                 base_command (namespace_pid self) ++ "tc qdisc del dev "
                 ++ target_interface self ++ rest] /\
            sleeps tr' = List.app (sleeps tr) [Float f] /\
            fault_log tr'
            = List.app (fault_log tr) [(true, tag self); (false, tag self)])
       (fun _ => True) tr).
  { unfold _inject_persistent_or_random_pattern, getInjectionTime.
    wp_step W. wp_step W.
    wp_apply toggle_unfiltered_wp; [exact Hany|].
    destruct H as (c1 & Hc1 & Hs1 & Hf1 & Hz1).
    wp_step W. wp_step W. wp_step W; [|exact I].
    wp_step W. wp_step W. wp_step W; [|exact I].
    wp_exact toggle_unfiltered_wp; [exact Hany|].
    destruct H0 as (c2 & Hc2 & Hs2 & Hf2 & Hz2).
    destruct (wp_fst_ok _ _ _ _ _
                (netem_verb_wp W _ _ _ _ _ _ _ [] Hred Hdown) Hc1)
      as [_ Hverb].
    destruct (Hverb c1 eq_refl) as (rest & -> & Hother).
    rewrite Hother in Hc2. inversion Hc2; subst c2.
    exists rest, a0. split; [assumption|].
    repeat split.
    - rewrite Hs2. obs. rewrite Hs1. obs. reflexivity.
    - rewrite Hz2. obs. rewrite Hz1. obs. reflexivity.
    - rewrite Hf2. obs. rewrite Hf1. obs. reflexivity. }
  unfold wp in Hwp.
  destruct (_inject_persistent_or_random_pattern W self tr) as [[u|ex] tr'];
    [exact Hwp | discriminate].
Qed.

End LinkPersistent.

Lemma link_persistent_installs_then_removes_witness :
  exists rest f,
    to_float (Int 2) = Ok f /\
    shell_commands
      (snd (LinkInjector._inject_persistent_or_random_pattern quiet
              sample_link []))
    = List.app []
        [LinkInjector.base_command (Some 100) ++ "tc qdisc add dev "
         ++ "eth0" ++ rest;
         LinkInjector.base_command (Some 100) ++ "tc qdisc del dev "
         ++ "eth0" ++ rest] /\
    sleeps
      (snd (LinkInjector._inject_persistent_or_random_pattern quiet
              sample_link []))
    = List.app [] [Float f] /\
    fault_log
      (snd (LinkInjector._inject_persistent_or_random_pattern quiet
              sample_link []))
    = List.app [] [(true, "f1"); (false, "f1")].
Proof.
  apply (link_persistent_installs_then_removes quiet sample_link []);
    reflexivity.
Defined.

(** ** The waits around an injection *)

Section Waits.
Variable W : World.

Lemma extends_refl (tr : trace) : extends tr tr.
Proof. exists []. rewrite app_nil_r. reflexivity. Qed.

Lemma extends_snoc (tr0 tr : trace) (e : event) :
  extends tr0 tr -> extends tr0 (tr ++ [e])%list.
Proof. intros [l ->]. exists (l ++ [e])%list. symmetry. apply app_assoc. Qed.

Ltac ext :=
  first [ eassumption | exact I | apply extends_refl
        | apply extends_snoc; ext ].

Lemma wp_iter_frame {S : Type} (n : nat) (body : S -> M S)
  (I E : trace -> Prop) s tr :
  (forall s0 tr0, I tr0 -> wp (body s0) (fun _ => I) E tr0) ->
  I tr -> wp (iterM n body s) (fun _ => I) E tr.
Proof.
  intros Hbody. revert s tr. induction n as [|n IH]; intros s tr HI.
  - exact HI.
  - simpl. apply wp_bind. eapply wp_mono; [apply Hbody, HI | | auto].
    intros s' tr' HI'. apply IH, HI'.
Qed.

(** A loop whose body only adds events only adds events. *)
Ltac ext_loop :=
  first
    [ apply wp_repeat; [intros ? ?|]
    | apply wp_for; [intros ? ? ? ?|]
    | apply wp_iter_frame; [intros ? ? ?|] ].

Ltac ext_go :=
  repeat first [ wp_step W | ext_loop ]; try ext.

Lemma multi_burst_extends self tr0 tr :
  extends tr0 tr ->
  wp (MultiInjector._inject_burst W self) (fun _ => extends tr0)
     (fun _ => True) tr.
Proof.
  intros H. unfold MultiInjector._inject_burst, MultiInjector.burst_timing,
    MultiInjector.execute_command_for_node. ext_go.
Qed.

Lemma multi_persistent_extends self tr0 tr :
  extends tr0 tr ->
  wp (MultiInjector._inject_persistent W self) (fun _ => extends tr0)
     (fun _ => True) tr.
Proof.
  intros H. unfold MultiInjector._inject_persistent,
    MultiInjector.execute_command_for_node. ext_go.
Qed.

Lemma node_burst_extends self tr0 tr :
  extends tr0 tr ->
  wp (NodeInjector._inject_burst W self) (fun _ => extends tr0)
     (fun _ => True) tr.
Proof.
  intros H. unfold NodeInjector._inject_burst, NodeInjector.burst_timing,
    MultiInjector.burst_timing, NodeInjector._get_cgroup_size,
    NodeInjector.execute_command_for_node. ext_go.
Qed.

Lemma node_degradation_extends self tr0 tr :
  extends tr0 tr ->
  wp (NodeInjector._inject_degradation W self) (fun _ => extends tr0)
     (fun _ => True) tr.
Proof.
  intros H. unfold NodeInjector._inject_degradation,
    NodeInjector.degradation_config, NodeInjector._get_cgroup_size,
    NodeInjector.custom_degradation_step,
    NodeInjector.stress_degradation_step,
    NodeInjector.execute_command_for_node. ext_go.
Qed.

Lemma node_persistent_extends self tr0 tr :
  extends tr0 tr ->
  wp (NodeInjector._inject_persistent W self) (fun _ => extends tr0)
     (fun _ => True) tr.
Proof.
  intros H. unfold NodeInjector._inject_persistent,
    NodeInjector.persistent_commands, NodeInjector._get_cgroup_size,
    NodeInjector.execute_command_for_node. ext_go.
Qed.

Lemma link_toggle_extends tr0 self pattern pargs enable tr :
  extends tr0 tr ->
  wp (LinkInjector.toggle W self pattern pargs enable) (fun _ => extends tr0)
     (fun _ => True) tr.
Proof.
  intros H. unfold LinkInjector.toggle, LinkInjector.inject_nics,
    LinkInjector.make_nics_injection_command,
    LinkInjector.make_filtered_nics_injection_commands, LinkInjector.call.
  ext_go.
Qed.

Lemma link_burst_extends self tr0 tr :
  extends tr0 tr ->
  wp (LinkInjector._inject_burst_pattern W self) (fun _ => extends tr0)
     (fun _ => True) tr.
Proof.
  intros H. unfold LinkInjector._inject_burst_pattern,
    LinkInjector.getInjectionTime.
  repeat wp_step W; try ext.
  all: apply wp_repeat; [intros ? ?|ext].
  all: wp_apply (link_toggle_extends tr0); [ext|].
  all: wp_step W; wp_step W; [|exact I].
  all: wp_apply (link_toggle_extends tr0); [ext|].
  all: ext_go.
Qed.

Lemma link_degradation_extends self tr0 tr :
  extends tr0 tr ->
  wp (LinkInjector._inject_degradation_pattern W self) (fun _ => extends tr0)
     (fun _ => True) tr.
Proof.
  intros H. unfold LinkInjector._inject_degradation_pattern,
    LinkInjector.getInjectionTime.
  repeat wp_step W; try ext.
  all: apply wp_iter_frame; [intros ? ? ?|ext].
  all: unfold LinkInjector.degradation_step.
  all: wp_apply (link_toggle_extends tr0); [ext|].
  all: wp_step W; wp_step W; [|exact I].
  all: wp_apply (link_toggle_extends tr0); [ext|].
  all: ext_go.
Qed.

Lemma link_persistent_extends self tr0 tr :
  extends tr0 tr ->
  wp (LinkInjector._inject_persistent_or_random_pattern W self)
     (fun _ => extends tr0) (fun _ => True) tr.
Proof.
  intros H. unfold LinkInjector._inject_persistent_or_random_pattern,
    LinkInjector.getInjectionTime.
  wp_step W. wp_step W.
  wp_apply (link_toggle_extends tr0); [ext|].
  repeat wp_step W; try ext.
  wp_exact (link_toggle_extends tr0); [ext|ext].
Qed.

(** The straight part of a task: binds, results, log lines, conversions
    and sleeps, up to the next test or call. *)
Ltac wp_line :=
  repeat lazymatch goal with
         | |- wp (bind _ _) _ _ _ => apply wp_bind
         | |- wp (ret _) _ _ _ => apply wp_ret
         | |- wp (log _ _ _) _ _ _ => apply wp_log
         | |- wp (lift _) _ _ _ =>
             apply wp_lift; [intros ? ? | intros ? ?; exact I]
         | |- wp (sleep _ _) _ _ _ => apply wp_sleep; [|exact I]
         end.

(** A conversion made twice gives the same value twice. *)
Ltac same_results :=
  repeat match goal with
         | H1 : ?x = Ok ?a, H2 : ?x = Ok ?b |- _ =>
             assert (b = a) by congruence; subst b
         end.

Lemma waits_close (tag0 : string) (pre post : num) (tr tr1 : trace) :
  extends
    ((tr ++ [EvLog Info "Fault %s waits %s s of pre-injection time"
               [LVal (VStr tag0); LVal (VNum pre)]])
     ++ [EvSleep pre])%list tr1 ->
  waits_around tag0 pre post tr
    ((tr1 ++ [EvLog Info "Fault %s waits %s s of post-injection time"
                [LVal (VStr tag0); LVal (VNum post)]])
     ++ [EvSleep post])%list.
Proof.
  intros [mid ->]. exists mid. repeat rewrite <- app_assoc. reflexivity.
Qed.

Lemma multi_do_injection_waits self tr :
  wp (MultiInjector.do_injection W self)
     (fun _ =>
        waits_around (MultiInjector.tag self)
          (MultiInjector.pre_injection_time self)
          (MultiInjector.post_injection_time self) tr)
     (fun _ => True) tr.
Proof.
  unfold MultiInjector.do_injection.
  wp_step W. wp_step W. wp_step W. wp_step W; [|exact I].
  apply wp_bind.
  match goal with
  | |- wp _ _ _ ?base =>
      assert (Hmid :
        wp (if String.eqb (MultiInjector.fault_pattern self) "burst"
            then MultiInjector._inject_burst W self
            else if String.eqb (MultiInjector.fault_pattern self) "persistent"
                 then MultiInjector._inject_persistent W self
                 else log Error
                        "{self.tag} has unknown fault pattern: {self.fault_pattern}"
                        [LVal (VStr (MultiInjector.tag self));
                         LVal (VStr (MultiInjector.fault_pattern self))])
           (fun _ => extends base) (fun _ => True) base)
  end.
  { destruct (String.eqb (MultiInjector.fault_pattern self) "burst");
      [|destruct (String.eqb (MultiInjector.fault_pattern self) "persistent")].
    - apply multi_burst_extends, extends_refl.
    - apply multi_persistent_extends, extends_refl.
    - wp_step W. ext. }
  eapply wp_mono; [exact Hmid | cbv beta | auto].
  intros u tr1 Hext.
  wp_step W. wp_step W. wp_step W; [|exact I].
  apply waits_close, Hext.
Qed.

Lemma node_do_injection_waits self tr :
  wp (NodeInjector.do_injection W self)
     (fun _ =>
        waits_around (NodeInjector.tag self)
          (NodeInjector.pre_injection_time self)
          (NodeInjector.post_injection_time self) tr)
     (fun _ => True) tr.
Proof.
  unfold NodeInjector.do_injection.
  wp_step W. wp_step W. wp_step W. wp_step W; [|exact I].
  apply wp_bind.
  match goal with
  | |- wp _ _ _ ?base =>
      assert (Hmid :
        wp (if String.eqb (NodeInjector.fault_pattern self) "burst"
            then NodeInjector._inject_burst W self
            else if String.eqb (NodeInjector.fault_pattern self) "degradation"
                 then NodeInjector._inject_degradation W self
                 else if String.eqb (NodeInjector.fault_pattern self)
                           "persistent"
                      then NodeInjector._inject_persistent W self
                      else log Error "{self.tag} has unknown fault pattern"
                             [LVal (VStr (NodeInjector.tag self))])
           (fun _ => extends base) (fun _ => True) base)
  end.
  { destruct (String.eqb (NodeInjector.fault_pattern self) "burst");
      [|destruct (String.eqb (NodeInjector.fault_pattern self) "degradation");
        [|destruct (String.eqb (NodeInjector.fault_pattern self)
                     "persistent")]].
    - apply node_burst_extends, extends_refl.
    - apply node_degradation_extends, extends_refl.
    - apply node_persistent_extends, extends_refl.
    - wp_step W. ext. }
  eapply wp_mono; [exact Hmid | cbv beta | auto].
  intros u tr1 Hext.
  wp_step W. wp_step W. wp_step W; [|exact I].
  apply waits_close, Hext.
Qed.

Lemma link_do_injection_waits self tr :
  wp (LinkInjector.do_injection W self)
     (fun _ tr' =>
        exists pre post,
          to_float (LinkInjector.pre_injection_time self) = Ok pre /\
          to_float (LinkInjector.post_injection_time self) = Ok post /\
          waits_around (LinkInjector.tag self) (Float pre) (Float post) tr tr')
     (fun _ => True) tr.
Proof.
  unfold LinkInjector.do_injection, LinkInjector.getPreInjectionTime,
    LinkInjector.getPostInjectionTime.
  wp_line. same_results.
  match goal with
  | |- wp _ _ _ ?base =>
      assert (Hmid :
        wp (if PyStr.contains "burst" (LinkInjector.fault_pattern self)
            then LinkInjector._inject_burst_pattern W self
            else if PyStr.contains "degradation"
                      (LinkInjector.fault_pattern self)
                 then LinkInjector._inject_degradation_pattern W self
                 else LinkInjector._inject_persistent_or_random_pattern W self)
           (fun _ => extends base) (fun _ => True) base)
  end.
  { destruct (PyStr.contains "burst" (LinkInjector.fault_pattern self));
      [|destruct (PyStr.contains "degradation"
                    (LinkInjector.fault_pattern self))].
    - apply link_burst_extends, extends_refl.
    - apply link_degradation_extends, extends_refl.
    - apply link_persistent_extends, extends_refl. }
  eapply wp_mono; [exact Hmid | cbv beta | auto].
  intros u tr1 Hext.
  wp_line. same_results.
  do 2 eexists. split; [eassumption|]. split; [eassumption|].
  apply waits_close, Hext.
Qed.

(** X18: Every injection that returns is bracketed by its two waits, whatever
    the pattern and the fault type are and whatever happens in between: the
    task first announces and sleeps the pre-injection time, and the last
    two things it does are to announce and sleep the post-injection time.
    The multi and node injectors sleep the times as they were given; the
    link injector converts them to floats first. *)
Theorem injection_is_bracketed_by_waits :
  (forall (self : MultiInjector.t) (tr : trace),
     fst (MultiInjector.do_injection W self tr) = Ok tt ->
     waits_around (MultiInjector.tag self)
       (MultiInjector.pre_injection_time self)
       (MultiInjector.post_injection_time self) tr
       (snd (MultiInjector.do_injection W self tr))) /\
  (forall (self : NodeInjector.t) (tr : trace),
     fst (NodeInjector.do_injection W self tr) = Ok tt ->
     waits_around (NodeInjector.tag self)
       (NodeInjector.pre_injection_time self)
       (NodeInjector.post_injection_time self) tr
       (snd (NodeInjector.do_injection W self tr))) /\
  (forall (self : LinkInjector.t) (tr : trace),
     fst (LinkInjector.do_injection W self tr) = Ok tt ->
     exists pre post,
       to_float (LinkInjector.pre_injection_time self) = Ok pre /\
       to_float (LinkInjector.post_injection_time self) = Ok post /\
       waits_around (LinkInjector.tag self) (Float pre) (Float post) tr
         (snd (LinkInjector.do_injection W self tr))).
Proof.
  repeat split.
  - intros self tr Hrun.
    pose proof (multi_do_injection_waits self tr) as Hwp. unfold wp in Hwp.
    destruct (MultiInjector.do_injection W self tr) as [[u|ex] tr'];
      [exact Hwp | discriminate].
  - intros self tr Hrun.
    pose proof (node_do_injection_waits self tr) as Hwp. unfold wp in Hwp.
    destruct (NodeInjector.do_injection W self tr) as [[u|ex] tr'];
      [exact Hwp | discriminate].
  - intros self tr Hrun.
    pose proof (link_do_injection_waits self tr) as Hwp. unfold wp in Hwp.
    destruct (LinkInjector.do_injection W self tr) as [[u|ex] tr'];
      [exact Hwp | discriminate].
Qed.

End Waits.

Lemma injection_is_bracketed_by_waits_witness :
  waits_around "n1" (Int 0) (Int 0) []
    (snd (NodeInjector.do_injection quiet sample_node [])).
Proof.
  apply (proj1 (proj2 (injection_is_bracketed_by_waits quiet)) sample_node []).
  reflexivity.
Defined.
